(** * WaveXcontrol: gesture classification and pointer control

    A shallow embedding of [src/gcpy.py]: the per-hand recogniser
    [HandRecog] (finger-state extraction, gesture disambiguation and the
    run-length debounce), the class-level state machine [Controller]
    (cursor damping, click and drag flags, pinch scroll) and the
    handedness dispatch [GestureController.classify_hands], followed by
    the properties the specification states about them.

    Python values are modelled as the interpreter has them: [int] as [Z],
    [float] as the kernel's binary64 [float] (so every definition runs),
    exceptions as an error result, class attributes as record fields
    threaded through each call, and the calls into [pyautogui] as a list
    of emitted actions. *)

From Stdlib Require Import ZArith List Bool String Lia Arith.
From Stdlib Require Import Floats.PrimFloat Floats.SpecFloat Floats.FloatOps.
Import ListNotations.

Set Warnings "-inexact-float,-register-all".
Local Open Scope Z_scope.

(* ===================================================================== *)
(** ** Exceptions and the error result *)
(* ===================================================================== *)

(** The Python exceptions the modelled code can raise. [NameError] and
    [AttributeError] carry the name that failed to resolve. *)
Inductive exn : Type :=
  | ZeroDivisionError
  | OverflowError
  | ValueError
  | IndexError
  | TypeError
  | KeyError (key : string)
  | NameError (name : string)
  | AttributeError (attr : string).

Inductive result (A : Type) : Type :=
  | Ok (a : A)
  | Raise (e : exn).

Arguments Ok {A} a.
Arguments Raise {A} e.

Definition bind {A B : Type} (c : result A) (k : A -> result B) : result B :=
  match c with
  | Ok a => k a
  | Raise e => Raise e
  end.

Notation "x <- c ;; k" := (bind c (fun x => k))
  (at level 61, c at next level, right associativity).
Notation "' p <- c ;; k" := (bind c (fun v => let p := v in k))
  (at level 61, p pattern, c at next level, right associativity).

(* ===================================================================== *)
(** ** Python arithmetic on [int] and [float] *)
(* ===================================================================== *)

Module Py.

(** [float(n)] for an [int]: the nearest binary64 value, ties to even;
    CPython raises [OverflowError] once the rounded value would pass the
    largest finite double, i.e. from [2^1024 - 2^970] on. *)
Definition Z2F (n : Z) : float :=
  SF2Prim (binary_normalize prec emax n 0 false).

Definition float_of_int (n : Z) : result float :=
  if Z.abs n <? 2 ^ 1024 - 2 ^ 970 then Ok (Z2F n) else Raise OverflowError.

(** [int(f)]: truncation toward zero; [ValueError] on NaN and
    [OverflowError] on an infinity. *)
Definition int_of_float (f : float) : result Z :=
  match Prim2SF f with
  | S754_zero _ => Ok 0
  | S754_finite s m e =>
      let a := if 0 <=? e then Zpos m * 2 ^ e else Zpos m / 2 ^ (- e) in
      Ok (if s then - a else a)
  | S754_infinity _ => Raise OverflowError
  | S754_nan => Raise ValueError
  end.

Definition is_finite (f : float) : bool :=
  negb (is_nan f) && negb (is_infinity f).

(** [f ** 2] on a float: CPython reports a result that overflows from a
    finite base as [OverflowError].  The C library's [pow(f, 2.0)] is
    taken to be the correctly rounded product. *)
Definition pow2 (f : float) : result float :=
  let r := (f * f)%float in
  if is_finite f && is_infinity r then Raise OverflowError else Ok r.

(** [a / b] on floats: [ZeroDivisionError] exactly when [b == 0.0]
    (either sign of zero); overflow and NaN are returned, not raised. *)
Definition div (a b : float) : result float :=
  if (b =? 0)%float then Raise ZeroDivisionError else Ok (a / b)%float.

(** [round(f, 1)]: the decimal with one fractional digit nearest to the
    exact value of [f] (exact ties to the even digit), read back as the
    nearest double: [n / 10] for the integer [n] of tenths, which is
    exact as a float below [2^53].  Values without a fractional part,
    infinities and NaN are returned unchanged. *)
Definition round1 (f : float) : float :=
  match Prim2SF f with
  | S754_finite s m e =>
      if 0 <=? e then f
      else
        let num := 10 * Zpos m in
        let den := 2 ^ (- e) in
        let q := num / den in
        let r := num mod den in
        let n := if 2 * r <? den then q
                 else if den <? 2 * r then q + 1
                 else if Z.even q then q else q + 1 in
        let v := SF2Prim (SFdiv prec emax
                            (binary_normalize prec emax n 0 false)
                            (binary_normalize prec emax 10 0 false)) in
        if s then (- v)%float else v
  | _ => f
  end.

(** [n ** (1/2)] for an [int] [n >= 0]: the base is converted to float
    and the C library's [pow(x, 0.5)] is taken to be the correctly
    rounded square root. *)
Definition pow_half (n : Z) : result float :=
  f <- float_of_int n ;; Ok (sqrt f).

End Py.

(** A Python number that is either an [int] or a [float]. *)
Inductive num : Type :=
  | PInt (n : Z)
  | PFloat (f : float).

(* ===================================================================== *)
(** ** Gesture encodings *)
(* ===================================================================== *)

(** [class Gest(IntEnum)]: members compare and combine as their integer
    values, and [HandRecog.finger] holds arbitrary bit patterns, so a
    gesture is a [Z]. *)
Module Gest.
Definition FIST : Z := 0.
Definition PINKY : Z := 1.
Definition RING : Z := 2.
Definition MID : Z := 4.
Definition LAST3 : Z := 7.
Definition INDEX : Z := 8.
Definition FIRST2 : Z := 12.
Definition LAST4 : Z := 15.
Definition THUMB : Z := 16.
Definition PALM : Z := 31.
Definition V_GEST : Z := 33.
Definition TWO_FINGER_CLOSED : Z := 34.
Definition PINCH_MAJOR : Z := 35.
Definition PINCH_MINOR : Z := 36.
End Gest.

(** [class HLabel(IntEnum)]. *)
Module HLabel.
Definition MINOR : Z := 0.
Definition MAJOR : Z := 1.
End HLabel.

(* ===================================================================== *)
(** ** Landmarks *)
(* ===================================================================== *)

Module Lm.
Record t : Type := mk { x : float; y : float; z : float }.
End Lm.

(** [hand_result.landmark]: the repeated field of one detected hand. *)
Definition hand : Type := list Lm.t.

(** [hand_result.landmark[i]] where [hand_result] may be [None]. *)
Definition landmark (hand_result : option hand) (i : nat) : result Lm.t :=
  match hand_result with
  | None => Raise (AttributeError "landmark")
  | Some h =>
      match nth_error h i with
      | Some p => Ok p
      | None => Raise IndexError
      end
  end.

(* ===================================================================== *)
(** ** HandRecog *)
(* ===================================================================== *)

Module HandRecog.

(** The instance attributes.  [frame_count] is only ever reset to 0 or
    incremented, so it is a natural number. *)
Record t : Type := mk {
  finger : Z;
  ori_gesture : Z;
  prev_gesture : Z;
  frame_count : nat;
  hand_result : option hand;
  hand_label : Z
}.

(** [__init__] *)
Definition init (hand_label : Z) : t :=
  mk 0 Gest.PALM Gest.PALM 0 None hand_label.

Definition update_hand_result (self : t) (hr : option hand) : t :=
  mk (finger self) (ori_gesture self) (prev_gesture self)
     (frame_count self) hr (hand_label self).

Definition set_finger (self : t) (f : Z) : t :=
  mk f (ori_gesture self) (prev_gesture self)
     (frame_count self) (hand_result self) (hand_label self).

Definition get_signed_dist (self : t) (point : nat * nat) : result float :=
  p0 <- landmark (hand_result self) (fst point) ;;
  p1 <- landmark (hand_result self) (snd point) ;;
  let sign := if (Lm.y p0 <? Lm.y p1)%float then 1 else -1 in
  dx2 <- Py.pow2 (Lm.x p0 - Lm.x p1)%float ;;
  dy2 <- Py.pow2 (Lm.y p0 - Lm.y p1)%float ;;
  let dist := sqrt (dx2 + dy2)%float in
  Ok (dist * Py.Z2F sign)%float.

Definition get_dist (self : t) (point : nat * nat) : result float :=
  p0 <- landmark (hand_result self) (fst point) ;;
  p1 <- landmark (hand_result self) (snd point) ;;
  dx2 <- Py.pow2 (Lm.x p0 - Lm.x p1)%float ;;
  dy2 <- Py.pow2 (Lm.y p0 - Lm.y p1)%float ;;
  Ok (sqrt (dx2 + dy2))%float.

Definition get_dz (self : t) (point : nat * nat) : result float :=
  p0 <- landmark (hand_result self) (fst point) ;;
  p1 <- landmark (hand_result self) (snd point) ;;
  Ok (abs (Lm.z p0 - Lm.z p1))%float.

(** [points = [[8,5,0],[12,9,0],[16,13,0],[20,17,0]]] *)
Definition points : list (nat * nat * nat) :=
  [(8, 5, 0); (12, 9, 0); (16, 13, 0); (20, 17, 0)]%nat.

(** The [try]/[except] of the loop body.  The handler reads [dist1], a
    name bound nowhere in the function or the module, so entering it
    raises [NameError]. *)
Definition finger_ratio (self : t) (point : nat * nat * nat) : result float :=
  let '(tip, knuckle, wrist) := point in
  dist <- get_signed_dist self (tip, knuckle) ;;
  dist2 <- get_signed_dist self (knuckle, wrist) ;;
  match Py.div dist dist2 with
  | Ok q => Ok (Py.round1 q)
  | Raise _ => Raise (NameError "dist1")
  end.

(** The [for] loop of [set_finger_state], threading [self.finger]. *)
Fixpoint finger_loop (self : t) (pts : list (nat * nat * nat)) (f : Z)
  : result Z :=
  match pts with
  | [] => Ok f
  | point :: rest =>
      ratio <- finger_ratio self point ;;
      let f1 := Z.shiftl f 1 in
      let f2 := if (0.5 <? ratio)%float then Z.lor f1 1 else f1 in
      finger_loop self rest f2
  end.

(** [set_finger_state].  An exception leaves the loop and the frame; the
    half-written [finger] is not observed by anyone and is not kept. *)
Definition set_finger_state (self : t) : result t :=
  match hand_result self with
  | None => Ok self
  | Some _ =>
      f <- finger_loop self points (Z.lor 0 0) ;;
      Ok (set_finger self f)
  end.

(** The gesture computed for the current frame: lines 182-203 of
    [get_gesture], before the debounce. *)
Definition current_gesture (self : t) : result Z :=
  let in_last := (finger self =? Gest.LAST3) || (finger self =? Gest.LAST4) in
  pinch <- (if in_last
            then d <- get_dist self (8, 4)%nat ;; Ok (d <? 0.05)%float
            else Ok false) ;;
  if pinch then
    if hand_label self =? HLabel.MINOR
    then Ok Gest.PINCH_MINOR
    else Ok Gest.PINCH_MAJOR
  else if Gest.FIRST2 =? finger self then
    dist1 <- get_dist self (8, 12)%nat ;;
    dist2 <- get_dist self (5, 9)%nat ;;
    ratio <- Py.div dist1 dist2 ;;
    if (1.7 <? ratio)%float then Ok Gest.V_GEST
    else
      dz <- get_dz self (8, 12)%nat ;;
      if (dz <? 0.1)%float then Ok Gest.TWO_FINGER_CLOSED else Ok Gest.MID
  else Ok (finger self).

(** The debounce: lines 205-214. *)
Definition settle (self : t) (current : Z) : Z * t :=
  let fc := if current =? prev_gesture self
            then S (frame_count self) else O in
  let ori := if (4 <? fc)%nat then current else ori_gesture self in
  (ori, mk (finger self) ori current fc (hand_result self) (hand_label self)).

Definition get_gesture (self : t) : result (Z * t) :=
  match hand_result self with
  | None => Ok (Gest.PALM, self)
  | Some _ =>
      current <- current_gesture self ;;
      Ok (settle self current)
  end.

End HandRecog.

(* ===================================================================== *)
(** ** The operating-system boundary *)
(* ===================================================================== *)

(** The calls into [pyautogui] that change the machine, with the
    arguments the source passes: [moveTo] may be handed [None], [click] is
    called with or without a button. *)
Inductive action : Type :=
  | MoveTo (x y : option num)
  | MouseDown (button : string)
  | MouseUp (button : string)
  | Click (button : option string)
  | DoubleClick
  | Scroll (clicks : Z)
  | KeyDown (key : string)
  | KeyUp (key : string).

(** What [pyautogui.size()] and [pyautogui.position()] answer during one
    call of the controller. *)
Record os : Type := mkOs {
  size : Z * Z;
  position : Z * Z
}.

(* ===================================================================== *)
(** ** Controller *)
(* ===================================================================== *)

Module Controller.

(** The class attributes.  [prevpinchlv] and [pinchlv] start as the
    [int] 0 and later hold floats; they are only subtracted from a float
    and compared with a float, where 0 and 0.0 agree, so both are
    carried as floats.  [framecount] is only reset to 0 or incremented,
    so it is a natural number. *)
Record t : Type := mk {
  tx_old : Z;
  ty_old : Z;
  trial : bool;
  flag : bool;
  grabflag : bool;
  pinchmajorflag : bool;
  pinchminorflag : bool;
  pinchstartxcoord : option float;
  pinchstartycoord : option float;
  pinchdirectionflag : option bool;
  prevpinchlv : float;
  pinchlv : float;
  framecount : nat;
  prev_hand : option (Z * Z);
  pinch_threshold : float
}.

(** The class body's initial values. *)
Definition init : t :=
  mk 0 0 true false false false false None None None 0%float 0%float 0
     None 0.3%float.

Definition set_flag (c : t) (b : bool) : t :=
  mk (tx_old c) (ty_old c) (trial c) b (grabflag c) (pinchmajorflag c)
     (pinchminorflag c) (pinchstartxcoord c) (pinchstartycoord c)
     (pinchdirectionflag c) (prevpinchlv c) (pinchlv c) (framecount c)
     (prev_hand c) (pinch_threshold c).

Definition set_grabflag (c : t) (b : bool) : t :=
  mk (tx_old c) (ty_old c) (trial c) (flag c) b (pinchmajorflag c)
     (pinchminorflag c) (pinchstartxcoord c) (pinchstartycoord c)
     (pinchdirectionflag c) (prevpinchlv c) (pinchlv c) (framecount c)
     (prev_hand c) (pinch_threshold c).

Definition set_pinchmajorflag (c : t) (b : bool) : t :=
  mk (tx_old c) (ty_old c) (trial c) (flag c) (grabflag c) b
     (pinchminorflag c) (pinchstartxcoord c) (pinchstartycoord c)
     (pinchdirectionflag c) (prevpinchlv c) (pinchlv c) (framecount c)
     (prev_hand c) (pinch_threshold c).

Definition set_pinchminorflag (c : t) (b : bool) : t :=
  mk (tx_old c) (ty_old c) (trial c) (flag c) (grabflag c)
     (pinchmajorflag c) b (pinchstartxcoord c) (pinchstartycoord c)
     (pinchdirectionflag c) (prevpinchlv c) (pinchlv c) (framecount c)
     (prev_hand c) (pinch_threshold c).

Definition set_prev_hand (c : t) (p : option (Z * Z)) : t :=
  mk (tx_old c) (ty_old c) (trial c) (flag c) (grabflag c)
     (pinchmajorflag c) (pinchminorflag c) (pinchstartxcoord c)
     (pinchstartycoord c) (pinchdirectionflag c) (prevpinchlv c)
     (pinchlv c) (framecount c) p (pinch_threshold c).

(** The pinch registers: start coordinates, direction flag, recorded and
    committed levels, and the stability counter.  The flag that opens
    and closes a session, [pinchminorflag], has its own setter. *)
Definition set_pinch (c : t) (sx sy : option float) (dir : option bool)
    (prev lv : float) (fc : nat) : t :=
  mk (tx_old c) (ty_old c) (trial c) (flag c) (grabflag c)
     (pinchmajorflag c) (pinchminorflag c) sx sy dir prev lv fc
     (prev_hand c) (pinch_threshold c).

(** *** Pinch levels *)

Definition getpinchylv (c : t) (hand_result : option hand) : result float :=
  p <- landmark hand_result 8 ;;
  match pinchstartycoord c with
  | None => Raise TypeError
  | Some y0 => Ok (Py.round1 ((y0 - Lm.y p) * 10))%float
  end.

Definition getpinchxlv (c : t) (hand_result : option hand) : result float :=
  p <- landmark hand_result 8 ;;
  match pinchstartxcoord c with
  | None => Raise TypeError
  | Some x0 => Ok (Py.round1 ((Lm.x p - x0) * 10))%float
  end.

(** *** Scroll callbacks: the actions they emit, reading [pinchlv] *)

Definition scrollVertical (c : t) : list action :=
  [Scroll (if (0 <? pinchlv c)%float then 120 else -120)].

Definition scrollHorizontal (c : t) : list action :=
  [KeyDown "shift"; KeyDown "ctrl";
   Scroll (if (0 <? pinchlv c)%float then -120 else 120);
   KeyUp "ctrl"; KeyUp "shift"].

(** *** Cursor position *)

(** Lines 305-310: the hand's anchor landmark in screen pixels. *)
Definition hand_pixel (o : os) (hand_result : option hand) : result (Z * Z) :=
  p <- landmark hand_result 9 ;;
  let '(sx, sy) := size o in
  fsx <- Py.float_of_int sx ;;
  x <- Py.int_of_float (Lm.x p * fsx)%float ;;
  fsy <- Py.float_of_int sy ;;
  y <- Py.int_of_float (Lm.y p * fsy)%float ;;
  Ok (x, y).

(** [old + delta * ratio] with a float [ratio]. *)
Definition scaled (old delta : Z) (ratio : float) : result float :=
  fd <- Py.float_of_int delta ;;
  fo <- Py.float_of_int old ;;
  Ok (fo + fd * ratio)%float.

(** Lines 312-332: the delta from the previous hand position, the
    update of [prev_hand] and the three-tier damping.  The state is
    returned also when the arithmetic raises. *)
Definition damp (c : t) (o : os) (x y : Z) : t * result (num * num) :=
  let '(x_old, y_old) := position o in
  let prev := match prev_hand c with None => (x, y) | Some p => p end in
  let delta_x := x - fst prev in
  let delta_y := y - snd prev in
  let distsq := delta_x ^ 2 + delta_y ^ 2 in
  let c1 := set_prev_hand c (Some (x, y)) in
  (c1,
   if distsq <=? 25 then
     Ok (PInt (x_old + delta_x * 0), PInt (y_old + delta_y * 0))
   else
     ratio <- (if distsq <=? 900
               then r <- Py.pow_half distsq ;; Ok (0.07 * r)%float
               else Ok 2.1%float) ;;
     nx <- scaled x_old delta_x ratio ;;
     ny <- scaled y_old delta_y ratio ;;
     Ok (PFloat nx, PFloat ny)).

(** [get_position]: both [except] clauses answer [(0, 0)]. *)
Definition get_position (c : t) (o : os) (hand_result : option hand)
  : (num * num) * t :=
  match hand_pixel o hand_result with
  | Raise _ => ((PInt 0, PInt 0), c)
  | Ok (x, y) =>
      match damp c o x y with
      | (c1, Ok p) => (p, c1)
      | (c1, Raise _) => ((PInt 0, PInt 0), c1)
      end
  end.

(** *** Pinch scroll *)

Definition pinch_control_init (c : t) (hand_result : option hand) : result t :=
  p <- landmark hand_result 8 ;;
  Ok (set_pinch c (Some (Lm.x p)) (Some (Lm.y p)) (pinchdirectionflag c)
        0%float 0%float 0).

(** Lines 364-371: the commit of a level that stayed stable. *)
Definition pinch_commit (c : t) : t * list action :=
  if (framecount c =? 5)%nat then
    let c1 := set_pinch c (pinchstartxcoord c) (pinchstartycoord c)
                (pinchdirectionflag c) (prevpinchlv c) (prevpinchlv c) 0 in
    (c1, match pinchdirectionflag c1 with
         | Some true => scrollHorizontal c1
         | _ => scrollVertical c1
         end)
  else (c, []).

(** One axis of lines 376-389. *)
Definition pinch_axis (c : t) (dir : bool) (lv : float) : t :=
  if (abs (prevpinchlv c - lv) <? pinch_threshold c)%float then
    set_pinch c (pinchstartxcoord c) (pinchstartycoord c) (Some dir)
      (prevpinchlv c) (pinchlv c) (S (framecount c))
  else
    set_pinch c (pinchstartxcoord c) (pinchstartycoord c) (Some dir)
      lv (pinchlv c) 0.

(** Lines 376-389: axis selection and the stability counter. *)
Definition pinch_track (c : t) (lvx lvy : float) : t :=
  if ((abs lvx <? abs lvy) && (pinch_threshold c <? abs lvy))%float then
    pinch_axis c false lvy
  else if (pinch_threshold c <? abs lvx)%float then
    pinch_axis c true lvx
  else c.

(** [pinch_control] with the two scroll callbacks of [handle_controls].
    The commit's state and actions are returned also when reading the
    levels raises. *)
Definition pinch_control (c : t) (hand_result : option hand)
  : t * list action * result unit :=
  let '(c1, acts) := pinch_commit c in
  match getpinchxlv c1 hand_result with
  | Raise e => (c1, acts, Raise e)
  | Ok lvx =>
      match getpinchylv c1 hand_result with
      | Raise e => (c1, acts, Raise e)
      | Ok lvy => (pinch_track c1 lvx lvy, acts, Ok tt)
      end
  end.

(** *** Gesture dispatch *)

(** The guard of the last [elif] of [handle_controls]. *)
Definition combined_pinch_guard (gesture : Z) : bool :=
  (gesture =? Gest.PINCH_MAJOR) && (gesture =? Gest.PINCH_MINOR).

(** [handle_controls]: the final state, the actions emitted in order,
    and whether the call returned or raised.  The body of the last
    [elif] starts by reading [Controller.get_pinch_gap], an attribute
    the class does not define, so entering it raises
    [AttributeError]. *)
Definition handle_controls (c : t) (o : os) (gesture : Z)
    (hand_result : option hand) : t * list action * result unit :=
  let '(x, y, c0) :=
    if negb (gesture =? Gest.PALM)
    then let '((x, y), c') := get_position c o hand_result in
         (Some x, Some y, c')
    else (None, None, c) in
  (* Flag reset *)
  let '(c1, a1) :=
    if negb (gesture =? Gest.FIST) && grabflag c0
    then (set_grabflag c0 false, [MouseUp "left"])
    else (c0, []) in
  let c2 :=
    if negb (gesture =? Gest.PINCH_MAJOR) && pinchmajorflag c1
    then set_pinchmajorflag c1 false else c1 in
  let c3 :=
    if negb (gesture =? Gest.PINCH_MINOR) && pinchminorflag c2
    then set_pinchminorflag c2 false else c2 in
  (* Implementation *)
  if gesture =? Gest.V_GEST then
    (set_flag c3 true, a1 ++ [MoveTo x y], Ok tt)
  else if gesture =? Gest.FIST then
    let '(c4, a2) :=
      if negb (grabflag c3)
      then (set_grabflag c3 true, [MouseDown "left"])
      else (c3, []) in
    (c4, a1 ++ a2 ++ [MoveTo x y], Ok tt)
  else if (gesture =? Gest.MID) && flag c3 then
    (set_flag c3 false, a1 ++ [Click None], Ok tt)
  else if (gesture =? Gest.INDEX) && flag c3 then
    (set_flag c3 false, a1 ++ [Click (Some "right"%string)], Ok tt)
  else if (gesture =? Gest.TWO_FINGER_CLOSED) && flag c3 then
    (set_flag c3 false, a1 ++ [DoubleClick], Ok tt)
  else if gesture =? Gest.PINCH_MINOR then
    match (if negb (pinchminorflag c3)
           then ci <- pinch_control_init c3 hand_result ;;
                Ok (set_pinchminorflag ci true)
           else Ok c3) with
    | Raise e => (c3, a1, Raise e)
    | Ok c4 =>
        let '(c5, a2, r) := pinch_control c4 hand_result in
        (c5, a1 ++ a2, r)
    end
  else if combined_pinch_guard gesture then
    (c3, a1, Raise (AttributeError "get_pinch_gap"))
  else (c3, a1, Ok tt).

End Controller.

(* ===================================================================== *)
(** ** GestureController: hand roles *)
(* ===================================================================== *)

(** A value of the dictionary [MessageToDict] builds. *)
Inductive pyval : Type :=
  | VNone
  | VInt (n : Z)
  | VFloat (f : float)
  | VStr (s : string)
  | VList (l : list pyval)
  | VDict (d : list (string * pyval)).

(** One entry of [results.multi_handedness]: a message [MessageToDict]
    turns into a dictionary, or an object it rejects. *)
Inductive payload : Type :=
  | Parsed (d : pyval)
  | Unparseable.

(** What the detector hands over for one frame. *)
Record results : Type := mkResults {
  multi_hand_landmarks : option (list hand);
  multi_handedness : option (list payload)
}.

Module GestureController.

Definition MessageToDict (m : payload) : result pyval :=
  match m with
  | Parsed d => Ok d
  | Unparseable => Raise (AttributeError "DESCRIPTOR")
  end.

Fixpoint dict_get (d : list (string * pyval)) (key : string) : option pyval :=
  match d with
  | [] => None
  | (k, v) :: rest => if String.eqb k key then Some v else dict_get rest key
  end.

(** [v[key]] with a string key. *)
Definition getitem_key (v : pyval) (key : string) : result pyval :=
  match v with
  | VDict d =>
      match dict_get d key with
      | Some w => Ok w
      | None => Raise (KeyError key)
      end
  | _ => Raise TypeError
  end.

(** [v[0]]. *)
Definition getitem_0 (v : pyval) : result pyval :=
  match v with
  | VList (w :: _) => Ok w
  | VList [] => Raise IndexError
  | VStr (String a _) => Ok (VStr (String a EmptyString))
  | VStr EmptyString => Raise IndexError
  | VDict _ => Raise (KeyError "0")
  | _ => Raise TypeError
  end.

(** [v == 'Right'] *)
Definition is_Right (v : pyval) : bool :=
  match v with
  | VStr s => String.eqb s "Right"
  | _ => false
  end.

(** [seq[i]] on an attribute that may be [None]. *)
Definition subscript {A : Type} (seq : option (list A)) (i : nat) : result A :=
  match seq with
  | None => Raise TypeError
  | Some l =>
      match nth_error l i with
      | Some a => Ok a
      | None => Raise IndexError
      end
  end.

(** [handedness_dict['classification'][0]['label']] *)
Definition label_of (handedness_dict : pyval) : result pyval :=
  cl <- getitem_key handedness_dict "classification" ;;
  c0 <- getitem_0 cl ;;
  getitem_key c0 "label".

(** The body of one [try] block of [classify_hands] for detection [i]:
    whether its label reads 'Right', and its landmarks. *)
Definition hand_side (r : results) (i : nat) : result (bool * hand) :=
  m <- subscript (multi_handedness r) i ;;
  handedness_dict <- MessageToDict m ;;
  label <- label_of handedness_dict ;;
  h <- subscript (multi_hand_landmarks r) i ;;
  Ok (is_Right label, h).

(** One [try]/[except: pass] block, acting on [(left, right)]. *)
Definition assign (r : results) (i : nat) (lr : option hand * option hand)
  : option hand * option hand :=
  match hand_side r i with
  | Ok (true, h) => (fst lr, Some h)
  | Ok (false, h) => (Some h, snd lr)
  | Raise _ => lr
  end.

(** [classify_hands]: the new [(hr_major, hr_minor)]. *)
Definition classify_hands (dom_hand : bool) (r : results)
  : option hand * option hand :=
  let '(lft, rgt) := assign r 1 (assign r 0 (None, None)) in
  if dom_hand then (rgt, lft) else (lft, rgt).

End GestureController.

(* ===================================================================== *)
(** ** The frame loop *)
(* ===================================================================== *)

(** The state that lives across frames in [start_streamlit_mode]: the two
    recognisers and the controller's class attributes. *)
Record session : Type := mkSession {
  handmajor : HandRecog.t;
  handminor : HandRecog.t;
  controller : Controller.t
}.

Definition session_init : session :=
  mkSession (HandRecog.init HLabel.MAJOR) (HandRecog.init HLabel.MINOR)
            Controller.init.

(** The recogniser part of one frame for one hand:
    [update_hand_result], [set_finger_state]. *)
Definition observe (self : HandRecog.t) (hr : option hand) : result HandRecog.t :=
  HandRecog.set_finger_state (HandRecog.update_hand_result self hr).

(** The body of the loop once [results.multi_hand_landmarks] is truthy.
    [dom_hand] is the class default [True]. *)
Definition frame_hands (s : session) (o : os) (r : results)
  : session * list action * result unit :=
  let '(hr_major, hr_minor) := GestureController.classify_hands true r in
  match observe (handmajor s) hr_major with
  | Raise e => (s, [], Raise e)
  | Ok hM =>
      match observe (handminor s) hr_minor with
      | Raise e => (mkSession hM (handminor s) (controller s), [], Raise e)
      | Ok hm =>
          match HandRecog.get_gesture hm with
          | Raise e => (mkSession hM hm (controller s), [], Raise e)
          | Ok (gest_minor, hm') =>
              if gest_minor =? Gest.PINCH_MINOR then
                let '(c', acts, res) :=
                  Controller.handle_controls (controller s) o gest_minor
                    (HandRecog.hand_result hm') in
                (mkSession hM hm' c', acts, res)
              else
                match HandRecog.get_gesture hM with
                | Raise e => (mkSession hM hm' (controller s), [], Raise e)
                | Ok (gest_major, hM') =>
                    let '(c', acts, res) :=
                      Controller.handle_controls (controller s) o gest_major
                        (HandRecog.hand_result hM') in
                    (mkSession hM' hm' c', acts, res)
                end
          end
      end
  end.

Definition truthy {A : Type} (l : option (list A)) : bool :=
  match l with
  | Some (_ :: _) => true
  | _ => false
  end.

(** One iteration of the loop. *)
Definition frame_step (s : session) (o : os) (r : results)
  : session * list action * result unit :=
  if truthy (multi_hand_landmarks r) then frame_hands s o r
  else (mkSession (handmajor s) (handminor s)
          (Controller.set_prev_hand (controller s) None), [], Ok tt).

(** The loop over a list of frames; it ends at the first exception. *)
Fixpoint run_frames (s : session) (frames : list (os * results))
  : session * list action * result unit :=
  match frames with
  | [] => (s, [], Ok tt)
  | (o, r) :: rest =>
      match frame_step s o r with
      | (s1, acts, Ok _) =>
          let '(s2, acts2, res) := run_frames s1 rest in
          (s2, acts ++ acts2, res)
      | stop => stop
      end
  end.

(* ===================================================================== *)
(** ** Streams of frames for one recogniser *)
(* ===================================================================== *)

Module Stream.
Import HandRecog.

(** What the loop does with one hand in one frame: store the landmarks,
    extract the finger state, ask for the gesture. *)
Definition recog_frame (self : t) (hr : option hand) : result (Z * t) :=
  s1 <- observe self hr ;;
  get_gesture s1.

(** The gestures [get_gesture] returns over a stream of frames. *)
Fixpoint recog_run (self : t) (frames : list (option hand))
  : result (list Z * t) :=
  match frames with
  | [] => Ok ([], self)
  | hr :: rest =>
      '(g, s1) <- recog_frame self hr ;;
      '(gs, s2) <- recog_run s1 rest ;;
      Ok (g :: gs, s2)
  end.

(** The debounce alone, fed with the raw gesture of each frame. *)
Definition settle_run (self : t) (raw : list Z) : t :=
  fold_left (fun s g => snd (settle s g)) raw self.

Fixpoint settled_trace (self : t) (raw : list Z) : list Z :=
  match raw with
  | [] => []
  | g :: rest => fst (settle self g) :: settled_trace (snd (settle self g)) rest
  end.

End Stream.

(* ===================================================================== *)
(** ** Example hands *)
(* ===================================================================== *)

Module Hands.

Definition pt (x y : float) : Lm.t := Lm.mk x y 0%float.

(** A hand seen from the palm, wrist at the bottom of the frame: the
    thumb tip, the four finger tips and the index and middle base
    knuckles are given, the other joints are fixed. *)
Definition mk_hand (thumb i m r p k5 k9 : Lm.t) : hand :=
  [ pt 0.5 0.9; pt 0.4 0.8; pt 0.3 0.75; pt 0.25 0.7; thumb;
    k5; pt 0.4 0.5; pt 0.4 0.4; i;
    k9; pt 0.5 0.5; pt 0.5 0.4; m;
    pt 0.6 0.6; pt 0.6 0.5; pt 0.6 0.4; r;
    pt 0.7 0.6; pt 0.7 0.5; pt 0.7 0.4; p ]%float.

(** Four fingers stretched, thumb away from the index tip. *)
Definition open4 : hand :=
  mk_hand (pt 0.2 0.7) (pt 0.4 0.2) (pt 0.5 0.2) (pt 0.6 0.2) (pt 0.7 0.2)
          (pt 0.4 0.6) (pt 0.5 0.6).

(** All four finger tips below their base knuckles. *)
Definition fist : hand :=
  mk_hand (pt 0.2 0.7) (pt 0.4 0.65) (pt 0.5 0.65) (pt 0.6 0.65)
          (pt 0.7 0.65) (pt 0.4 0.6) (pt 0.5 0.6).

(** Index and middle stretched, their base knuckles at the same [x]
    and [y]. *)
Definition first2_same_base : hand :=
  mk_hand (pt 0.2 0.7) (pt 0.4 0.2) (pt 0.5 0.2) (pt 0.6 0.65)
          (pt 0.7 0.65) (pt 0.45 0.6) (pt 0.45 0.6).

(** Index and middle stretched and close together. *)
Definition first2_closed : hand :=
  mk_hand (pt 0.2 0.7) (pt 0.44 0.2) (pt 0.46 0.2) (pt 0.6 0.65)
          (pt 0.7 0.65) (pt 0.4 0.6) (pt 0.5 0.6).

(** The index base knuckle on the wrist: the denominator of the index
    ratio is zero. *)
Definition knuckle_on_wrist : hand :=
  mk_hand (pt 0.2 0.7) (pt 0.4 0.2) (pt 0.5 0.2) (pt 0.6 0.2) (pt 0.7 0.2)
          (pt 0.5 0.9) (pt 0.5 0.6).

(** A recogniser holding the hand. *)
Definition holding (label : Z) (h : hand) : HandRecog.t :=
  HandRecog.update_hand_result (HandRecog.init label) (Some h).

End Hands.

(* ===================================================================== *)
(** ** Properties of the debounce *)
(* ===================================================================== *)

Section Debounce.
Import HandRecog Stream.

Lemma settle_prev (s : t) (g : Z) : prev_gesture (snd (settle s g)) = g.
Proof. reflexivity. Qed.

Lemma settle_fst (s : t) (g : Z) : fst (settle s g) = ori_gesture (snd (settle s g)).
Proof. reflexivity. Qed.

Lemma settle_count_same (s : t) (g : Z) :
  g = prev_gesture s -> frame_count (snd (settle s g)) = S (frame_count s).
Proof.
  intros ->. unfold settle; simpl. now rewrite Z.eqb_refl.
Qed.

Lemma settle_count_other (s : t) (g : Z) :
  g <> prev_gesture s -> frame_count (snd (settle s g)) = O.
Proof.
  intros H. unfold settle; simpl.
  destruct (Z.eqb_spec g (prev_gesture s)); [contradiction | reflexivity].
Qed.

(** The settled gesture moves only to the current raw gesture, and only
    when the counter has passed 4. *)
Lemma settle_ori (s : t) (g : Z) :
  ori_gesture (snd (settle s g)) =
    if (4 <? frame_count (snd (settle s g)))%nat then g else ori_gesture s.
Proof. reflexivity. Qed.

Lemma settle_run_snoc (s : t) (raw : list Z) (g : Z) :
  settle_run s (raw ++ [g]) = snd (settle (settle_run s raw) g).
Proof. unfold settle_run. now rewrite fold_left_app. Qed.

Lemma settle_run_app (s : t) (l1 l2 : list Z) :
  settle_run s (l1 ++ l2) = settle_run (settle_run s l1) l2.
Proof. unfold settle_run. now rewrite fold_left_app. Qed.

Lemma settled_trace_app (s : t) (l1 l2 : list Z) :
  settled_trace s (l1 ++ l2) =
    settled_trace s l1 ++ settled_trace (settle_run s l1) l2.
Proof.
  revert s. induction l1 as [|g l1 IH]; intros s; simpl; [reflexivity|].
  now rewrite IH.
Qed.

(** A run of one raw gesture that started on the current state keeps
    counting. *)
Lemma run_same (k : nat) : forall (s : t) (g : Z),
  prev_gesture s = g ->
  let s' := settle_run s (repeat g k) in
  prev_gesture s' = g /\ frame_count s' = (frame_count s + k)%nat.
Proof.
  induction k as [|k IH]; intros s g Hp; simpl.
  - split; [assumption | lia].
  - assert (Hc := settle_count_same s g (eq_sym Hp)).
    destruct (IH (snd (settle s g)) g (settle_prev s g)) as [H1 H2].
    split; [exact H1|]. unfold settle_run in *; simpl in *. lia.
Qed.

(** Once the counter of a run has passed 4 the settled gesture is the
    gesture of the run. *)
Lemma run_settles (k : nat) : forall (s : t) (g : Z),
  prev_gesture s = g -> (1 <= k)%nat -> (5 <= frame_count s + k)%nat ->
  ori_gesture (settle_run s (repeat g k)) = g.
Proof.
  induction k as [|k IH]; intros s g Hp Hk Hc; [lia|].
  assert (Hn := settle_count_same s g (eq_sym Hp)).
  destruct k as [|k].
  - change (settle_run s (repeat g 1)) with (snd (settle s g)).
    rewrite settle_ori, Hn.
    destruct (Nat.ltb_spec 4 (S (frame_count s))); [reflexivity | lia].
  - change (settle_run s (repeat g (S (S k))))
      with (settle_run (snd (settle s g)) (repeat g (S k))).
    apply IH; [apply settle_prev | lia | lia].
Qed.

(** Six frames of one raw gesture settle it from any state. *)
Lemma six_frames_settle (k : nat) (s : t) (g : Z) :
  (6 <= k)%nat -> ori_gesture (settle_run s (repeat g k)) = g.
Proof.
  intros Hk. destruct k as [|k]; [lia|].
  change (settle_run s (repeat g (S k)))
    with (settle_run (snd (settle s g)) (repeat g k)).
  apply run_settles; [apply settle_prev | lia | lia].
Qed.

(** A run too short to pass the threshold returns the old settled
    gesture on every frame. *)
Lemma run_keeps (k : nat) : forall (s : t) (g : Z),
  (prev_gesture s = g /\ frame_count s + k <= 4)%nat
  \/ (prev_gesture s <> g /\ k <= 5)%nat
  \/ ori_gesture s = g ->
  Forall (eq (ori_gesture s)) (settled_trace s (repeat g k))
  /\ ori_gesture (settle_run s (repeat g k)) = ori_gesture s.
Proof.
  induction k as [|k IH]; intros s g H.
  - split; [constructor | reflexivity].
  - change (settled_trace s (repeat g (S k)))
      with (fst (settle s g) :: settled_trace (snd (settle s g)) (repeat g k)).
    change (settle_run s (repeat g (S k)))
      with (settle_run (snd (settle s g)) (repeat g k)).
    assert (Ho : ori_gesture (snd (settle s g)) = ori_gesture s).
    { rewrite settle_ori.
      destruct (Nat.ltb_spec 4 (frame_count (snd (settle s g)))) as [Hlt|Hge];
        [|reflexivity].
      destruct H as [[Hp Hc]|[[Hp Hc]|Ho]].
      - rewrite (settle_count_same s g (eq_sym Hp)) in Hlt. lia.
      - rewrite settle_count_other in Hlt by congruence. lia.
      - now symmetry. }
    destruct (IH (snd (settle s g)) g) as [H1 H2].
    { destruct H as [[Hp Hc]|[[Hp Hc]|Hg]].
      - left. split; [apply settle_prev|].
        rewrite (settle_count_same s g (eq_sym Hp)). lia.
      - left. split; [apply settle_prev|].
        rewrite settle_count_other by congruence. lia.
      - right; right. congruence. }
    rewrite Ho in H1, H2. split.
    + constructor; [rewrite settle_fst; now symmetry | exact H1].
    + exact H2.
Qed.

End Debounce.

Section DebounceHistory.
Import HandRecog Stream.

Lemma run_prev (k : nat) (s : t) (g : Z) :
  (1 <= k)%nat -> prev_gesture (settle_run s (repeat g k)) = g.
Proof.
  intros Hk. destruct k as [|k]; [lia|].
  change (settle_run s (repeat g (S k)))
    with (settle_run (snd (settle s g)) (repeat g k)).
  apply (run_same k (snd (settle s g)) g (settle_prev s g)).
Qed.

(** What a state reached from [init] remembers of the raw gestures it
    was fed: they end in a run of [prev_gesture] one longer than the
    counter, or they all equal the initial [PALM], which is also the
    settled gesture. *)
Lemma init_history (label : Z) (raw : list Z) :
  let s := settle_run (init label) raw in
  (exists pre, raw = pre ++ repeat (prev_gesture s) (S (frame_count s)))
  \/ (ori_gesture s = prev_gesture s
      /\ raw = repeat (prev_gesture s) (frame_count s)).
Proof.
  induction raw as [|g raw IH] using rev_ind.
  - right. split; reflexivity.
  - cbv zeta in *. rewrite settle_run_snoc.
    set (s := settle_run (init label) raw) in *.
    destruct (Z.eq_dec g (prev_gesture s)) as [He|Hn].
    + rewrite settle_prev, (settle_count_same s g He).
      destruct IH as [[pre Hpre]|[Ho Hall]].
      * left. exists pre. rewrite Hpre at 1. rewrite <- app_assoc.
        f_equal. rewrite He. now rewrite <- repeat_cons.
      * right. split.
        -- rewrite settle_ori.
           destruct (_ <? _)%nat; congruence.
        -- rewrite Hall at 1. rewrite He. now rewrite <- repeat_cons.
    + rewrite settle_prev, (settle_count_other s g Hn).
      left. exists raw. reflexivity.
Qed.

(** A frame changes the settled gesture only as the sixth of six equal
    raw gestures. *)
Lemma change_needs_run (label : Z) (raw : list Z) (g : Z) :
  fst (settle (settle_run (init label) raw) g)
    <> ori_gesture (settle_run (init label) raw) ->
  exists pre, raw = pre ++ repeat g 5.
Proof.
  intros Hch. pose proof (init_history label raw) as IH. cbv zeta in IH.
  set (s := settle_run (init label) raw) in *.
  rewrite settle_fst, settle_ori in Hch.
  destruct (Nat.ltb_spec 4 (frame_count (snd (settle s g)))) as [Hlt|Hge];
    [|congruence].
  destruct (Z.eq_dec g (prev_gesture s)) as [He|Hn].
  - rewrite (settle_count_same s g He) in Hlt.
    destruct IH as [[pre Hpre]|[Ho Hall]]; [|congruence].
    exists (pre ++ repeat g (S (frame_count s) - 5)).
    rewrite <- app_assoc, <- repeat_app.
    replace (S (frame_count s) - 5 + 5)%nat with (S (frame_count s)) by lia.
    now rewrite He.
  - rewrite (settle_count_other s g Hn) in Hlt. lia.
Qed.

End DebounceHistory.

(* ===================================================================== *)
(** ** The debounce contract *)
(* ===================================================================== *)

(** C7 (amended).  From a classifier state in which no run of [A] is
    under way (the tracked previous raw gesture is not [A], or the run
    counter is 0) or whose settled gesture is [A] already, four frames
    of raw gesture [A], one frame of a different [B] and up to five more
    frames of [A] return the old settled gesture on every frame.  And in
    a session started from the initial state, a frame that changes the
    settled gesture comes after five raw gestures equal to its own: the
    settled gesture changes only on the sixth of six equal raw
    classifications. *)
Theorem debounce_keeps_settled_over_short_runs :
  forall (self : HandRecog.t) (A B : Z) (k : nat)
         (label : Z) (history : list Z) (g : Z),
    A <> B ->
    HandRecog.prev_gesture self <> A
      \/ HandRecog.frame_count self = 0%nat
      \/ HandRecog.ori_gesture self = A ->
    (k <= 5)%nat ->
    Forall (eq (HandRecog.ori_gesture self))
      (Stream.settled_trace self (repeat A 4 ++ [B] ++ repeat A k))
    /\ (fst (HandRecog.settle
               (Stream.settle_run (HandRecog.init label) history) g)
          <> HandRecog.ori_gesture
               (Stream.settle_run (HandRecog.init label) history) ->
        exists pre, history = pre ++ repeat g 5).
Proof.
  intros self A B k label history g HAB Hs Hk.
  split; [|apply change_needs_run].
  rewrite !settled_trace_app.
  destruct (run_keeps 4 self A) as [H4 Ho4].
  { destruct Hs as [Hp|[Hc|Ho]].
    - right; left. split; [exact Hp | lia].
    - destruct (Z.eq_dec (HandRecog.prev_gesture self) A) as [He|Hn].
      + left. split; [exact He | lia].
      + right; left. split; [exact Hn | lia].
    - right; right. exact Ho. }
  set (s4 := Stream.settle_run self (repeat A 4)) in *.
  assert (Hp4 : HandRecog.prev_gesture s4 = A)
    by (apply run_prev; lia).
  assert (HB : HandRecog.ori_gesture (snd (HandRecog.settle s4 B))
               = HandRecog.ori_gesture self).
  { rewrite settle_ori, settle_count_other by congruence. exact Ho4. }
  apply Forall_app; split; [exact H4|].
  apply Forall_app; split.
  - constructor; [|constructor]. rewrite settle_fst. now symmetry.
  - change (Stream.settle_run s4 [B]) with (snd (HandRecog.settle s4 B)).
    rewrite <- HB. apply run_keeps.
    right; left. split; [rewrite settle_prev; congruence | exact Hk].
Qed.

Lemma debounce_keeps_settled_witness :
  Forall (eq Gest.PALM)
    (Stream.settled_trace (HandRecog.init HLabel.MAJOR)
       (repeat Gest.FIST 4 ++ [Gest.LAST4] ++ repeat Gest.FIST 5))
  /\ (fst (HandRecog.settle
             (Stream.settle_run (HandRecog.init HLabel.MAJOR)
                (repeat Gest.FIST 5)) Gest.FIST)
        <> HandRecog.ori_gesture
             (Stream.settle_run (HandRecog.init HLabel.MAJOR)
                (repeat Gest.FIST 5)) ->
      exists pre, repeat Gest.FIST 5 = pre ++ repeat Gest.FIST 5).
Proof.
  apply (debounce_keeps_settled_over_short_runs
           (HandRecog.init HLabel.MAJOR) Gest.FIST Gest.LAST4 5
           HLabel.MAJOR (repeat Gest.FIST 5) Gest.FIST).
  - discriminate.
  - left. discriminate.
  - lia.
Defined.

(** C7, as stated, fails on a state in which a run of [A] is under way.
    After four FIST frames from the initial state the recogniser holds
    settled PALM, previous FIST, counter 3; four more FIST frames, one
    LAST4 frame and one FIST frame then return FIST from the second frame
    on. *)
Lemma debounce_run_in_progress_counterexample :
  let s0 := Stream.settle_run (HandRecog.init HLabel.MAJOR)
              (repeat Gest.FIST 4) in
  HandRecog.ori_gesture s0 = Gest.PALM
  /\ HandRecog.prev_gesture s0 = Gest.FIST
  /\ HandRecog.frame_count s0 = 3%nat
  /\ Stream.settled_trace s0
       (repeat Gest.FIST 4 ++ [Gest.LAST4] ++ [Gest.FIST])
     = [Gest.PALM; Gest.FIST; Gest.FIST; Gest.FIST; Gest.FIST; Gest.FIST].
Proof. vm_compute. repeat split. Qed.

(* ===================================================================== *)
(** ** Frames without a hand *)
(* ===================================================================== *)

Lemma update_hand_result_same (self : HandRecog.t) :
  HandRecog.update_hand_result self (HandRecog.hand_result self) = self.
Proof. now destruct self. Qed.

(** [get_gesture] on a recogniser that holds landmarks is the debounce
    applied to the frame's raw gesture. *)
Lemma get_gesture_settle (self : HandRecog.t) (h : hand) (g : Z) :
  HandRecog.hand_result self = Some h ->
  HandRecog.current_gesture self = Ok g ->
  HandRecog.get_gesture self = Ok (HandRecog.settle self g).
Proof.
  intros Hh Hg. unfold HandRecog.get_gesture. now rewrite Hh, Hg.
Qed.

(** C9.  With [hand_result] null, [get_gesture] returns PALM and hands
    the recogniser back as it was: [ori_gesture], [prev_gesture] and
    [frame_count] are untouched.  A frame without the hand therefore only
    adds a PALM answer: the frames after it are classified exactly as
    they would have been without it. *)
Theorem null_frame_is_neutral :
  forall (self : HandRecog.t) (later : list (option hand)),
    HandRecog.hand_result self = None ->
    HandRecog.get_gesture self = Ok (Gest.PALM, self)
    /\ Stream.recog_run self (None :: later)
       = ('(gs, s2) <- Stream.recog_run self later ;;
          Ok (Gest.PALM :: gs, s2)).
Proof.
  intros self later Hn.
  assert (Hg : HandRecog.get_gesture self = Ok (Gest.PALM, self))
    by (unfold HandRecog.get_gesture; now rewrite Hn).
  split; [exact Hg|].
  assert (Hu : HandRecog.update_hand_result self None = self)
    by (rewrite <- Hn; apply update_hand_result_same).
  assert (Hf : Stream.recog_frame self None = Ok (Gest.PALM, self)).
  { unfold Stream.recog_frame, observe. rewrite Hu.
    unfold HandRecog.set_finger_state. rewrite Hn. exact Hg. }
  cbn [Stream.recog_run]. rewrite Hf. reflexivity.
Qed.

Lemma null_frame_is_neutral_witness :
  HandRecog.get_gesture (HandRecog.init HLabel.MAJOR)
    = Ok (Gest.PALM, HandRecog.init HLabel.MAJOR)
  /\ Stream.recog_run (HandRecog.init HLabel.MAJOR) [None; Some Hands.fist]
     = ('(gs, s2) <- Stream.recog_run (HandRecog.init HLabel.MAJOR)
                       [Some Hands.fist] ;;
        Ok (Gest.PALM :: gs, s2)).
Proof.
  apply (null_frame_is_neutral (HandRecog.init HLabel.MAJOR) [Some Hands.fist]).
  reflexivity.
Defined.

(* ===================================================================== *)
(** ** The raw gesture of a frame *)
(* ===================================================================== *)

Module Raw.
Import HandRecog.

(** The finger state [set_finger_state] computes from a hand. *)
Definition fingers (h : hand) : result Z :=
  finger_loop (Hands.holding HLabel.MINOR h) points (Z.lor 0 0).

(** The recogniser after [set_finger_state] found finger state [f] on
    hand [h]; the debounce fields are those of [self]. *)
Definition seen (self : t) (h : hand) (f : Z) : t :=
  set_finger (update_hand_result self (Some h)) f.

(** The gesture of the frame before the debounce, for a hand in the
    role [label]. *)
Definition raw_gesture (label : Z) (h : hand) : result Z :=
  f <- fingers h ;;
  current_gesture (seen (init label) h f).

(** All four finger ratios of the hand are above 0.5. *)
Definition ratios_above_half (h : hand) : bool :=
  forallb (fun point =>
             match finger_ratio (Hands.holding HLabel.MINOR h) point with
             | Ok ratio => (0.5 <? ratio)%float
             | Raise _ => false
             end) points.

(** The pinch test of [get_gesture]: index tip closer than 0.05 to the
    thumb tip. *)
Definition thumb_pinch (h : hand) : result bool :=
  d <- get_dist (Hands.holding HLabel.MINOR h) (8, 4)%nat ;;
  Ok (d <? 0.05)%float.

(** Two recognisers with the same debounce fields. *)
Definition same_debounce (s1 s2 : t) : Prop :=
  ori_gesture s1 = ori_gesture s2
  /\ prev_gesture s1 = prev_gesture s2
  /\ frame_count s1 = frame_count s2.

End Raw.

Section RawFacts.
Import HandRecog Raw.

Lemma get_signed_dist_hand (s1 s2 : t) (pt : nat * nat) :
  hand_result s1 = hand_result s2 ->
  get_signed_dist s1 pt = get_signed_dist s2 pt.
Proof. unfold get_signed_dist. now intros ->. Qed.

Lemma get_dist_hand (s1 s2 : t) (pt : nat * nat) :
  hand_result s1 = hand_result s2 -> get_dist s1 pt = get_dist s2 pt.
Proof. unfold get_dist. now intros ->. Qed.

Lemma get_dz_hand (s1 s2 : t) (pt : nat * nat) :
  hand_result s1 = hand_result s2 -> get_dz s1 pt = get_dz s2 pt.
Proof. unfold get_dz. now intros ->. Qed.

Lemma finger_ratio_hand (s1 s2 : t) (pt : nat * nat * nat) :
  hand_result s1 = hand_result s2 -> finger_ratio s1 pt = finger_ratio s2 pt.
Proof.
  intros H. unfold finger_ratio. destruct pt as [[a b] c].
  now rewrite !(get_signed_dist_hand s1 s2 _ H).
Qed.

Lemma finger_loop_hand (s1 s2 : t) (pts : list (nat * nat * nat)) :
  hand_result s1 = hand_result s2 ->
  forall f, finger_loop s1 pts f = finger_loop s2 pts f.
Proof.
  intros H. induction pts as [|pt pts IH]; intros f; simpl; [reflexivity|].
  rewrite (finger_ratio_hand s1 s2 pt H).
  destruct (finger_ratio s2 pt); simpl; [apply IH | reflexivity].
Qed.

Lemma current_gesture_fields (s1 s2 : t) :
  finger s1 = finger s2 -> hand_result s1 = hand_result s2 ->
  hand_label s1 = hand_label s2 ->
  current_gesture s1 = current_gesture s2.
Proof.
  intros Hf Hh Hl. unfold current_gesture.
  now rewrite Hf, Hl, !(get_dist_hand s1 s2 _ Hh), (get_dz_hand s1 s2 _ Hh).
Qed.

(** The frame of a hand whose raw gesture is [g]: the debounce is fed
    [g]. *)
Lemma recog_frame_raw (self : t) (h : hand) (g : Z) :
  raw_gesture (hand_label self) h = Ok g ->
  exists f,
    fingers h = Ok f
    /\ Stream.recog_frame self (Some h) = Ok (settle (seen self h f) g).
Proof.
  unfold raw_gesture. intros H.
  destruct (fingers h) as [f|e] eqn:Hf; simpl in H; [|discriminate].
  exists f. split; [reflexivity|].
  unfold Stream.recog_frame, observe, set_finger_state.
  cbn [update_hand_result hand_result].
  rewrite (finger_loop_hand (update_hand_result self (Some h))
             (Hands.holding HLabel.MINOR h) points eq_refl).
  fold (fingers h). rewrite Hf. cbn [bind].
  apply (get_gesture_settle _ h); [reflexivity|].
  rewrite <- H. apply current_gesture_fields; reflexivity.
Qed.

Lemma settle_same_debounce (s1 s2 : t) (g : Z) :
  same_debounce s1 s2 ->
  fst (settle s1 g) = fst (settle s2 g)
  /\ same_debounce (snd (settle s1 g)) (snd (settle s2 g)).
Proof.
  intros (Ho & Hp & Hc). unfold same_debounce, settle; simpl.
  rewrite Ho, Hp, Hc. repeat split.
Qed.

Lemma settled_trace_same (raw : list Z) : forall s1 s2,
  same_debounce s1 s2 ->
  Stream.settled_trace s1 raw = Stream.settled_trace s2 raw
  /\ same_debounce (Stream.settle_run s1 raw) (Stream.settle_run s2 raw).
Proof.
  induction raw as [|g raw IH]; intros s1 s2 H.
  - split; [reflexivity | exact H].
  - destruct (settle_same_debounce s1 s2 g H) as [Hf Hs].
    destruct (IH _ _ Hs) as [Ht Hr].
    split; [|exact Hr].
    cbn [Stream.settled_trace]. now rewrite Hf, Ht.
Qed.

Lemma seen_same_debounce (self : t) (h : hand) (f : Z) :
  same_debounce (seen self h f) self.
Proof. repeat split. Qed.

(** A stream of hands with one raw gesture [g] drives the debounce as
    the run of [g] of the same length. *)
Lemma recog_run_raw (frames : list hand) : forall (self : t) (g : Z),
  Forall (fun h => raw_gesture (hand_label self) h = Ok g) frames ->
  exists s',
    Stream.recog_run self (map Some frames)
      = Ok (Stream.settled_trace self (repeat g (List.length frames)), s')
    /\ same_debounce s' (Stream.settle_run self (repeat g (List.length frames)))
    /\ hand_label s' = hand_label self.
Proof.
  induction frames as [|h frames IH]; intros self g Hall.
  - exists self. repeat split.
  - inversion Hall as [|? ? Hh Hrest]; subst.
    destruct (recog_frame_raw self h g Hh) as (f & Hf & Hfr).
    set (s1 := snd (settle (seen self h f) g)).
    assert (Hl1 : hand_label s1 = hand_label self) by reflexivity.
    destruct (IH s1 g) as (s' & Hrun & Hdeb & Hlab).
    { now rewrite Hl1. }
    destruct (settle_same_debounce _ _ g (seen_same_debounce self h f))
      as [Hfst Hsnd].
    destruct (settled_trace_same (repeat g (List.length frames)) _ _ Hsnd)
      as [Htr Hsr].
    exists s'. split; [|split].
    + cbn [map Stream.recog_run]. rewrite Hfr.
      rewrite (surjective_pairing (settle (seen self h f) g)).
      cbn [bind]. fold s1. rewrite Hrun. cbn [bind].
      simpl List.length. simpl repeat.
      cbn [Stream.settled_trace]. now rewrite <- Hfst, <- Htr.
    + simpl List.length. simpl repeat.
      change (Stream.settle_run self (g :: repeat g (List.length frames)))
        with (Stream.settle_run (snd (settle self g)) (repeat g (List.length frames))).
      unfold same_debounce in *. subst s1.
      destruct Hdeb as (A & B & C). destruct Hsr as (A' & B' & C').
      rewrite A, B, C. repeat split; assumption.
    + congruence.
Qed.

End RawFacts.

(* ===================================================================== *)
(** ** Four stretched fingers *)
(* ===================================================================== *)

Section OpenHand.
Import HandRecog Raw.

(** The raw gesture of a hand with four stretched fingers, by the
    outcome [p] of the pinch test and the hand's role. *)
Definition open_hand_gesture (label : Z) (p : bool) : Z :=
  if p then
    if label =? HLabel.MINOR then Gest.PINCH_MINOR else Gest.PINCH_MAJOR
  else Gest.LAST4.

Lemma open_hand_gesture_not_palm (label : Z) (p : bool) :
  open_hand_gesture label p <> Gest.PALM.
Proof.
  unfold open_hand_gesture.
  destruct p; [destruct (label =? HLabel.MINOR)|]; discriminate.
Qed.

(** The thumb bit is the constant 0, so four ratios above 0.5 give the
    bit pattern 01111. *)
Lemma fingers_all_extended (h : hand) :
  ratios_above_half h = true -> fingers h = Ok Gest.LAST4.
Proof.
  unfold ratios_above_half, fingers. cbn [forallb points finger_loop].
  repeat
    match goal with
    | |- context [finger_ratio ?s ?pt] =>
        destruct (finger_ratio s pt) as [?r|?e]; cbn [bind];
        [ destruct (0.5 <? _)%float; cbn [andb] | cbn [andb] ];
        try (rewrite ?andb_false_r; discriminate)
    end.
  reflexivity.
Qed.

Lemma raw_all_extended (label : Z) (h : hand) (p : bool) :
  ratios_above_half h = true -> thumb_pinch h = Ok p ->
  raw_gesture label h = Ok (open_hand_gesture label p).
Proof.
  intros Hr Hp. unfold raw_gesture. rewrite (fingers_all_extended h Hr).
  cbn [bind]. unfold current_gesture, thumb_pinch in *.
  rewrite (get_dist_hand (seen (init label) h Gest.LAST4)
             (Hands.holding HLabel.MINOR h) (8, 4)%nat eq_refl).
  cbn [finger seen set_finger hand_label update_hand_result init].
  change (Gest.LAST4 =? Gest.LAST3) with false.
  change (Gest.LAST4 =? Gest.LAST4) with true.
  change (Gest.FIRST2 =? Gest.LAST4) with false.
  cbn [orb].
  destruct (get_dist (Hands.holding HLabel.MINOR h) (8, 4)%nat) as [d|e];
    cbn [bind] in *; [|discriminate].
  injection Hp as ->. unfold open_hand_gesture.
  destruct p; [destruct (label =? HLabel.MINOR)|]; reflexivity.
Qed.

Lemma trace_after_settled (m : nat) : forall (s : t) (g : Z),
  prev_gesture s = g -> (4 <= frame_count s)%nat ->
  Stream.settled_trace s (repeat g m) = repeat g m.
Proof.
  induction m as [|m IH]; intros s g Hp Hc; [reflexivity|].
  cbn [repeat Stream.settled_trace].
  assert (Hn := settle_count_same s g (eq_sym Hp)).
  rewrite IH; [| apply settle_prev | lia].
  f_equal. rewrite settle_fst, settle_ori, Hn.
  destruct (Nat.ltb_spec 4 (S (frame_count s))); [reflexivity | lia].
Qed.

Lemma settled_trace_length (raw : list Z) : forall s,
  List.length (Stream.settled_trace s raw) = List.length raw.
Proof.
  induction raw as [|g raw IH]; intros s; simpl; [reflexivity|].
  now rewrite IH.
Qed.

(** From the sixth frame of a run on, every answer is the gesture of
    the run. *)
Lemma trace_from_sixth (n : nat) (s : t) (g : Z) :
  skipn 5 (Stream.settled_trace s (repeat g (S n))) = repeat g (n - 4).
Proof.
  destruct (Nat.le_gt_cases n 4) as [Hle|Hgt].
  - replace (n - 4)%nat with 0%nat by lia. apply skipn_all2.
    rewrite settled_trace_length, repeat_length. lia.
  - replace (S n) with (5 + (n - 4))%nat by lia.
    rewrite repeat_app, settled_trace_app.
    rewrite skipn_app, skipn_all2
      by (rewrite settled_trace_length, repeat_length; lia).
    rewrite settled_trace_length, repeat_length. cbn [Nat.sub skipn app].
    apply trace_after_settled; [apply run_prev; lia|].
    change (Stream.settle_run s (repeat g 5))
      with (Stream.settle_run (snd (settle s g)) (repeat g 4)).
    destruct (run_same 4 (snd (settle s g)) g (settle_prev s g)) as [_ Hc].
    cbv zeta in Hc. rewrite Hc. lia.
Qed.

End OpenHand.

(** C1 (amended).  For every stream of frames in which all four
    non-thumb finger ratios are above 0.5 and the pinch test has the same
    outcome on every frame, finger-state extraction gives the bit pattern
    15 on every frame (the thumb bit is the constant 0) and, from any
    classifier state, every answer of [get_gesture] from the sixth frame
    on is LAST4 (15) -- or PINCH_MINOR / PINCH_MAJOR, by the hand's role,
    when the index tip is within 0.05 of the thumb tip.  That gesture is
    never PALM (31). *)
Theorem open_hand_settles_to_last4 :
  forall (self : HandRecog.t) (frames : list hand) (p : bool),
    Forall (fun h => Raw.ratios_above_half h = true
                     /\ Raw.thumb_pinch h = Ok p) frames ->
    let settled := open_hand_gesture (HandRecog.hand_label self) p in
    Forall (fun h => Raw.fingers h = Ok Gest.LAST4) frames
    /\ settled <> Gest.PALM
    /\ exists gs s',
         Stream.recog_run self (map Some frames) = Ok (gs, s')
         /\ skipn 5 gs = repeat settled (List.length frames - 5)
         /\ (6 <= List.length frames -> HandRecog.ori_gesture s' = settled)%nat.
Proof.
  intros self frames p Hall settled.
  split; [|split].
  - eapply Forall_impl; [|exact Hall].
    intros h [Hr _]. now apply fingers_all_extended.
  - apply open_hand_gesture_not_palm.
  - assert (Hraw : Forall (fun h => Raw.raw_gesture (HandRecog.hand_label self) h
                                    = Ok settled) frames).
    { eapply Forall_impl; [|exact Hall].
      intros h [Hr Hp]. now apply raw_all_extended. }
    destruct (recog_run_raw frames self settled Hraw) as (s' & Hrun & Hdeb & _).
    exists (Stream.settled_trace self (repeat settled (List.length frames))), s'.
    split; [exact Hrun|]. split.
    + destruct (List.length frames) as [|n]; [reflexivity|].
      rewrite trace_from_sixth. f_equal; lia.
    + intros H6. destruct Hdeb as (Ho & _). rewrite Ho.
      now apply six_frames_settle.
Qed.

Lemma open_hand_settles_witness :
  Forall (fun h => Raw.fingers h = Ok Gest.LAST4) (repeat Hands.open4 7)
  /\ Gest.LAST4 <> Gest.PALM
  /\ exists gs s',
       Stream.recog_run (HandRecog.init HLabel.MAJOR)
         (map Some (repeat Hands.open4 7)) = Ok (gs, s')
       /\ skipn 5 gs = repeat Gest.LAST4 2
       /\ (6 <= 7 -> HandRecog.ori_gesture s' = Gest.LAST4)%nat.
Proof.
  apply (open_hand_settles_to_last4 (HandRecog.init HLabel.MAJOR)
           (repeat Hands.open4 7) false).
  repeat constructor.
Defined.

(** C1, as stated, fails: on a stream of one hand with all four ratios
    above 0.5 the recogniser answers its initial PALM for five frames and
    LAST4 (15), not PALM (31), from the sixth frame on. *)
Lemma open_hand_counterexample :
  Raw.ratios_above_half Hands.open4 = true
  /\ match Stream.recog_run (HandRecog.init HLabel.MAJOR)
             (repeat (Some Hands.open4) 8) with
     | Ok (gs, s') => (gs, HandRecog.finger s', HandRecog.ori_gesture s')
     | Raise _ => ([], 0, 0)
     end
     = ([Gest.PALM; Gest.PALM; Gest.PALM; Gest.PALM; Gest.PALM;
         Gest.LAST4; Gest.LAST4; Gest.LAST4], 15, Gest.LAST4).
Proof. vm_compute. split; reflexivity. Qed.

(* ===================================================================== *)
(** ** Index and middle finger stretched *)
(* ===================================================================== *)

(** C8 (amended).  For every landmark set whose finger bit pattern is
    FIRST2 and whose index and middle base knuckles are a non-zero
    distance apart, the raw gesture is V_GEST when
    dist(index tip, middle tip) / dist(index base, middle base) > 1.7;
    otherwise TWO_FINGER_CLOSED when the z-depths of the two tips differ
    by less than 0.1; otherwise MID.  It is the gesture the debounce is
    fed. *)
Theorem first2_disambiguation :
  forall (self : HandRecog.t) (h : hand) (dist1 dist2 dz : float),
    HandRecog.hand_result self = Some h ->
    HandRecog.finger self = Gest.FIRST2 ->
    HandRecog.get_dist self (8, 12)%nat = Ok dist1 ->
    HandRecog.get_dist self (5, 9)%nat = Ok dist2 ->
    (dist2 =? 0)%float = false ->
    HandRecog.get_dz self (8, 12)%nat = Ok dz ->
    let raw := if (1.7 <? dist1 / dist2)%float then Gest.V_GEST
               else if (dz <? 0.1)%float then Gest.TWO_FINGER_CLOSED
               else Gest.MID in
    HandRecog.current_gesture self = Ok raw
    /\ HandRecog.get_gesture self = Ok (HandRecog.settle self raw).
Proof.
  intros self h dist1 dist2 dz Hh Hf H1 H2 Hnz Hz raw.
  assert (Hc : HandRecog.current_gesture self = Ok raw).
  { unfold HandRecog.current_gesture. rewrite Hf, H1, H2, Hz.
    change (Gest.FIRST2 =? Gest.LAST3) with false.
    change (Gest.FIRST2 =? Gest.LAST4) with false.
    change (Gest.FIRST2 =? Gest.FIRST2) with true.
    cbn [orb bind]. unfold Py.div. rewrite Hnz. cbn [bind].
    subst raw. destruct (1.7 <? dist1 / dist2)%float; [reflexivity|].
    destruct (dz <? 0.1)%float; reflexivity. }
  split; [exact Hc | now apply (get_gesture_settle self h)].
Qed.

Lemma first2_disambiguation_witness :
  let self := Raw.seen (HandRecog.init HLabel.MAJOR) Hands.first2_closed
                Gest.FIRST2 in
  Raw.fingers Hands.first2_closed = Ok Gest.FIRST2
  /\ HandRecog.current_gesture self = Ok Gest.TWO_FINGER_CLOSED
  /\ HandRecog.get_gesture self
     = Ok (HandRecog.settle self Gest.TWO_FINGER_CLOSED).
Proof.
  intros self. split; [vm_compute; reflexivity|].
  pose (or0 := fun r : result float =>
                 match r with Ok d => d | Raise _ => 0%float end).
  pose (dist1 := or0 (HandRecog.get_dist self (8, 12)%nat)).
  pose (dist2 := or0 (HandRecog.get_dist self (5, 9)%nat)).
  pose (dz := or0 (HandRecog.get_dz self (8, 12)%nat)).
  assert (H1 : HandRecog.get_dist self (8, 12)%nat = Ok dist1)
    by (vm_compute; reflexivity).
  assert (H2 : HandRecog.get_dist self (5, 9)%nat = Ok dist2)
    by (vm_compute; reflexivity).
  assert (H3 : (dist2 =? 0)%float = false) by (vm_compute; reflexivity).
  assert (H4 : HandRecog.get_dz self (8, 12)%nat = Ok dz)
    by (vm_compute; reflexivity).
  exact (first2_disambiguation self Hands.first2_closed dist1 dist2 dz
           eq_refl eq_refl H1 H2 H3 H4).
Defined.

(** C8, as stated, fails on a hand with the FIRST2 pattern whose index
    and middle base knuckles coincide in [x] and [y]: the ratio's
    denominator is zero and [get_gesture] raises [ZeroDivisionError]
    instead of producing a gesture. *)
Lemma first2_same_base_counterexample :
  let self := Raw.seen (HandRecog.init HLabel.MAJOR) Hands.first2_same_base
                Gest.FIRST2 in
  Raw.fingers Hands.first2_same_base = Ok Gest.FIRST2
  /\ HandRecog.get_dist self (5, 9)%nat = Ok 0%float
  /\ HandRecog.get_gesture self = Raise ZeroDivisionError
  /\ Stream.recog_frame (HandRecog.init HLabel.MAJOR)
       (Some Hands.first2_same_base) = Raise ZeroDivisionError.
Proof. vm_compute. repeat split. Qed.

(* ===================================================================== *)
(** ** A zero denominator in the finger ratio *)
(* ===================================================================== *)

(** Whenever the knuckle-to-wrist distance of a finger is zero, the
    division raises, the handler is entered, and its reference to the
    unbound name [dist1] raises in turn. *)
Lemma finger_ratio_zero_denominator :
  forall (self : HandRecog.t) (tip knuckle wrist : nat) (dist dist2 : float),
    HandRecog.get_signed_dist self (tip, knuckle) = Ok dist ->
    HandRecog.get_signed_dist self (knuckle, wrist) = Ok dist2 ->
    (dist2 =? 0)%float = true ->
    HandRecog.finger_ratio self (tip, knuckle, wrist)
      = Raise (NameError "dist1").
Proof.
  intros self tip knuckle wrist dist dist2 H1 H2 Hz.
  unfold HandRecog.finger_ratio. rewrite H1, H2. cbn [bind].
  unfold Py.div. now rewrite Hz.
Qed.

(** C3: the code at a failing input.  With the index base knuckle on the
    wrist the denominator of the index ratio is (negative) zero;
    [set_finger_state] does not produce a finger state, it raises
    [NameError]. *)
Theorem zero_denominator_raises :
  let self := Hands.holding HLabel.MAJOR Hands.knuckle_on_wrist in
  HandRecog.get_signed_dist self (5, 0)%nat = Ok (-0)%float
  /\ HandRecog.finger_ratio self (8, 5, 0)%nat = Raise (NameError "dist1")
  /\ HandRecog.set_finger_state self = Raise (NameError "dist1")
  /\ Stream.recog_frame (HandRecog.init HLabel.MAJOR)
       (Some Hands.knuckle_on_wrist) = Raise (NameError "dist1").
Proof. vm_compute. repeat split. Qed.

(* ===================================================================== *)
(** ** The combined-pinch branch *)
(* ===================================================================== *)

Section DeadBranch.
Import Controller.

(** The exceptions reading a landmark or a pinch level can raise. *)
Definition hand_error (e : exn) : Prop :=
  e = AttributeError "landmark" \/ e = IndexError \/ e = TypeError.

Lemma landmark_error (hr : option hand) (i : nat) (e : exn) :
  landmark hr i = Raise e -> hand_error e.
Proof.
  unfold landmark, hand_error. destruct hr as [h|].
  - destruct (nth_error h i); intros H; inversion H; auto.
  - intros H; inversion H; auto.
Qed.

Lemma getpinchxlv_error (c : t) (hr : option hand) (e : exn) :
  getpinchxlv c hr = Raise e -> hand_error e.
Proof.
  unfold getpinchxlv. destruct (landmark hr 8) as [p|e'] eqn:Hl; cbn [bind].
  - destruct (pinchstartxcoord c); intros H; inversion H.
    unfold hand_error; auto.
  - intros H; inversion H; subst. eapply landmark_error; eassumption.
Qed.

Lemma getpinchylv_error (c : t) (hr : option hand) (e : exn) :
  getpinchylv c hr = Raise e -> hand_error e.
Proof.
  unfold getpinchylv. destruct (landmark hr 8) as [p|e'] eqn:Hl; cbn [bind].
  - destruct (pinchstartycoord c); intros H; inversion H.
    unfold hand_error; auto.
  - intros H; inversion H; subst. eapply landmark_error; eassumption.
Qed.

Lemma pinch_control_init_error (c : t) (hr : option hand) (e : exn) :
  pinch_control_init c hr = Raise e -> hand_error e.
Proof.
  unfold pinch_control_init.
  destruct (landmark hr 8) as [p|e'] eqn:Hl; cbn [bind]; intros H;
    inversion H; subst. eapply landmark_error; eassumption.
Qed.

Lemma pinch_control_error (c : t) (hr : option hand) (e : exn) :
  snd (pinch_control c hr) = Raise e -> hand_error e.
Proof.
  unfold pinch_control. destruct (pinch_commit c) as [c1 acts].
  destruct (getpinchxlv c1 hr) as [lvx|e1] eqn:Hx.
  - destruct (getpinchylv c1 hr) as [lvy|e2] eqn:Hy; cbn [snd]; intros H;
      inversion H; subst. eapply getpinchylv_error; eassumption.
  - cbn [snd]. intros H; inversion H; subst.
    eapply getpinchxlv_error; eassumption.
Qed.

Lemma combined_pinch_guard_false (gesture : Z) :
  combined_pinch_guard gesture = false.
Proof.
  unfold combined_pinch_guard.
  destruct (Z.eqb_spec gesture Gest.PINCH_MAJOR) as [->|]; reflexivity.
Qed.

(** [handle_controls] raises only what reading the hand raises. *)
Lemma handle_controls_error (c : t) (o : os) (gesture : Z)
    (hr : option hand) (e : exn) :
  snd (handle_controls c o gesture hr) = Raise e -> hand_error e.
Proof.
  unfold handle_controls. rewrite combined_pinch_guard_false.
  destruct (get_position c o hr) as [[x y] c'].
  set (start := if negb (gesture =? Gest.PALM)
                then (Some x, Some y, c') else (None, None, c)).
  destruct start as [[ox oy] c0].
  set (reset := if negb (gesture =? Gest.FIST) && grabflag c0
                then (set_grabflag c0 false, [MouseUp "left"])
                else (c0, [])).
  destruct reset as [c1 a1].
  set (c2 := if negb (gesture =? Gest.PINCH_MAJOR) && pinchmajorflag c1
             then set_pinchmajorflag c1 false else c1).
  set (c3 := if negb (gesture =? Gest.PINCH_MINOR) && pinchminorflag c2
             then set_pinchminorflag c2 false else c2).
  destruct (gesture =? Gest.V_GEST); [discriminate|].
  destruct (gesture =? Gest.FIST).
  { destruct (negb (grabflag c3)); discriminate. }
  destruct ((gesture =? Gest.MID) && flag c3); [discriminate|].
  destruct ((gesture =? Gest.INDEX) && flag c3); [discriminate|].
  destruct ((gesture =? Gest.TWO_FINGER_CLOSED) && flag c3); [discriminate|].
  destruct (gesture =? Gest.PINCH_MINOR); [|discriminate].
  destruct (negb (pinchminorflag c3)).
  - destruct (pinch_control_init c3 hr) as [ci|e1] eqn:Hi; cbn [bind].
    + pose proof (pinch_control_error (set_pinchminorflag ci true) hr e) as Hp.
      destruct (pinch_control (set_pinchminorflag ci true) hr) as [[c5 a2] r].
      exact Hp.
    + cbn [snd]. intros H; inversion H; subst.
      eapply pinch_control_init_error; eassumption.
  - pose proof (pinch_control_error c3 hr e) as Hp.
    destruct (pinch_control c3 hr) as [[c5 a2] r]. exact Hp.
Qed.

End DeadBranch.

(** C10.  The guard [gesture == PINCH_MAJOR and gesture == PINCH_MINOR]
    is false for every gesture value, and the branch it guards is never
    entered: its body would raise [AttributeError] on
    [Controller.get_pinch_gap], and no call of [handle_controls] ends that
    way. *)
Theorem combined_pinch_branch_is_dead :
  forall (c : Controller.t) (o : os) (gesture : Z) (hand_result : option hand),
    Controller.combined_pinch_guard gesture = false
    /\ snd (Controller.handle_controls c o gesture hand_result)
       <> Raise (AttributeError "get_pinch_gap").
Proof.
  intros c o gesture hr. split; [apply combined_pinch_guard_false|].
  intros H. apply handle_controls_error in H.
  destruct H as [H|[H|H]]; discriminate.
Qed.

(* ===================================================================== *)
(** ** Press and hold on FIST *)
(* ===================================================================== *)

Definition is_mouse_down (a : action) : bool :=
  match a with
  | MouseDown _ => true
  | _ => false
  end.

(** How often [pyautogui.mouseDown] was called. *)
Definition mouse_downs (acts : list action) : nat :=
  List.length (filter is_mouse_down acts).

(** A frame that shows the major hand alone, making a fist. *)
Definition fist_frame (r : results) : Prop :=
  truthy (multi_hand_landmarks r) = true
  /\ exists h,
       GestureController.classify_hands true r = (Some h, None)
       /\ Raw.raw_gesture HLabel.MAJOR h = Ok Gest.FIST.

(** One right hand making a fist, as the detector reports it. *)
Definition fist_results : results :=
  mkResults (Some [Hands.fist])
    (Some [Parsed (VDict [("classification",
             VList [VDict [("index", VInt 1); ("score", VFloat 0.98);
                           ("label", VStr "Right")]])]%string)]).

Definition screen : os := mkOs (1920, 1080) (100, 100).

Section FistDrag.
Import Controller.

Lemma damp_state (c : t) (o : os) (x y : Z) :
  fst (damp c o x y) = set_prev_hand c (Some (x, y)).
Proof. unfold damp. now destruct (position o). Qed.

(** [get_position] writes [prev_hand] and nothing else. *)
Lemma get_position_state (c : t) (o : os) (hr : option hand) :
  exists p, snd (get_position c o hr) = set_prev_hand c p.
Proof.
  unfold get_position. destruct (hand_pixel o hr) as [[x y]|e].
  - pose proof (damp_state c o x y) as Hd.
    destruct (damp c o x y) as [c1 [q|e]]; cbn [fst snd] in *; subst c1;
      now exists (Some (x, y)).
  - exists (prev_hand c). now destruct c.
Qed.

Lemma get_position_grabflag (c : t) (o : os) (hr : option hand) :
  grabflag (snd (get_position c o hr)) = grabflag c.
Proof.
  destruct (get_position_state c o hr) as [p ->]. reflexivity.
Qed.

(** FIST: the button goes down unless it is held already; the cursor
    follows. *)
Lemma handle_fist (c : t) (o : os) (hr : option hand) :
  exists c' x y,
    handle_controls c o Gest.FIST hr
      = (c', (if grabflag c then [] else [MouseDown "left"]) ++ [MoveTo x y],
         Ok tt)
    /\ grabflag c' = true.
Proof.
  unfold handle_controls.
  pose proof (get_position_grabflag c o hr) as Hg.
  destruct (get_position c o hr) as [[x y] c0]. cbn [snd] in Hg.
  change (Gest.FIST =? Gest.PALM) with false.
  change (Gest.FIST =? Gest.FIST) with true.
  change (Gest.FIST =? Gest.PINCH_MAJOR) with false.
  change (Gest.FIST =? Gest.PINCH_MINOR) with false.
  change (Gest.FIST =? Gest.V_GEST) with false.
  cbn [negb andb].
  set (c2 := if pinchmajorflag c0 then set_pinchmajorflag c0 false else c0).
  set (c3 := if pinchminorflag c2 then set_pinchminorflag c2 false else c2).
  assert (H3 : grabflag c3 = grabflag c).
  { rewrite <- Hg. subst c3 c2.
    destruct (pinchmajorflag c0); cbn [pinchminorflag set_pinchmajorflag];
      destruct (pinchminorflag c0); reflexivity. }
  rewrite H3. destruct (grabflag c) eqn:Hc; cbn [negb app].
  - exists c3, (Some x), (Some y). split; [reflexivity|]. now rewrite H3.
  - exists (set_grabflag c3 true), (Some x), (Some y).
    split; reflexivity.
Qed.

(** PALM with no button held and no pinch session: nothing happens. *)
Lemma handle_palm_idle (c : t) (o : os) (hr : option hand) :
  grabflag c = false ->
  exists c',
    handle_controls c o Gest.PALM hr = (c', [], Ok tt)
    /\ grabflag c' = false.
Proof.
  intros Hc. unfold handle_controls, combined_pinch_guard.
  change (Gest.PALM =? Gest.PALM) with true.
  change (Gest.PALM =? Gest.FIST) with false.
  change (Gest.PALM =? Gest.PINCH_MAJOR) with false.
  change (Gest.PALM =? Gest.PINCH_MINOR) with false.
  change (Gest.PALM =? Gest.V_GEST) with false.
  change (Gest.PALM =? Gest.MID) with false.
  change (Gest.PALM =? Gest.INDEX) with false.
  change (Gest.PALM =? Gest.TWO_FINGER_CLOSED) with false.
  cbn [negb andb]. rewrite Hc.
  set (c2 := if pinchmajorflag c then set_pinchmajorflag c false else c).
  set (c3 := if pinchminorflag c2 then set_pinchminorflag c2 false else c2).
  exists c3. split; [reflexivity|].
  rewrite <- Hc. subst c3 c2.
  destruct (pinchmajorflag c); cbn [pinchminorflag set_pinchmajorflag];
    destruct (pinchminorflag c); reflexivity.
Qed.

End FistDrag.

Section FistRun.
Import HandRecog Raw.

Lemma observe_seen (self : t) (h : hand) (f : Z) :
  fingers h = Ok f -> observe self (Some h) = Ok (seen self h f).
Proof.
  intros Hf. unfold observe, set_finger_state.
  cbn [update_hand_result hand_result].
  rewrite (finger_loop_hand (update_hand_result self (Some h))
             (Hands.holding HLabel.MINOR h) points eq_refl).
  fold (fingers h). now rewrite Hf.
Qed.

Lemma get_gesture_seen (self : t) (h : hand) (f g : Z) :
  fingers h = Ok f -> raw_gesture (hand_label self) h = Ok g ->
  get_gesture (seen self h f) = Ok (settle (seen self h f) g).
Proof.
  intros Hf Hr. apply (get_gesture_settle _ h); [reflexivity|].
  unfold raw_gesture in Hr. rewrite Hf in Hr. cbn [bind] in Hr.
  rewrite <- Hr. apply current_gesture_fields; reflexivity.
Qed.

(** The major recogniser has settled on PALM with the button up, or on
    FIST with the button held. *)
Definition drag_inv (s : session) : Prop :=
  hand_label (handmajor s) = HLabel.MAJOR
  /\ ((ori_gesture (handmajor s) = Gest.PALM
       /\ Controller.grabflag (controller s) = false)
      \/ (ori_gesture (handmajor s) = Gest.FIST
          /\ Controller.grabflag (controller s) = true)).

(** The button presses a fist frame adds: one when the settled gesture
    moves from PALM to FIST, none otherwise. *)
Definition presses (before after : session) : nat :=
  if ori_gesture (handmajor before) =? Gest.FIST then 0%nat
  else if ori_gesture (handmajor after) =? Gest.FIST then 1%nat
  else 0%nat.

Lemma frame_step_fist (s : session) (o : os) (r : results) :
  drag_inv s -> fist_frame r ->
  exists s1 acts,
    frame_step s o r = (s1, acts, Ok tt)
    /\ drag_inv s1
    /\ same_debounce (handmajor s1) (snd (settle (handmajor s) Gest.FIST))
    /\ mouse_downs acts = presses s s1.
Proof.
  intros (Hlab & Hinv) (Htr & h & Hcl & Hraw).
  unfold frame_step, frame_hands. rewrite Htr, Hcl.
  destruct (fingers h) as [f|e] eqn:Hf;
    [|unfold raw_gesture in Hraw; rewrite Hf in Hraw; discriminate].
  rewrite (observe_seen (handmajor s) h f Hf).
  change (observe (handminor s) None)
    with (Ok (update_hand_result (handminor s) None)).
  change (get_gesture (update_hand_result (handminor s) None))
    with (Ok (Gest.PALM, update_hand_result (handminor s) None)).
  cbv beta iota. change (Gest.PALM =? Gest.PINCH_MINOR) with false.
  cbv beta iota.
  rewrite (get_gesture_seen (handmajor s) h f Gest.FIST Hf)
    by (now rewrite Hlab).
  set (hM := seen (handmajor s) h f).
  assert (Hg1 : fst (settle hM Gest.FIST)
                = if (4 <? frame_count (snd (settle hM Gest.FIST)))%nat
                  then Gest.FIST else ori_gesture (handmajor s))
    by reflexivity.
  assert (Ho1 : ori_gesture (snd (settle hM Gest.FIST))
                = fst (settle hM Gest.FIST)) by reflexivity.
  assert (Hdeb : same_debounce (snd (settle hM Gest.FIST))
                   (snd (settle (handmajor s) Gest.FIST)))
    by (apply settle_same_debounce, seen_same_debounce).
  assert (Hl1 : hand_label (snd (settle hM Gest.FIST)) = HLabel.MAJOR)
    by exact Hlab.
  unfold presses.
  destruct (settle hM Gest.FIST) as [g1 hM1]. cbn [fst snd] in *.
  cbv beta iota.
  destruct (4 <? frame_count hM1)%nat.
  - (* the settled gesture is FIST after this frame *)
    subst g1.
    destruct (handle_fist (controller s) o (hand_result hM1))
      as (c' & x & y & Hh & Hgr).
    rewrite Hh. cbv beta iota.
    eexists; eexists. split; [reflexivity|].
    split; [split; [exact Hl1 | right; split; [exact Ho1 | exact Hgr]]|].
    split; [exact Hdeb|].
    change (mouse_downs
              ((if Controller.grabflag (controller s)
                then [] else [MouseDown "left"]) ++ [MoveTo x y])
            = if ori_gesture (handmajor s) =? Gest.FIST then 0%nat
              else if ori_gesture hM1 =? Gest.FIST then 1%nat else 0%nat).
    rewrite Ho1.
    destruct Hinv as [[Ho Hg]|[Ho Hg]]; rewrite Ho, Hg; reflexivity.
  - (* no change: the settled gesture is the old one *)
    subst g1. destruct Hinv as [[Ho Hg]|[Ho Hg]].
    + destruct (handle_palm_idle (controller s) o (hand_result hM1) Hg)
        as (c' & Hh & Hgr).
      rewrite Ho, Hh. cbv beta iota.
      eexists; eexists. split; [reflexivity|].
      split; [split; [exact Hl1 | left; split; [exact (eq_trans Ho1 Ho) | exact Hgr]]|].
      split; [exact Hdeb|].
      change (mouse_downs []
              = if Gest.PALM =? Gest.FIST then 0%nat
                else if ori_gesture hM1 =? Gest.FIST then 1%nat else 0%nat).
      rewrite Ho1, Ho. reflexivity.
    + destruct (handle_fist (controller s) o (hand_result hM1))
        as (c' & x & y & Hh & Hgr).
      rewrite Ho, Hh. cbv beta iota.
      eexists; eexists. split; [reflexivity|].
      split; [split; [exact Hl1 | right; split; [exact (eq_trans Ho1 Ho) | exact Hgr]]|].
      split; [exact Hdeb|].
      change (mouse_downs
                ((if Controller.grabflag (controller s)
                  then [] else [MouseDown "left"]) ++ [MoveTo x y])
              = if Gest.FIST =? Gest.FIST then 0%nat
                else if ori_gesture hM1 =? Gest.FIST then 1%nat else 0%nat).
      rewrite Hg. reflexivity.
Qed.

Lemma mouse_downs_app (a b : list action) :
  mouse_downs (a ++ b) = (mouse_downs a + mouse_downs b)%nat.
Proof. unfold mouse_downs. now rewrite filter_app, length_app. Qed.

Lemma run_frames_fist (frames : list (os * results)) : forall (s : session),
  drag_inv s -> Forall (fun f => fist_frame (snd f)) frames ->
  exists s' acts,
    run_frames s frames = (s', acts, Ok tt)
    /\ drag_inv s'
    /\ same_debounce (handmajor s')
         (Stream.settle_run (handmajor s)
            (repeat Gest.FIST (List.length frames)))
    /\ mouse_downs acts = presses s s'
    /\ (ori_gesture (handmajor s) = Gest.FIST ->
        ori_gesture (handmajor s') = Gest.FIST).
Proof.
  induction frames as [|[o r] frames IH]; intros s Hinv Hall.
  - exists s, [].
    split; [reflexivity|]. split; [exact Hinv|].
    split; [repeat split|]. split; [|trivial].
    unfold presses.
    now destruct (ori_gesture (handmajor s) =? Gest.FIST).
  - inversion Hall as [|? ? Hr Hrest]; subst. cbn [snd] in Hr.
    destruct (frame_step_fist s o r Hinv Hr) as (s1 & a1 & Hs & Hi1 & Hd1 & Hc1).
    destruct (IH s1 Hi1 Hrest) as (s' & a2 & Hrun & Hi' & Hd' & Hc' & Hk').
    exists s', (a1 ++ a2).
    assert (Hkeep : ori_gesture (handmajor s) = Gest.FIST ->
                    ori_gesture (handmajor s1) = Gest.FIST).
    { intros Ho. destruct Hd1 as (-> & _). rewrite settle_ori, Ho.
      now destruct (4 <? _)%nat. }
    split; [|split; [|split; [|split]]].
    + cbn [run_frames]. rewrite Hs, Hrun. reflexivity.
    + exact Hi'.
    + simpl List.length. simpl repeat.
      change (Stream.settle_run (handmajor s)
                (Gest.FIST :: repeat Gest.FIST (List.length frames)))
        with (Stream.settle_run (snd (settle (handmajor s) Gest.FIST))
                (repeat Gest.FIST (List.length frames))).
      destruct (settled_trace_same (repeat Gest.FIST (List.length frames))
                  _ _ Hd1) as [_ (A & B & C)].
      destruct Hd' as (A' & B' & C').
      unfold same_debounce. rewrite A', B', C'. repeat split; assumption.
    + rewrite mouse_downs_app, Hc1, Hc'. unfold presses.
      destruct (Z.eqb_spec (ori_gesture (handmajor s)) Gest.FIST) as [Ho|Ho].
      * rewrite (Hkeep Ho). reflexivity.
      * destruct (Z.eqb_spec (ori_gesture (handmajor s1)) Gest.FIST) as [Ho1|Ho1].
        -- rewrite (Hk' Ho1). reflexivity.
        -- reflexivity.
    + intros Ho. apply Hk', Hkeep, Ho.
Qed.

End FistRun.

(** C2 (amended).  From the initial session (settled gesture PALM, run
    counter 0, no button held), over a stream of frames that each show
    the major hand alone with raw gesture FIST, the loop never raises;
    over five frames or fewer the settled gesture stays PALM and
    [mouseDown] is not called; from six frames on the settled gesture is
    FIST and [mouseDown] has been called exactly once.  The press
    therefore falls on the sixth frame, the settling frame, and is not
    repeated on later fist frames. *)
Theorem fist_presses_once_on_sixth_frame :
  forall (frames : list (os * results)),
    Forall (fun f => fist_frame (snd f)) frames ->
    exists s' acts,
      run_frames session_init frames = (s', acts, Ok tt)
      /\ HandRecog.ori_gesture (handmajor s')
         = (if (6 <=? List.length frames)%nat then Gest.FIST else Gest.PALM)
      /\ mouse_downs acts
         = (if (6 <=? List.length frames)%nat then 1 else 0)%nat.
Proof.
  intros frames Hall.
  assert (Hinit : drag_inv session_init).
  { split; [reflexivity | left; split; reflexivity]. }
  destruct (run_frames_fist frames session_init Hinit Hall)
    as (s' & acts & Hrun & _ & (Ho & _) & Hc & _).
  assert (Hori : HandRecog.ori_gesture (handmajor s')
                 = if (6 <=? List.length frames)%nat
                   then Gest.FIST else Gest.PALM).
  { rewrite Ho. cbn [handmajor session_init].
    destruct (Nat.leb_spec 6 (List.length frames)) as [H6|H5].
    - now apply six_frames_settle.
    - destruct (run_keeps (List.length frames)
                  (HandRecog.init HLabel.MAJOR) Gest.FIST) as [_ Hk].
      + right; left. split; [discriminate | lia].
      + exact Hk. }
  exists s', acts. split; [exact Hrun|]. split; [exact Hori|].
  rewrite Hc. unfold presses. rewrite Hori.
  change (HandRecog.ori_gesture (handmajor session_init)) with Gest.PALM.
  change (Gest.PALM =? Gest.FIST) with false.
  now destruct (6 <=? List.length frames)%nat.
Qed.

Lemma fist_results_is_fist_frame : fist_frame fist_results.
Proof.
  split; [reflexivity|]. exists Hands.fist.
  split; vm_compute; reflexivity.
Qed.

Lemma fist_presses_once_witness :
  exists s' acts,
    run_frames session_init (repeat (screen, fist_results) 7)
      = (s', acts, Ok tt)
    /\ HandRecog.ori_gesture (handmajor s') = Gest.FIST
    /\ mouse_downs acts = 1%nat.
Proof.
  apply (fist_presses_once_on_sixth_frame (repeat (screen, fist_results) 7)).
  repeat constructor; apply fist_results_is_fist_frame.
Defined.

(** C2, as stated, fails: five fist frames from the initial session leave
    the settled gesture at PALM (the run counter ends at 4) and press no
    button; the sixth frame settles FIST and presses. *)
Lemma five_fist_frames_counterexample :
  (let '(s', acts, res) :=
     run_frames session_init (repeat (screen, fist_results) 5) in
   (HandRecog.ori_gesture (handmajor s'),
    HandRecog.frame_count (handmajor s'), acts, res))
  = (Gest.PALM, 4%nat, [], Ok tt)
  /\ (let '(s', acts, res) :=
        run_frames session_init (repeat (screen, fist_results) 6) in
      (HandRecog.ori_gesture (handmajor s'),
       HandRecog.frame_count (handmajor s'), acts, res))
     = (Gest.FIST, 5%nat,
        [MouseDown "left"; MoveTo (Some (PInt 100)) (Some (PInt 100))],
        Ok tt).
Proof. vm_compute. split; reflexivity. Qed.

(* ===================================================================== *)
(** ** Cursor damping *)
(* ===================================================================== *)

Section Damping.
Import Controller.

(** The integers [float()] converts without [OverflowError]. *)
Definition fits (n : Z) : Prop := Z.abs n < 2 ^ 1024 - 2 ^ 970.

Lemma float_of_int_fits (n : Z) :
  fits n -> Py.float_of_int n = Ok (Py.Z2F n).
Proof.
  unfold fits, Py.float_of_int. intros H.
  destruct (Z.ltb_spec (Z.abs n) (2 ^ 1024 - 2 ^ 970)); [reflexivity|].
  exfalso. apply (Z.lt_irrefl (Z.abs n)).
  eapply Z.lt_le_trans; eassumption.
Qed.

Lemma small_fits (n : Z) : Z.abs n <= 900 -> fits n.
Proof.
  intros H. unfold fits. eapply Z.le_lt_trans; [exact H|].
  apply Z.ltb_lt. vm_compute. reflexivity.
Qed.

Lemma scaled_fits (old delta : Z) (ratio : float) :
  fits old -> fits delta ->
  scaled old delta ratio = Ok (Py.Z2F old + Py.Z2F delta * ratio)%float.
Proof.
  intros Ho Hd. unfold scaled.
  now rewrite (float_of_int_fits delta Hd), (float_of_int_fits old Ho).
Qed.

(** The cursor position [get_position] answers once the hand's pixel
    position is known, by the branch the squared delta selects. *)
Lemma get_position_cases (c : t) (o : os) (hr : option hand) (x y : Z) :
  hand_pixel o hr = Ok (x, y) ->
  let prev := match prev_hand c with None => (x, y) | Some p => p end in
  let delta_x := x - fst prev in
  let delta_y := y - snd prev in
  let distsq := delta_x ^ 2 + delta_y ^ 2 in
  fst (get_position c o hr) =
    match
      (if distsq <=? 25 then
         Ok (PInt (fst (position o)), PInt (snd (position o)))
       else
         ratio <- (if distsq <=? 900
                   then r <- Py.pow_half distsq ;; Ok (0.07 * r)%float
                   else Ok 2.1%float) ;;
         nx <- scaled (fst (position o)) delta_x ratio ;;
         ny <- scaled (snd (position o)) delta_y ratio ;;
         Ok (PFloat nx, PFloat ny))
    with
    | Ok p => p
    | Raise _ => (PInt 0, PInt 0)
    end.
Proof.
  intros Hp prev delta_x delta_y distsq.
  unfold get_position. rewrite Hp. unfold damp.
  destruct (position o) as [x_old y_old]. cbn [fst snd].
  fold prev. fold delta_x. fold delta_y. fold distsq.
  destruct (distsq <=? 25).
  - cbn [fst]. now rewrite !Z.mul_0_r, !Z.add_0_r.
  - match goal with
    | |- fst (match ?r with _ => _ end) = _ => destruct r
    end; reflexivity.
Qed.

End Damping.

(** C6 (amended).  With the hand's pixel position [(x, y)] and the delta
    from the previous hand position: if delta squared is at most 25 the
    answer is the old OS cursor position; if it is above 25 and at most
    900 the answer is old + delta * (0.07 * sqrt(delta squared)); above
    900 it is old + delta * 2.1.  In particular a delta of (5, 0) does
    not move the cursor, and a delta of (6, 0) moves it by
    6 * (0.07 * 6) pixels in x -- the scale 0.07 * 6 multiplies the
    delta. *)
Theorem get_position_three_tiers :
  forall (c : Controller.t) (o : os) (hr : option hand) (x y : Z),
    Controller.hand_pixel o hr = Ok (x, y) ->
    let x_old := fst (position o) in
    let y_old := snd (position o) in
    let prev := match Controller.prev_hand c with
                | None => (x, y)
                | Some p => p
                end in
    let delta_x := x - fst prev in
    let delta_y := y - snd prev in
    let distsq := delta_x ^ 2 + delta_y ^ 2 in
    let moved := fun ratio : float =>
      (PFloat (Py.Z2F x_old + Py.Z2F delta_x * ratio),
       PFloat (Py.Z2F y_old + Py.Z2F delta_y * ratio))%float in
    (distsq <= 25 ->
       fst (Controller.get_position c o hr) = (PInt x_old, PInt y_old))
    /\ (25 < distsq <= 900 -> fits x_old -> fits y_old ->
        fst (Controller.get_position c o hr)
          = moved (0.07 * sqrt (Py.Z2F distsq))%float)
    /\ (900 < distsq ->
        fits x_old -> fits y_old -> fits delta_x -> fits delta_y ->
        fst (Controller.get_position c o hr) = moved 2.1%float)
    /\ (delta_x = 5 -> delta_y = 0 ->
        fst (Controller.get_position c o hr) = (PInt x_old, PInt y_old))
    /\ (delta_x = 6 -> delta_y = 0 -> fits x_old -> fits y_old ->
        fst (Controller.get_position c o hr)
          = (PFloat (Py.Z2F x_old + 6 * (0.07 * 6)),
             PFloat (Py.Z2F y_old + 0 * (0.07 * 6)))%float).
Proof.
  intros c o hr x y Hp x_old y_old prev delta_x delta_y distsq moved.
  pose proof (get_position_cases c o hr x y Hp) as H. cbv zeta in H.
  fold prev in H. fold delta_x in H. fold delta_y in H. fold distsq in H.
  fold x_old in H. fold y_old in H.
  assert (T1 : distsq <= 25 ->
               fst (Controller.get_position c o hr) = (PInt x_old, PInt y_old)).
  { intros Hd. rewrite H.
    destruct (Z.leb_spec distsq 25); [reflexivity | lia]. }
  assert (T2 : 25 < distsq <= 900 -> fits x_old -> fits y_old ->
               fst (Controller.get_position c o hr)
               = moved (0.07 * sqrt (Py.Z2F distsq))%float).
  { intros [Hlo Hhi] Hx Hy. rewrite H.
    destruct (Z.leb_spec distsq 25); [lia|].
    destruct (Z.leb_spec distsq 900); [|lia].
    assert (Hdx : Z.abs delta_x <= 900) by (subst distsq; nia).
    assert (Hdy : Z.abs delta_y <= 900) by (subst distsq; nia).
    unfold Py.pow_half.
    rewrite (float_of_int_fits distsq) by (apply small_fits; lia).
    cbn [bind].
    rewrite (scaled_fits x_old delta_x _ Hx (small_fits _ Hdx)).
    rewrite (scaled_fits y_old delta_y _ Hy (small_fits _ Hdy)).
    reflexivity. }
  split; [exact T1|]. split; [exact T2|]. split; [|split].
  - intros Hd Hx Hy Hdx Hdy. rewrite H.
    destruct (Z.leb_spec distsq 25); [lia|].
    destruct (Z.leb_spec distsq 900); [lia|].
    cbn [bind].
    rewrite (scaled_fits x_old delta_x _ Hx Hdx).
    rewrite (scaled_fits y_old delta_y _ Hy Hdy).
    reflexivity.
  - intros Hdx Hdy. apply T1. subst distsq. rewrite Hdx, Hdy. lia.
  - intros Hdx Hdy Hx Hy. rewrite T2; [| subst distsq; rewrite Hdx, Hdy; lia
                                       | assumption | assumption].
    subst moved distsq. cbv beta. rewrite Hdx, Hdy. reflexivity.
Qed.

(** A hand whose anchor landmark 9 sits at the centre of the frame, a
    controller that last saw the hand at pixel (500, 500), and a screen
    on which the centre's x is pixel 506 or 505. *)
Definition centred : hand :=
  Hands.mk_hand (Hands.pt 0.2 0.7) (Hands.pt 0.4 0.2) (Hands.pt 0.5 0.2)
    (Hands.pt 0.6 0.2) (Hands.pt 0.7 0.2) (Hands.pt 0.4 0.6)
    (Hands.pt 0.5 0.5).

Definition last_at_500 : Controller.t :=
  Controller.set_prev_hand Controller.init (Some (500, 500)).

Definition screen_506 : os := mkOs (1012, 1000) (100, 100).
Definition screen_505 : os := mkOs (1010, 1000) (100, 100).

Lemma get_position_three_tiers_witness :
  fst (Controller.get_position last_at_500 screen_505 (Some centred))
    = (PInt 100, PInt 100)
  /\ fst (Controller.get_position last_at_500 screen_506 (Some centred))
     = (PFloat (100 + 6 * (0.07 * 6)), PFloat (100 + 0 * (0.07 * 6)))%float.
Proof.
  split.
  - destruct (get_position_three_tiers last_at_500 screen_505 (Some centred)
                505 500 eq_refl) as (_ & _ & _ & H & _).
    apply H; reflexivity.
  - destruct (get_position_three_tiers last_at_500 screen_506 (Some centred)
                506 500 eq_refl) as (_ & _ & _ & _ & H).
    apply H; [reflexivity | reflexivity | |]; apply small_fits; simpl; lia.
Defined.

(** C6, as stated, fails in its last sentence: with a delta of (6, 0)
    and the OS cursor at (100, 100) the answer's x is 100 + 6 * 0.42 =
    102.52, not 100 + 0.07 * 6 = 100.42. *)
Lemma six_pixel_delta_counterexample :
  Controller.hand_pixel screen_506 (Some centred) = Ok (506, 500)
  /\ fst (Controller.get_position last_at_500 screen_506 (Some centred))
     = (PFloat 102.52, PFloat 100)
  /\ (102.52 =? 100 + 0.07 * 6)%float = false
  /\ (100 + 0.07 * 6 =? 100.42)%float = true.
Proof. vm_compute. repeat split. Qed.

(* ===================================================================== *)
(** ** Pinch scroll *)
(* ===================================================================== *)

Module Pinch.
Import Controller.

(** [pinch_control] once the frame's two levels are known. *)
Definition pinch_step (c : t) (lvx lvy : float) : t * list action :=
  let '(c1, acts) := pinch_commit c in
  (pinch_track c1 lvx lvy, acts).

(** A session fed one [(lvx, lvy)] per frame: the final state and the
    actions of each frame. *)
Fixpoint pinch_levels (c : t) (levels : list (float * float))
  : t * list (list action) :=
  match levels with
  | [] => (c, [])
  | (lvx, lvy) :: rest =>
      let '(c1, acts) := pinch_step c lvx lvy in
      let '(c2, later) := pinch_levels c1 rest in
      (c2, acts :: later)
  end.

(** [handle_controls] called with PINCH_MINOR on a stream of hands: the
    final state and the actions of each frame, up to the first
    exception. *)
Fixpoint pinch_frames (c : t) (o : os) (hands : list hand)
  : t * list (list action) :=
  match hands with
  | [] => (c, [])
  | h :: rest =>
      match handle_controls c o Gest.PINCH_MINOR (Some h) with
      | (c1, acts, Ok _) =>
          let '(c2, later) := pinch_frames c1 o rest in
          (c2, acts :: later)
      | (c1, acts, Raise _) => (c1, [acts])
      end
  end.

(** The session [pinch_control_init] opens on an index tip at the
    centre of the frame. *)
Definition opened : t :=
  set_pinch Controller.init (Some 0.5%float) (Some 0.5%float) None
    0%float 0%float 0.

(** The level sequence of the specification, all on the x axis, and
    the same sequence with two more stable frames. *)
Definition six_levels : list (float * float) :=
  [(0.0, 0); (0.35, 0); (0.36, 0); (0.34, 0); (0.35, 0); (0.35, 0)]%float.

Definition eight_levels : list (float * float) :=
  (six_levels ++ [(0.35, 0); (0.35, 0)])%float.

(** A pinching hand with the index tip at the given [x]. *)
Definition pinching (x : float) : hand :=
  Hands.mk_hand (Hands.pt x 0.52) (Hands.pt x 0.5) (Hands.pt 0.5 0.2)
    (Hands.pt 0.6 0.2) (Hands.pt 0.7 0.2) (Hands.pt 0.4 0.6)
    (Hands.pt 0.5 0.6).

(** Index-tip positions 0.035, 0.036, 0.034, ... to the right of the
    pinch origin 0.5. *)
Definition six_hands : list hand :=
  map pinching [0.5; 0.535; 0.536; 0.534; 0.535; 0.535]%float.

End Pinch.

Section PinchFacts.
Import Controller Pinch.


Lemma pinch_commit_levels (c : t) (hr : option hand) :
  getpinchxlv (fst (pinch_commit c)) hr = getpinchxlv c hr
  /\ getpinchylv (fst (pinch_commit c)) hr = getpinchylv c hr.
Proof.
  unfold pinch_commit. destruct (framecount c =? 5)%nat; split; reflexivity.
Qed.

(** [pinch_control] is [pinch_step] at the levels the hand gives. *)
Lemma pinch_control_step (c : t) (hr : option hand) (lvx lvy : float) :
  getpinchxlv c hr = Ok lvx -> getpinchylv c hr = Ok lvy ->
  pinch_control c hr
    = (fst (pinch_step c lvx lvy), snd (pinch_step c lvx lvy), Ok tt).
Proof.
  intros Hx Hy. destruct (pinch_commit_levels c hr) as [Hx' Hy'].
  unfold pinch_control, pinch_step.
  destruct (pinch_commit c) as [c1 acts]. cbn [fst] in Hx', Hy'.
  now rewrite Hx', Hx, Hy', Hy.
Qed.


End PinchFacts.




(* ===================================================================== *)
(** ** Hand roles *)
(* ===================================================================== *)

(** One detected hand with the given handedness label. *)
Definition labelled (label : string) : results :=
  mkResults (Some [Hands.open4])
    (Some [Parsed (VDict [("classification"%string,
             VList [VDict [("index"%string, VInt 1);
                           ("score"%string, VFloat 0.51);
                           ("label"%string, VStr label)]])])]).

(** One detected hand whose handedness entry cannot be parsed. *)
Definition unparseable_results : results :=
  mkResults (Some [Hands.open4]) (Some [Unparseable]).

(** Two detected hands, a fist and then an open hand: the handedness
    entry of the first cannot be parsed, the second carries the given
    label. *)
Definition unparseable_then (label : string) : results :=
  mkResults (Some [Hands.fist; Hands.open4])
    (Some [Unparseable;
           Parsed (VDict [("classification"%string,
             VList [VDict [("index"%string, VInt 0);
                           ("score"%string, VFloat 0.97);
                           ("label"%string, VStr label)]])])]).

(** The handedness half of one [try] block of [classify_hands]:
    [MessageToDict(results.multi_handedness[i])['classification'][0]['label']]. *)
Definition handedness_label (r : results) (i : nat) : result pyval :=
  m <- GestureController.subscript (multi_handedness r) i ;;
  handedness_dict <- GestureController.MessageToDict m ;;
  GestureController.label_of handedness_dict.

Section HandRoles.
Import GestureController.

(** A [try] block reads the label first and the landmarks after. *)
Lemma hand_side_reads_label (r : results) (i : nat) :
  hand_side r i
  = (label <- handedness_label r i ;;
     h <- subscript (multi_hand_landmarks r) i ;;
     Ok (is_Right label, h)).
Proof.
  unfold hand_side, handedness_label.
  destruct (subscript (multi_handedness r) i) as [m|e]; [|reflexivity].
  cbn [bind].
  destruct (MessageToDict m) as [d|e]; reflexivity.
Qed.

(** A [try] block whose label cannot be read assigns nothing. *)
Lemma assign_unreadable (r : results) (i : nat) (e : exn)
    (lr : option hand * option hand) :
  handedness_label r i = Raise e -> assign r i lr = lr.
Proof.
  intros He. unfold assign. rewrite hand_side_reads_label, He. reflexivity.
Qed.

(** A [try] block whose label reads as anything but 'Right' assigns
    [left]. *)
Lemma assign_left (r : results) (i : nat) (label : pyval) (h : hand)
    (lr : option hand * option hand) :
  handedness_label r i = Ok label -> is_Right label = false ->
  subscript (multi_hand_landmarks r) i = Ok h ->
  assign r i lr = (Some h, snd lr).
Proof.
  intros Hl Hr Hh. unfold assign.
  rewrite hand_side_reads_label, Hl. cbn [bind]. rewrite Hh. cbn [bind].
  rewrite Hr. reflexivity.
Qed.

(** Two frames with the same handedness entries, whose landmarks differ
    at most at a detection with an unreadable label, go through the
    same assignments. *)
Lemma assign_ignores_unreadable (r r' : results) (i : nat) (e : exn) :
  handedness_label r i = Raise e ->
  multi_handedness r' = multi_handedness r ->
  (forall j, j <> i ->
     subscript (multi_hand_landmarks r') j
     = subscript (multi_hand_landmarks r) j) ->
  forall j lr, assign r' j lr = assign r j lr.
Proof.
  intros He Hh Hl j lr.
  assert (He' : handedness_label r' i = Raise e)
    by (unfold handedness_label in *; rewrite Hh; exact He).
  destruct (Nat.eq_dec j i) as [->|Hj].
  - now rewrite (assign_unreadable r i e), (assign_unreadable r' i e).
  - unfold assign, hand_side. now rewrite Hh, (Hl j Hj).
Qed.

(** The roles in terms of the two assignments. *)
Lemma classify_hands_sides (dom_hand : bool) (r : results) :
  classify_hands dom_hand r
  = (let sides := assign r 1 (assign r 0 (None, None)) in
     if dom_hand then (snd sides, fst sides) else sides).
Proof.
  unfold classify_hands. cbv zeta.
  destruct (assign r 1 _) as [l rt]. now destruct dom_hand.
Qed.

End HandRoles.

(** C5 (amended).  [classify_hands] never raises, and a detection whose
    handedness payload cannot be read -- there is no entry,
    [MessageToDict] rejects it, or the dictionary has no
    [classification[0].label] -- is dropped: the roles do not depend on
    the landmarks of that detection, and they are the roles the other
    detection gives alone, [(None, None)] when neither of the two can be
    read.  An ambiguous label on one of the two detections the function
    reads is not dropped but guessed: every label other than 'Right' is
    read as the left hand.  Such a hand holds the left-hand role -- the
    minor role when the right hand is dominant, the major role
    otherwise -- when it is the second detection, and when it is the
    first unless the second is read as a left hand
    too. *)
Theorem classify_hands_drops_unreadable_payloads :
  forall (dom_hand : bool) (r : results),
    (forall (i : nat) (e : exn) (r' : results),
        handedness_label r i = Raise e ->
        multi_handedness r' = multi_handedness r ->
        (forall j, j <> i ->
           GestureController.subscript (multi_hand_landmarks r') j
           = GestureController.subscript (multi_hand_landmarks r) j) ->
        GestureController.classify_hands dom_hand r'
        = GestureController.classify_hands dom_hand r)
    /\ (forall e,
          handedness_label r 0 = Raise e ->
          GestureController.classify_hands dom_hand r
          = (let sides := GestureController.assign r 1 (None, None) in
             if dom_hand then (snd sides, fst sides) else sides))
    /\ (forall e,
          handedness_label r 1 = Raise e ->
          GestureController.classify_hands dom_hand r
          = (let sides := GestureController.assign r 0 (None, None) in
             if dom_hand then (snd sides, fst sides) else sides))
    /\ (forall e0 e1,
          handedness_label r 0 = Raise e0 ->
          handedness_label r 1 = Raise e1 ->
          GestureController.classify_hands dom_hand r = (None, None))
    /\ (forall label h,
          handedness_label r 1 = Ok label ->
          GestureController.is_Right label = false ->
          GestureController.subscript (multi_hand_landmarks r) 1 = Ok h ->
          snd (GestureController.classify_hands true r) = Some h
          /\ fst (GestureController.classify_hands false r) = Some h)
    /\ (forall label h,
          handedness_label r 0 = Ok label ->
          GestureController.is_Right label = false ->
          GestureController.subscript (multi_hand_landmarks r) 0 = Ok h ->
          (forall h', GestureController.hand_side r 1 <> Ok (false, h')) ->
          snd (GestureController.classify_hands true r) = Some h
          /\ fst (GestureController.classify_hands false r) = Some h).
Proof.
  intros dom_hand r.
  split; [|split; [|split; [|split; [|split]]]].
  - intros i e r' He Hh Hl.
    rewrite !classify_hands_sides. cbv zeta.
    now rewrite !(assign_ignores_unreadable r r' i e He Hh Hl).
  - intros e He. rewrite classify_hands_sides.
    now rewrite (assign_unreadable r 0 e).
  - intros e He. rewrite classify_hands_sides.
    now rewrite (assign_unreadable r 1 e).
  - intros e0 e1 H0 H1. rewrite classify_hands_sides.
    rewrite (assign_unreadable r 1 e1), (assign_unreadable r 0 e0) by assumption.
    now destruct dom_hand.
  - intros label h Hl Hr Hh. rewrite !classify_hands_sides.
    rewrite (assign_left r 1 label h _ Hl Hr Hh). split; reflexivity.
  - intros label h Hl Hr Hh Hn. rewrite !classify_hands_sides.
    rewrite (assign_left r 0 label h _ Hl Hr Hh). cbv zeta.
    unfold GestureController.assign.
    destruct (GestureController.hand_side r 1) as [[[|] h1]|e].
    + split; reflexivity.
    + exfalso. exact (Hn h1 eq_refl).
    + split; reflexivity.
Qed.

Lemma classify_hands_drops_unreadable_witness :
  GestureController.classify_hands true unparseable_results = (None, None)
  /\ GestureController.classify_hands true (unparseable_then "Right")
     = (Some Hands.open4, None)
  /\ GestureController.classify_hands true (unparseable_then "Unknown")
     = (None, Some Hands.open4)
  /\ snd (GestureController.classify_hands true (labelled "Unknown"))
     = Some Hands.open4.
Proof.
  split; [|split; [|split]].
  - exact (proj1 (proj2 (proj2 (proj2
             (classify_hands_drops_unreadable_payloads true
                unparseable_results))))
             (AttributeError "DESCRIPTOR") IndexError eq_refl eq_refl).
  - exact (proj1 (proj2
             (classify_hands_drops_unreadable_payloads true
                (unparseable_then "Right")))
             (AttributeError "DESCRIPTOR") eq_refl).
  - exact (proj1 (proj2
             (classify_hands_drops_unreadable_payloads true
                (unparseable_then "Unknown")))
             (AttributeError "DESCRIPTOR") eq_refl).
  - refine (proj1 (proj2 (proj2 (proj2 (proj2 (proj2
             (classify_hands_drops_unreadable_payloads true
                (labelled "Unknown"))))))
             (VStr "Unknown") Hands.open4 eq_refl eq_refl eq_refl _)).
    intros h' H. discriminate H.
Defined.

(** C5, as stated, fails for a payload whose label is neither 'Left' nor
    'Right': the hand is not dropped, it is taken for the left hand and,
    with the right hand dominant, becomes the minor hand. *)
Lemma ambiguous_label_counterexample :
  GestureController.hand_side (labelled "Unknown") 0
    = Ok (false, Hands.open4)
  /\ GestureController.classify_hands true (labelled "Unknown")
     = (None, Some Hands.open4)
  /\ GestureController.classify_hands false (labelled "Unknown")
     = (Some Hands.open4, None).
Proof. vm_compute. repeat split. Qed.


(* ===================================================================== *)
(** * Further properties of the recogniser *)
(* ===================================================================== *)

Section FingerBits.
Import HandRecog Raw.

(** The finger state of a hand is a four-bit pattern. *)
Lemma fingers_range (h : hand) (f : Z) :
  fingers h = Ok f -> 0 <= f <= 15.
Proof.
  unfold fingers. cbn [finger_loop points].
  repeat
    match goal with
    | |- context [finger_ratio ?s ?pt] =>
        destruct (finger_ratio s pt) as [?r|?e]; cbn [bind];
        [ destruct (0.5 <? _)%float | discriminate ]
    end;
    intros H; injection H as <-; vm_compute; split; discriminate.
Qed.

(** What one frame does to a recogniser that is shown a hand: the
    finger state and the raw gesture exist, and the answer is the
    debounce applied to them. *)
Lemma recog_frame_inv (self : t) (h : hand) (g' : Z) (s' : t) :
  Stream.recog_frame self (Some h) = Ok (g', s') ->
  exists f g,
    fingers h = Ok f
    /\ raw_gesture (hand_label self) h = Ok g
    /\ (g', s') = settle (seen self h f) g.
Proof.
  unfold Stream.recog_frame, observe, set_finger_state.
  cbn [update_hand_result hand_result].
  rewrite (finger_loop_hand (update_hand_result self (Some h))
             (Hands.holding HLabel.MINOR h) points eq_refl).
  fold (fingers h).
  destruct (fingers h) as [f|e] eqn:Hf; cbn [bind]; [|discriminate].
  fold (seen self h f). unfold get_gesture.
  cbn [hand_result seen set_finger update_hand_result].
  fold (seen self h f).
  destruct (current_gesture (seen self h f)) as [g|e] eqn:Hc; cbn [bind];
    [|discriminate].
  intros H; injection H as <- <-.
  exists f, g. split; [reflexivity|]. split.
  - unfold raw_gesture. rewrite Hf. cbn [bind]. rewrite <- Hc.
    apply current_gesture_fields; reflexivity.
  - reflexivity.
Qed.

End FingerBits.

(** X1.  [set_finger_state] writes one bit per finger: bit 3 is set
    exactly when the index ratio is above 0.5, bit 2 for the middle
    finger, bit 1 for the ring finger, bit 0 for the little finger; bit
    4, the thumb's, is never set, so the finger state lies in 0..15.
    Nothing but [finger] changes. *)
Theorem finger_state_bits :
  forall (self s' : HandRecog.t) (h : hand),
    HandRecog.hand_result self = Some h ->
    HandRecog.set_finger_state self = Ok s' ->
    exists index middle ring pinky,
      HandRecog.finger_ratio self (8, 5, 0)%nat = Ok index
      /\ HandRecog.finger_ratio self (12, 9, 0)%nat = Ok middle
      /\ HandRecog.finger_ratio self (16, 13, 0)%nat = Ok ring
      /\ HandRecog.finger_ratio self (20, 17, 0)%nat = Ok pinky
      /\ Z.testbit (HandRecog.finger s') 3 = (0.5 <? index)%float
      /\ Z.testbit (HandRecog.finger s') 2 = (0.5 <? middle)%float
      /\ Z.testbit (HandRecog.finger s') 1 = (0.5 <? ring)%float
      /\ Z.testbit (HandRecog.finger s') 0 = (0.5 <? pinky)%float
      /\ Z.testbit (HandRecog.finger s') 4 = false
      /\ 0 <= HandRecog.finger s' <= 15
      /\ s' = HandRecog.set_finger self (HandRecog.finger s').
Proof.
  intros self s' h Hh. unfold HandRecog.set_finger_state. rewrite Hh.
  cbn [HandRecog.finger_loop HandRecog.points].
  destruct (HandRecog.finger_ratio self (8, 5, 0)%nat) as [r1|e];
    cbn [bind]; [|discriminate].
  destruct (HandRecog.finger_ratio self (12, 9, 0)%nat) as [r2|e];
    cbn [bind]; [|discriminate].
  destruct (HandRecog.finger_ratio self (16, 13, 0)%nat) as [r3|e];
    cbn [bind]; [|discriminate].
  destruct (HandRecog.finger_ratio self (20, 17, 0)%nat) as [r4|e];
    cbn [bind]; [|discriminate].
  intros H; injection H as <-.
  exists r1, r2, r3, r4.
  destruct (0.5 <? r1)%float, (0.5 <? r2)%float, (0.5 <? r3)%float,
    (0.5 <? r4)%float;
    cbn [HandRecog.finger HandRecog.set_finger];
    repeat split; try reflexivity; vm_compute; discriminate.
Qed.

Lemma finger_state_bits_witness :
  exists index middle ring pinky,
    HandRecog.finger_ratio (Hands.holding HLabel.MAJOR Hands.first2_closed)
      (8, 5, 0)%nat = Ok index
    /\ HandRecog.finger_ratio (Hands.holding HLabel.MAJOR Hands.first2_closed)
         (12, 9, 0)%nat = Ok middle
    /\ HandRecog.finger_ratio (Hands.holding HLabel.MAJOR Hands.first2_closed)
         (16, 13, 0)%nat = Ok ring
    /\ HandRecog.finger_ratio (Hands.holding HLabel.MAJOR Hands.first2_closed)
         (20, 17, 0)%nat = Ok pinky
    /\ Z.testbit 12 3 = (0.5 <? index)%float
    /\ Z.testbit 12 2 = (0.5 <? middle)%float
    /\ Z.testbit 12 1 = (0.5 <? ring)%float
    /\ Z.testbit 12 0 = (0.5 <? pinky)%float
    /\ Z.testbit 12 4 = false
    /\ 0 <= 12 <= 15
    /\ Raw.seen (HandRecog.init HLabel.MAJOR) Hands.first2_closed 12
       = HandRecog.set_finger
           (Raw.seen (HandRecog.init HLabel.MAJOR) Hands.first2_closed 12) 12.
Proof.
  apply (finger_state_bits (Hands.holding HLabel.MAJOR Hands.first2_closed)
           (Raw.seen (HandRecog.init HLabel.MAJOR) Hands.first2_closed 12)
           Hands.first2_closed eq_refl).
  vm_compute. reflexivity.
Defined.

Section RawValues.
Import HandRecog Raw.

(** The values a raw gesture can take for a hand in the role [label]. *)
Definition raw_value (label g : Z) : Prop :=
  g <> Gest.PALM /\ g <> Gest.THUMB /\ g <> Gest.FIRST2
  /\ (0 <= g <= 15 \/ 33 <= g <= 36)
  /\ (g = Gest.PINCH_MINOR -> label = HLabel.MINOR)
  /\ (g = Gest.PINCH_MAJOR -> label <> HLabel.MINOR).

Lemma raw_gesture_value (label : Z) (h : hand) (g : Z) :
  raw_gesture label h = Ok g -> raw_value label g.
Proof.
  unfold raw_gesture.
  destruct (fingers h) as [f|e] eqn:Hf; cbn [bind]; [|discriminate].
  pose proof (fingers_range h f Hf) as Hr.
  unfold current_gesture.
  cbn [finger seen set_finger hand_label update_hand_result init].
  unfold raw_value, Gest.PALM, Gest.THUMB, Gest.FIRST2, Gest.PINCH_MINOR,
    Gest.PINCH_MAJOR, Gest.LAST3, Gest.LAST4, Gest.V_GEST,
    Gest.TWO_FINGER_CLOSED, Gest.MID, HLabel.MINOR.
  destruct ((f =? 7) || (f =? 15)).
  - destruct (get_dist _ (8, 4)%nat) as [d|e]; cbn [bind]; [|discriminate].
    destruct (d <? 0.05)%float.
    + destruct (Z.eqb_spec label 0); intros H; injection H as <-;
        repeat split; try lia; try discriminate; intros; assumption.
    + destruct (Z.eqb_spec 12 f).
      * destruct (get_dist _ (8, 12)%nat); cbn [bind]; [|discriminate].
        destruct (get_dist _ (5, 9)%nat); cbn [bind]; [|discriminate].
        destruct (Py.div _ _); cbn [bind]; [|discriminate].
        destruct (1.7 <? _)%float.
        -- intros H; injection H as <-; repeat split; lia.
        -- destruct (get_dz _ _); cbn [bind]; [|discriminate].
           destruct (_ <? 0.1)%float; intros H; injection H as <-;
             repeat split; lia.
      * intros H; injection H as <-; repeat split; lia.
  - cbn [bind].
    destruct (Z.eqb_spec 12 f).
    + destruct (get_dist _ (8, 12)%nat); cbn [bind]; [|discriminate].
      destruct (get_dist _ (5, 9)%nat); cbn [bind]; [|discriminate].
      destruct (Py.div _ _); cbn [bind]; [|discriminate].
      destruct (1.7 <? _)%float.
      * intros H; injection H as <-; repeat split; lia.
      * destruct (get_dz _ _); cbn [bind]; [|discriminate].
        destruct (_ <? 0.1)%float; intros H; injection H as <-;
          repeat split; lia.
    + intros H; injection H as <-; repeat split; lia.
Qed.

(** Answers of a stream: a property that PALM has and every raw gesture
    of the role has holds of every answer. *)
Lemma recog_run_answers (P : Z -> Prop) (label : Z) :
  P Gest.PALM ->
  (forall h g, raw_gesture label h = Ok g -> P g) ->
  forall (frames : list (option hand)) (self : t) (gs : list Z) (s' : t),
    hand_label self = label -> P (ori_gesture self) ->
    Stream.recog_run self frames = Ok (gs, s') ->
    Forall P gs /\ P (ori_gesture s') /\ hand_label s' = label.
Proof.
  intros Hpalm Hraw.
  induction frames as [|hr frames IH]; intros self gs s' Hl Ho Hrun.
  - injection Hrun as <- <-. repeat split; [constructor | assumption..].
  - cbn [Stream.recog_run] in Hrun.
    destruct (Stream.recog_frame self hr) as [[g1 s1]|e] eqn:Hf;
      cbn [bind] in Hrun; [|discriminate].
    destruct (Stream.recog_run s1 frames) as [[gs2 s2]|e] eqn:Hr;
      cbn [bind] in Hrun; [|discriminate].
    injection Hrun as <- <-.
    assert (H1 : P g1 /\ P (ori_gesture s1) /\ hand_label s1 = label).
    { destruct hr as [h|].
      - destruct (recog_frame_inv self h g1 s1 Hf) as (f & g & _ & Hg & Hs).
        rewrite Hl in Hg. apply Hraw in Hg.
        assert (Hg1 : g1 = fst (settle (seen self h f) g)) by now rewrite <- Hs.
        assert (Hs1 : s1 = snd (settle (seen self h f) g)) by now rewrite <- Hs.
        assert (Hp : P g1).
        { rewrite Hg1, settle_fst, settle_ori.
          destruct (4 <? _)%nat; assumption. }
        split; [exact Hp|]. split.
        + rewrite Hs1, <- settle_fst, <- Hg1. exact Hp.
        + rewrite Hs1. exact Hl.
      - unfold Stream.recog_frame, observe, set_finger_state in Hf.
        cbn in Hf. injection Hf as <- <-.
        repeat split; assumption. }
    destruct H1 as (Hp1 & Ho1 & Hl1).
    destruct (IH s1 gs2 s2 Hl1 Ho1 Hr) as (Hall & Ho2 & Hl2).
    repeat split; [constructor|..]; assumption.
Qed.

End RawValues.

(** X2.  Whatever hand a recogniser is shown, the raw gesture of the
    frame (kept in [prev_gesture]) is a finger pattern in 0..15 or one of
    the refined gestures 33..36, and never PALM, THUMB or FIRST2; it is
    PINCH_MINOR only on the minor recogniser and PINCH_MAJOR only on the
    other. *)
Theorem raw_gesture_is_never_palm :
  forall (self s' : HandRecog.t) (h : hand) (answer : Z),
    Stream.recog_frame self (Some h) = Ok (answer, s') ->
    let raw := HandRecog.prev_gesture s' in
    raw <> Gest.PALM /\ raw <> Gest.THUMB /\ raw <> Gest.FIRST2
    /\ (0 <= raw <= 15 \/ 33 <= raw <= 36)
    /\ (raw = Gest.PINCH_MINOR -> HandRecog.hand_label self = HLabel.MINOR)
    /\ (raw = Gest.PINCH_MAJOR -> HandRecog.hand_label self <> HLabel.MINOR).
Proof.
  intros self s' h answer Hf raw.
  destruct (recog_frame_inv self h answer s' Hf) as (f & g & _ & Hg & Hs).
  assert (Hraw : raw = g).
  { subst raw. replace s' with (snd (HandRecog.settle (Raw.seen self h f) g))
      by now rewrite <- Hs.
    apply settle_prev. }
  rewrite Hraw. exact (raw_gesture_value _ h g Hg).
Qed.

Lemma raw_gesture_is_never_palm_witness :
  let s' := snd (HandRecog.settle
                   (Raw.seen (HandRecog.init HLabel.MAJOR) Hands.open4 15) 15) in
  let raw := HandRecog.prev_gesture s' in
  raw <> Gest.PALM /\ raw <> Gest.THUMB /\ raw <> Gest.FIRST2
  /\ (0 <= raw <= 15 \/ 33 <= raw <= 36)
  /\ (raw = Gest.PINCH_MINOR -> HLabel.MAJOR = HLabel.MINOR)
  /\ (raw = Gest.PINCH_MAJOR -> HLabel.MAJOR <> HLabel.MINOR).
Proof.
  intros s'.
  apply (raw_gesture_is_never_palm (HandRecog.init HLabel.MAJOR) s'
           Hands.open4 Gest.PALM).
  vm_compute. reflexivity.
Defined.

(** X3.  Over any stream of frames, with or without a hand, a
    recogniser started in its initial state never answers THUMB or
    FIRST2, answers PINCH_MINOR only if it is the minor recogniser and
    PINCH_MAJOR only if it is not: the major hand can never start a
    scroll, the minor hand never a major pinch. *)
Theorem answers_respect_the_role :
  forall (label : Z) (frames : list (option hand)) (gs : list Z)
         (s' : HandRecog.t),
    Stream.recog_run (HandRecog.init label) frames = Ok (gs, s') ->
    Forall (fun g => g <> Gest.THUMB /\ g <> Gest.FIRST2
                     /\ (g = Gest.PINCH_MINOR -> label = HLabel.MINOR)
                     /\ (g = Gest.PINCH_MAJOR -> label <> HLabel.MINOR)) gs.
Proof.
  intros label frames gs s' Hrun.
  refine (proj1 (recog_run_answers _ label _ _ frames (HandRecog.init label)
                   gs s' eq_refl _ Hrun)).
  - repeat split; discriminate.
  - intros h g Hg. destruct (raw_gesture_value label h g Hg)
      as (_ & H1 & H2 & _ & H3 & H4). repeat split; assumption.
  - repeat split; discriminate.
Qed.

Lemma answers_respect_the_role_witness :
  Forall (fun g => g <> Gest.THUMB /\ g <> Gest.FIRST2
                   /\ (g = Gest.PINCH_MINOR -> HLabel.MAJOR = HLabel.MINOR)
                   /\ (g = Gest.PINCH_MAJOR -> HLabel.MAJOR <> HLabel.MINOR))
    [Gest.PALM; Gest.PALM].
Proof.
  apply (answers_respect_the_role HLabel.MAJOR [None; Some Hands.fist]
           [Gest.PALM; Gest.PALM]
           (snd (HandRecog.settle
                   (Raw.seen (HandRecog.init HLabel.MAJOR) Hands.fist 0) 0))).
  vm_compute. reflexivity.
Defined.

Section Jitter.
Import HandRecog Stream.

(** No gesture other than [A] occurs six times in a row in [raw]. *)
Definition no_run_of_six (A : Z) (raw : list Z) : Prop :=
  forall pre g post, raw = pre ++ repeat g 6 ++ post -> g = A.

(** The state settled on [A] after the raw gestures [seen] went by:
    either [A] is the gesture being counted, or [seen] ends in the run
    that is being counted. *)
Definition tracking (A : Z) (seen : list Z) (s : t) : Prop :=
  ori_gesture s = A
  /\ (prev_gesture s = A
      \/ exists pre, seen = pre ++ repeat (prev_gesture s) (S (frame_count s))).

Lemma tracking_step (A : Z) (seen rest : list Z) (s : t) (g : Z) :
  tracking A seen s -> no_run_of_six A (seen ++ g :: rest) ->
  fst (settle s g) = A /\ tracking A (seen ++ [g]) (snd (settle s g)).
Proof.
  intros (Ho & Ht) Hno.
  assert (Hori : ori_gesture (snd (settle s g)) = A).
  { rewrite settle_ori.
    destruct (Nat.ltb_spec 4 (frame_count (snd (settle s g)))) as [Hlt|_];
      [|exact Ho].
    destruct (Z.eq_dec g (prev_gesture s)) as [He|Hn].
    - rewrite (settle_count_same s g He) in Hlt.
      destruct Ht as [Hp|[pre Hpre]]; [congruence|].
      apply (Hno (pre ++ repeat g (S (frame_count s) - 5)) g rest).
      rewrite Hpre, <- He, <- !app_assoc. f_equal.
      change (g :: rest) with ([g] ++ rest).
      rewrite !app_assoc. f_equal.
      rewrite <- (repeat_app g _ 6), <- repeat_cons.
      change (g :: repeat g (S (frame_count s)))
        with (repeat g (S (S (frame_count s)))).
      f_equal. lia.
    - rewrite (settle_count_other s g Hn) in Hlt. lia. }
  split; [now rewrite settle_fst|]. split; [exact Hori|].
  rewrite settle_prev.
  destruct (Z.eq_dec g (prev_gesture s)) as [He|Hn].
  - rewrite (settle_count_same s g He).
    destruct Ht as [Hp|[pre Hpre]]; [left; congruence|].
    right. exists pre. rewrite Hpre, <- He, <- app_assoc. f_equal.
    now rewrite <- repeat_cons.
  - rewrite (settle_count_other s g Hn). right. now exists seen.
Qed.

Lemma tracking_run (A : Z) (rest : list Z) : forall (seen : list Z) (s : t),
  tracking A seen s -> no_run_of_six A (seen ++ rest) ->
  Forall (eq A) (settled_trace s rest)
  /\ ori_gesture (settle_run s rest) = A.
Proof.
  induction rest as [|g rest IH]; intros seen s Ht Hno.
  - split; [constructor | exact (proj1 Ht)].
  - destruct (tracking_step A seen rest s g Ht Hno) as [Hf Ht1].
    destruct (IH (seen ++ [g]) (snd (settle s g)) Ht1) as [Hall Hori].
    { now rewrite <- app_assoc. }
    split; [|exact Hori].
    cbn [settled_trace]. constructor; [now symmetry | exact Hall].
Qed.

End Jitter.

(** X4.  Once a recogniser has settled on [A] and [A] was also the last
    raw gesture, [get_gesture] keeps answering [A] over every stream of
    raw gestures in which no other gesture occurs six times in a row:
    flicker between gestures, however long, never reaches the
    controller. *)
Theorem flicker_never_changes_the_answer :
  forall (self : HandRecog.t) (A : Z) (raw : list Z),
    HandRecog.ori_gesture self = A ->
    HandRecog.prev_gesture self = A ->
    no_run_of_six A raw ->
    Forall (eq A) (Stream.settled_trace self raw)
    /\ HandRecog.ori_gesture (Stream.settle_run self raw) = A.
Proof.
  intros self A raw Ho Hp Hno.
  apply (tracking_run A raw [] self); [|exact Hno].
  split; [exact Ho | left; exact Hp].
Qed.

(** A decision procedure for [no_run_of_six]. *)
Fixpoint starts_with_run (g : Z) (n : nat) (l : list Z) : bool :=
  match n with
  | O => true
  | S n' =>
      match l with
      | [] => false
      | x :: l' => (x =? g) && starts_with_run g n' l'
      end
  end.

Fixpoint short_runs (A : Z) (raw : list Z) : bool :=
  match raw with
  | [] => true
  | g :: rest =>
      ((g =? A) || negb (starts_with_run g 6 raw)) && short_runs A rest
  end.

Lemma starts_with_run_repeat (g : Z) (n : nat) (post : list Z) :
  starts_with_run g n (repeat g n ++ post) = true.
Proof.
  induction n as [|n IH]; [reflexivity|].
  cbn [repeat app starts_with_run]. now rewrite Z.eqb_refl, IH.
Qed.

Lemma short_runs_sound (A : Z) (raw : list Z) :
  short_runs A raw = true -> no_run_of_six A raw.
Proof.
  intros Hs pre. revert raw Hs.
  induction pre as [|a pre IH]; intros raw Hs g post ->.
  - cbn [app] in Hs.
    change (repeat g 6 ++ post) with (g :: repeat g 5 ++ post) in Hs.
    cbn [short_runs] in Hs. apply andb_true_iff in Hs as [Hs _].
    change (g :: repeat g 5 ++ post) with (repeat g 6 ++ post) in Hs.
    rewrite starts_with_run_repeat in Hs. cbn [negb] in Hs.
    rewrite orb_false_r in Hs. now apply Z.eqb_eq.
  - cbn [app short_runs] in Hs. apply andb_true_iff in Hs as [_ Hs].
    exact (IH _ Hs g post eq_refl).
Qed.

Lemma flicker_never_changes_the_answer_witness :
  let settled := Stream.settle_run (HandRecog.init HLabel.MAJOR)
                   (repeat Gest.V_GEST 6) in
  let raw := repeat Gest.MID 5 ++ [Gest.V_GEST] ++ repeat Gest.INDEX 5
             ++ repeat Gest.MID 5 in
  Forall (eq Gest.V_GEST) (Stream.settled_trace settled raw)
  /\ HandRecog.ori_gesture (Stream.settle_run settled raw) = Gest.V_GEST.
Proof.
  intros settled raw.
  apply (flicker_never_changes_the_answer settled Gest.V_GEST raw);
    [reflexivity | reflexivity |].
  apply short_runs_sound. reflexivity.
Defined.

(** X5.  From any recogniser state, a stream of hands that all have the
    raw gesture [g] is classified without error, and every answer from
    the sixth frame on is [g]: six equal frames always settle. *)
Theorem six_equal_frames_settle :
  forall (self : HandRecog.t) (frames : list hand) (g : Z),
    Forall (fun h => Raw.raw_gesture (HandRecog.hand_label self) h = Ok g)
      frames ->
    exists gs s',
      Stream.recog_run self (map Some frames) = Ok (gs, s')
      /\ List.length gs = List.length frames
      /\ skipn 5 gs = repeat g (List.length frames - 5)
      /\ (6 <= List.length frames -> HandRecog.ori_gesture s' = g)%nat.
Proof.
  intros self frames g Hall.
  destruct (recog_run_raw frames self g Hall) as (s' & Hrun & (Ho & _) & _).
  exists (Stream.settled_trace self (repeat g (List.length frames))), s'.
  split; [exact Hrun|]. split; [|split].
  - now rewrite settled_trace_length, repeat_length.
  - destruct (List.length frames) as [|n]; [reflexivity|].
    rewrite trace_from_sixth. f_equal; lia.
  - intros H6. rewrite Ho. now apply six_frames_settle.
Qed.

Lemma six_equal_frames_settle_witness :
  exists gs s',
    Stream.recog_run (HandRecog.init HLabel.MINOR)
      (map Some (repeat Hands.first2_closed 6)) = Ok (gs, s')
    /\ List.length gs = 6%nat
    /\ skipn 5 gs = [Gest.TWO_FINGER_CLOSED]
    /\ (6 <= 6 -> HandRecog.ori_gesture s' = Gest.TWO_FINGER_CLOSED)%nat.
Proof.
  apply (six_equal_frames_settle (HandRecog.init HLabel.MINOR)
           (repeat Hands.first2_closed 6) Gest.TWO_FINGER_CLOSED).
  repeat constructor.
Defined.

(* ===================================================================== *)
(** * Further properties of the controller *)
(* ===================================================================== *)

Section PositionFacts.
Import Controller.

Lemma get_position_snd (c : t) (o : os) (hr : option hand) (x y : Z) :
  hand_pixel o hr = Ok (x, y) ->
  snd (get_position c o hr) = set_prev_hand c (Some (x, y)).
Proof.
  intros Hp. unfold get_position. rewrite Hp.
  pose proof (damp_state c o x y) as Hd.
  destruct (damp c o x y) as [c1 [q|e]]; cbn [fst snd] in *; now subst c1.
Qed.

(** A hand that did not move since [prev_hand] leaves the cursor where
    the system has it. *)
Lemma get_position_zero_delta (c : t) (o : os) (hr : option hand) (x y : Z) :
  hand_pixel o hr = Ok (x, y) ->
  prev_hand c = None \/ prev_hand c = Some (x, y) ->
  get_position c o hr
    = ((PInt (fst (position o)), PInt (snd (position o))),
       set_prev_hand c (Some (x, y))).
Proof.
  intros Hp Hprev.
  rewrite (surjective_pairing (get_position c o hr)).
  rewrite (get_position_snd c o hr x y Hp). f_equal.
  rewrite (get_position_cases c o hr x y Hp). cbv zeta.
  destruct Hprev as [-> | ->]; cbn [fst snd]; rewrite !Z.sub_diag;
    reflexivity.
Qed.

Lemma hand_pixel_size (o o' : os) (hr : option hand) :
  size o' = size o -> hand_pixel o' hr = hand_pixel o hr.
Proof. unfold hand_pixel. now intros ->. Qed.

Lemma hand_pixel_short (o : os) (hr : option hand) :
  (forall h, hr = Some h -> (List.length h <= 9)%nat) ->
  exists e, hand_pixel o hr = Raise e.
Proof.
  intros Hs. unfold hand_pixel, landmark. destruct hr as [h|].
  - destruct (nth_error h 9) as [p|] eqn:Hn.
    + assert (9 < List.length h)%nat
        by (apply nth_error_Some; congruence).
      specialize (Hs h eq_refl). lia.
    + now exists IndexError.
  - now exists (AttributeError "landmark").
Qed.

End PositionFacts.

(** X6.  The first call of [get_position] after [prev_hand] was cleared
    (at start-up, or by the loop when no hand was in view) answers the
    cursor position the system reports, whatever the hand's position,
    and records the hand's pixel position: a hand that enters the frame
    never makes the cursor jump. *)
Theorem first_frame_does_not_move_the_cursor :
  forall (c : Controller.t) (o : os) (hr : option hand) (x y : Z),
    Controller.prev_hand c = None ->
    Controller.hand_pixel o hr = Ok (x, y) ->
    Controller.get_position c o hr
      = ((PInt (fst (position o)), PInt (snd (position o))),
         Controller.set_prev_hand c (Some (x, y))).
Proof.
  intros c o hr x y Hn Hp.
  apply get_position_zero_delta; [exact Hp | left; exact Hn].
Qed.

Lemma first_frame_does_not_move_witness :
  Controller.get_position Controller.init screen_506 (Some centred)
    = ((PInt 100, PInt 100),
       Controller.set_prev_hand Controller.init (Some (506, 500))).
Proof.
  apply (first_frame_does_not_move_the_cursor Controller.init screen_506
           (Some centred) 506 500); reflexivity.
Defined.

(** X7.  Two calls of [get_position] on the same landmarks and the same
    screen size: whatever the first one answered, the second answers the
    cursor position the system reports at that time.  A hand held still
    does not move the cursor. *)
Theorem still_hand_does_not_move_the_cursor :
  forall (c : Controller.t) (o o' : os) (hr : option hand) (x y : Z),
    Controller.hand_pixel o hr = Ok (x, y) ->
    size o' = size o ->
    fst (Controller.get_position
           (snd (Controller.get_position c o hr)) o' hr)
      = (PInt (fst (position o')), PInt (snd (position o'))).
Proof.
  intros c o o' hr x y Hp Hs.
  rewrite (get_position_snd c o hr x y Hp).
  rewrite (get_position_zero_delta _ o' hr x y).
  - reflexivity.
  - now rewrite (hand_pixel_size o o' hr Hs).
  - right. reflexivity.
Qed.

Lemma still_hand_does_not_move_witness :
  fst (Controller.get_position
         (snd (Controller.get_position last_at_500 screen_506 (Some centred)))
         (mkOs (1012, 1000) (103, 100)) (Some centred))
    = (PInt 103, PInt 100).
Proof.
  apply (still_hand_does_not_move_the_cursor last_at_500 screen_506
           (mkOs (1012, 1000) (103, 100)) (Some centred) 506 500);
    reflexivity.
Defined.

(** X8.  When the landmarks are missing or the hand has fewer than ten
    of them, [get_position] swallows the exception: it answers (0, 0) and
    leaves the controller as it was.  [handle_controls] then sends the
    cursor to the screen's origin on a V gesture. *)
Theorem get_position_answers_origin_on_bad_landmarks :
  forall (c : Controller.t) (o : os) (hr : option hand),
    (forall h, hr = Some h -> (List.length h <= 9)%nat) ->
    Controller.get_position c o hr = ((PInt 0, PInt 0), c)
    /\ snd (fst (Controller.handle_controls c o Gest.V_GEST hr))
       = (if Controller.grabflag c then [MouseUp "left"] else [])
         ++ [MoveTo (Some (PInt 0)) (Some (PInt 0))].
Proof.
  intros c o hr Hs.
  assert (Hg : Controller.get_position c o hr = ((PInt 0, PInt 0), c)).
  { unfold Controller.get_position.
    destruct (hand_pixel_short o hr Hs) as [e ->]. reflexivity. }
  split; [exact Hg|].
  unfold Controller.handle_controls. rewrite Hg.
  change (Gest.V_GEST =? Gest.PALM) with false.
  change (Gest.V_GEST =? Gest.FIST) with false.
  change (Gest.V_GEST =? Gest.V_GEST) with true.
  cbn [negb andb]. destruct (Controller.grabflag c); reflexivity.
Qed.

Lemma get_position_answers_origin_witness :
  Controller.get_position last_at_500 screen (Some [Hands.pt 0.5 0.5])
    = ((PInt 0, PInt 0), last_at_500)
  /\ snd (fst (Controller.handle_controls last_at_500 screen Gest.V_GEST
                 (Some [Hands.pt 0.5 0.5])))
     = [MoveTo (Some (PInt 0)) (Some (PInt 0))].
Proof.
  apply (get_position_answers_origin_on_bad_landmarks last_at_500 screen
           (Some [Hands.pt 0.5 0.5])).
  intros h H. injection H as <-. simpl. lia.
Defined.

(** Case analysis on the gesture against the constants
    [handle_controls] tests. *)
Ltac gesture_cases g :=
  unfold Gest.PALM, Gest.FIST, Gest.PINCH_MAJOR, Gest.PINCH_MINOR,
    Gest.V_GEST, Gest.MID, Gest.INDEX, Gest.TWO_FINGER_CLOSED in *;
  repeat match goal with
         | |- context [g =? ?k] =>
             destruct (Z.eqb_spec g k); [subst g | ]
         end;
  cbn [Z.eqb Pos.eqb negb andb orb].

Ltac flag_norm :=
  cbn [Controller.grabflag Controller.flag Controller.pinchmajorflag
       Controller.pinchminorflag Controller.pinchstartxcoord
       Controller.pinchstartycoord Controller.pinchdirectionflag
       Controller.prevpinchlv Controller.pinchlv Controller.framecount
       Controller.prev_hand Controller.pinch_threshold
       Controller.set_prev_hand Controller.set_grabflag
       Controller.set_pinchmajorflag Controller.set_pinchminorflag
       Controller.set_flag Controller.set_pinch
       negb andb orb app fst snd] in *.

(** Case analysis on the four flags of a controller. *)
Ltac flag_cases c :=
  let fl := fresh "fl" in
  let gf := fresh "gf" in
  let pmj := fresh "pmj" in
  let pmn := fresh "pmn" in
  destruct c as [? ? ? fl gf pmj pmn ? ? ? ? ? ? ? ?];
  flag_norm; destruct gf, pmj, pmn, fl; flag_norm.

Section ControlShape.
Import Controller.

(** The gestures that click when the controller is armed. *)
Definition clicking (g : Z) : bool :=
  (g =? Gest.MID) || (g =? Gest.INDEX) || (g =? Gest.TWO_FINGER_CLOSED).

(** The pinch registers of a controller: the origin, the direction, the
    recorded and the committed level and the stability counter.  Whether
    a pinch session is open is not among them: that is [pinchminorflag],
    which every call with another gesture clears. *)
Definition pinch_registers (c : t)
  : option float * option float * option bool * float * float * nat :=
  (pinchstartxcoord c, pinchstartycoord c, pinchdirectionflag c,
   prevpinchlv c, pinchlv c, framecount c).

(** The actions of the gesture table for a gesture other than
    PINCH_MINOR, with the flags as they were on entry and the position
    [get_position] answered. *)
Definition plain_actions (c : t) (g : Z) (x y : num) : list action :=
  (if negb (g =? Gest.FIST) && grabflag c then [MouseUp "left"] else [])
  ++ (if g =? Gest.V_GEST then [MoveTo (Some x) (Some y)]
      else if g =? Gest.FIST then
        (if grabflag c then [] else [MouseDown "left"])
        ++ [MoveTo (Some x) (Some y)]
      else if (g =? Gest.MID) && flag c then [Click None]
      else if (g =? Gest.INDEX) && flag c then [Click (Some "right"%string)]
      else if (g =? Gest.TWO_FINGER_CLOSED) && flag c then [DoubleClick]
      else []).

(** [handle_controls] on a gesture other than PINCH_MINOR returns, emits
    [plain_actions], and leaves the flags as follows. *)
Lemma handle_controls_plain (c : t) (o : os) (g : Z) (hr : option hand) :
  g <> Gest.PINCH_MINOR ->
  exists c',
    handle_controls c o g hr
      = (c', plain_actions c g (fst (fst (get_position c o hr)))
                               (snd (fst (get_position c o hr))), Ok tt)
    /\ grabflag c' = (g =? Gest.FIST)
    /\ flag c' = ((g =? Gest.V_GEST) || (flag c && negb (clicking g)))
    /\ pinchminorflag c' = false
    /\ pinchmajorflag c' = ((g =? Gest.PINCH_MAJOR) && pinchmajorflag c)
    /\ pinch_registers c' = pinch_registers c.
Proof.
  intros Hn. unfold handle_controls, combined_pinch_guard, plain_actions,
    clicking, pinch_registers.
  destruct (get_position_state c o hr) as [p Hp].
  destruct (get_position c o hr) as [[x y] c0]. cbn [fst snd] in *. subst c0.
  gesture_cases g; try contradiction;
    flag_cases c;
    eexists; (split; [reflexivity|]); repeat split.
Qed.

End ControlShape.


Section PinchShape.
Import Controller.

(** [pinch_control] writes the pinch registers and nothing else, keeps the
    pinch origin, and emits what [pinch_commit] emits; a counter that is
    at most 5 stays at most 5. *)
Lemma pinch_control_frame (c : t) (hr : option hand) :
  let c' := fst (fst (pinch_control c hr)) in
  flag c' = flag c /\ grabflag c' = grabflag c
  /\ pinchmajorflag c' = pinchmajorflag c
  /\ pinchminorflag c' = pinchminorflag c
  /\ pinchstartxcoord c' = pinchstartxcoord c
  /\ pinchstartycoord c' = pinchstartycoord c
  /\ snd (fst (pinch_control c hr)) = snd (pinch_commit c)
  /\ (framecount c <= 5 -> framecount c' <= 5)%nat
  /\ (framecount c <> 5%nat -> pinchlv c' = pinchlv c
                               /\ (framecount c' <= S (framecount c))%nat).
Proof.
  unfold pinch_control, pinch_commit, pinch_track, pinch_axis.
  destruct (Nat.eqb_spec (framecount c) 5) as [H5|H5];
    repeat match goal with
           | |- context [match ?r with Ok _ => _ | Raise _ => _ end] =>
               destruct r
           | |- context [if ?b then _ else _] => destruct b
           end;
    cbn; repeat split; try reflexivity; try lia; try contradiction.
Qed.

(** What a commit emits: nothing, or one scroll, bare or wrapped in the
    two modifier keys. *)
Definition scroll_actions (acts : list action) : Prop :=
  exists n, acts = [Scroll n]
            \/ acts = [KeyDown "shift"; KeyDown "ctrl"; Scroll n;
                       KeyUp "ctrl"; KeyUp "shift"].

Lemma pinch_commit_actions (c : t) :
  (framecount c <> 5%nat /\ snd (pinch_commit c) = [])
  \/ (framecount c = 5%nat /\ scroll_actions (snd (pinch_commit c))).
Proof.
  unfold pinch_commit, scrollHorizontal, scrollVertical, scroll_actions.
  destruct (Nat.eqb_spec (framecount c) 5) as [H5|H5]; [|now left].
  right. split; [exact H5|]. cbn [snd pinchdirectionflag set_pinch].
  destruct (pinchdirectionflag c) as [[|]|]; eexists; eauto.
Qed.

Lemma pinch_control_returns (c : t) (hr : option hand) (p : Lm.t) (x0 y0 : float) :
  landmark hr 8 = Ok p ->
  pinchstartxcoord c = Some x0 -> pinchstartycoord c = Some y0 ->
  snd (pinch_control c hr) = Ok tt.
Proof.
  intros Hl Hx Hy. destruct (pinch_commit_levels c hr) as [Ex Ey].
  unfold pinch_control. destruct (pinch_commit c) as [c1 acts].
  cbn [fst] in Ex, Ey. rewrite Ex, Ey.
  unfold getpinchxlv, getpinchylv. rewrite Hl, Hx, Hy. reflexivity.
Qed.

End PinchShape.

Section PinchCall.
Import Controller.

(** The controller when the gesture table is reached on PINCH_MINOR:
    button released, major pinch flag cleared, [prev_hand] as
    [get_position] left it. *)
Definition pinch_entry (c : t) (q : option (Z * Z)) : t :=
  set_pinchmajorflag (set_grabflag (set_prev_hand c q) false) false.

Lemma handle_pinch_unfold (c : t) (o : os) (hr : option hand) :
  exists q,
    handle_controls c o Gest.PINCH_MINOR hr =
      let c3 := pinch_entry c q in
      let a1 := if grabflag c then [MouseUp "left"] else [] in
      match (if negb (pinchminorflag c)
             then ci <- pinch_control_init c3 hr ;;
                  Ok (set_pinchminorflag ci true)
             else Ok c3) with
      | Raise e => (c3, a1, Raise e)
      | Ok c4 =>
          let '(c5, a2, r) := pinch_control c4 hr in (c5, a1 ++ a2, r)
      end.
Proof.
  unfold handle_controls, pinch_entry.
  destruct (get_position_state c o hr) as [q Hq].
  destruct (get_position c o hr) as [[x y] c0]. cbn [fst snd] in *. subst c0.
  exists q.
  change (Gest.PINCH_MINOR =? Gest.PALM) with false.
  change (Gest.PINCH_MINOR =? Gest.FIST) with false.
  change (Gest.PINCH_MINOR =? Gest.PINCH_MAJOR) with false.
  change (Gest.PINCH_MINOR =? Gest.PINCH_MINOR) with true.
  change (Gest.PINCH_MINOR =? Gest.V_GEST) with false.
  change (Gest.PINCH_MINOR =? Gest.MID) with false.
  change (Gest.PINCH_MINOR =? Gest.INDEX) with false.
  change (Gest.PINCH_MINOR =? Gest.TWO_FINGER_CLOSED) with false.
  flag_cases c; reflexivity.
Qed.

(** [handle_controls] on PINCH_MINOR: the actions are the release of a
    held button followed by what the commit emits; the drag and major
    pinch flags end cleared; the pinch origin is kept while a session
    is open and taken from the index tip when one is opened. *)
Lemma handle_controls_pinch (c : t) (o : os) (hr : option hand) :
  let out := handle_controls c o Gest.PINCH_MINOR hr in
  let c' := fst (fst out) in
  exists commit,
    snd (fst out) = (if grabflag c then [MouseUp "left"] else []) ++ commit
    /\ (((pinchminorflag c = false \/ framecount c <> 5%nat) /\ commit = [])
        \/ (pinchminorflag c = true /\ framecount c = 5%nat
            /\ scroll_actions commit))
    /\ grabflag c' = false /\ flag c' = flag c
    /\ pinchmajorflag c' = false
    /\ (framecount c <= 5 -> framecount c' <= 5)%nat
    /\ (snd out = Ok tt -> pinchminorflag c' = true)
    /\ (pinchminorflag c = true ->
        pinchstartxcoord c' = pinchstartxcoord c
        /\ pinchstartycoord c' = pinchstartycoord c)
    /\ (forall p, pinchminorflag c = false -> landmark hr 8 = Ok p ->
        snd out = Ok tt /\ commit = []
        /\ pinchstartxcoord c' = Some (Lm.x p)
        /\ pinchstartycoord c' = Some (Lm.y p)
        /\ pinchlv c' = 0%float /\ (framecount c' <= 1)%nat)
    /\ (forall p x0 y0, pinchminorflag c = true -> landmark hr 8 = Ok p ->
        pinchstartxcoord c = Some x0 -> pinchstartycoord c = Some y0 ->
        snd out = Ok tt).
Proof.
  destruct (handle_pinch_unfold c o hr) as [q ->]. cbv zeta.
  set (a1 := if grabflag c then [MouseUp "left"] else []).
  destruct (pinchminorflag c) eqn:Hm; cbn [negb].
  - (* a session is open *)
    destruct (pinch_control_frame (pinch_entry c q) hr)
      as (F1 & F2 & F3 & F4 & F5 & F6 & F7 & F8 & F9).
    assert (Hret : forall p x0 y0, landmark hr 8 = Ok p ->
              pinchstartxcoord c = Some x0 -> pinchstartycoord c = Some y0 ->
              snd (pinch_control (pinch_entry c q) hr) = Ok tt).
    { intros p x0 y0 Hl Hx Hy.
      exact (pinch_control_returns (pinch_entry c q) hr p x0 y0 Hl Hx Hy). }
    destruct (pinch_commit_actions (pinch_entry c q)) as [[K1 K2]|[K1 K2]];
      destruct (pinch_control (pinch_entry c q) hr) as [[c5 a2] r];
      cbn [fst snd] in *; exists a2; rewrite F7 in *;
      (split; [reflexivity|]);
      (split; [first [left; split; [right; exact K1 | exact K2]
                     | right; repeat split; assumption]|]);
      repeat split; try assumption;
      try (intros; discriminate);
      try (intros _; rewrite F4; exact Hm);
      try (intros; eapply Hret; eassumption).
  - (* a session is opened *)
    unfold pinch_control_init.
    destruct (landmark hr 8) as [p|e] eqn:Hl; cbn [bind].
    + set (cc := set_pinchminorflag
                   (set_pinch (pinch_entry c q) (Some (Lm.x p))
                      (Some (Lm.y p))
                      (pinchdirectionflag (pinch_entry c q)) 0 0 0) true).
      destruct (pinch_control_frame cc hr)
        as (F1 & F2 & F3 & F4 & F5 & F6 & F7 & F8 & F9).
      pose proof (pinch_control_returns cc hr p _ _ Hl eq_refl eq_refl) as Hr.
      destruct (pinch_commit_actions cc) as [[K1 K2]|[K1 K2]];
        [|discriminate K1].
      destruct (F9 K1) as [G1 G2].
      destruct (pinch_control cc hr) as [[c5 a2] r]; cbn [fst snd] in *.
      exists a2. rewrite F7, K2 in *.
      split; [reflexivity|]. split; [left; split; [now left | reflexivity]|].
      repeat split; try assumption; try (intros; discriminate).
      * intros _. change (framecount cc) with 0%nat in G2. lia.
      * intros _. rewrite F4. reflexivity.
      * match goal with E : Ok _ = Ok _ |- _ => injection E as <- end.
        exact F5.
      * match goal with E : Ok _ = Ok _ |- _ => injection E as <- end.
        exact F6.
    + exists []. subst a1. rewrite app_nil_r. cbn [fst snd].
      split; [reflexivity|]. split; [left; split; [now left | reflexivity]|].
      repeat split; try reflexivity; try (intros; discriminate).
      intros H; exact H.
Qed.

End PinchCall.

(* ===================================================================== *)
(** ** What one call of [handle_controls] emits *)
(* ===================================================================== *)

Definition is_mouse_up (a : action) : bool :=
  match a with MouseUp _ => true | _ => false end.

Definition is_click (a : action) : bool :=
  match a with Click _ | DoubleClick => true | _ => false end.

Definition is_move (a : action) : bool :=
  match a with MoveTo _ _ => true | _ => false end.

Definition is_scroll (a : action) : bool :=
  match a with Scroll _ => true | _ => false end.

Definition is_key (a : action) : bool :=
  match a with KeyDown _ | KeyUp _ => true | _ => false end.

(** How many actions of a kind a trace holds. *)
Definition count (kind : action -> bool) (acts : list action) : nat :=
  List.length (filter kind acts).

Definition b2n (b : bool) : nat := if b then 1 else 0.

(** The key presses of one horizontal scroll. *)
Definition chord : list action :=
  [KeyDown "shift"; KeyDown "ctrl"; KeyUp "ctrl"; KeyUp "shift"].

Section Census.
Import Controller.

Lemma count_app (kind : action -> bool) (a b : list action) :
  count kind (a ++ b) = (count kind a + count kind b)%nat.
Proof. unfold count. now rewrite filter_app, length_app. Qed.

(** The census of one call: how many actions of each kind it emits and
    where it leaves the flags, from the gesture and the flags on
    entry. *)
Lemma handle_controls_census (c : t) (o : os) (g : Z) (hr : option hand) :
  let out := handle_controls c o g hr in
  let c' := fst (fst out) in
  let acts := snd (fst out) in
  count is_mouse_down acts = b2n ((g =? Gest.FIST) && negb (grabflag c))
  /\ count is_mouse_up acts = b2n (negb (g =? Gest.FIST) && grabflag c)
  /\ grabflag c' = (g =? Gest.FIST)
  /\ count is_click acts = b2n (clicking g && flag c)
  /\ flag c' = ((g =? Gest.V_GEST) || (flag c && negb (clicking g)))
  /\ count is_move acts = b2n ((g =? Gest.V_GEST) || (g =? Gest.FIST))
  /\ count is_scroll acts
     = b2n ((g =? Gest.PINCH_MINOR) && pinchminorflag c
            && (framecount c =? 5)%nat)
  /\ (filter is_key acts = [] \/ filter is_key acts = chord)
  /\ (framecount c <= 5 -> framecount c' <= 5)%nat.
Proof.
  destruct (Z.eq_dec g Gest.PINCH_MINOR) as [->|Hn].
  - destruct (handle_controls_pinch c o hr)
      as (commit & Ha & Hc & Hg & Hf & _ & Hfc & _).
    cbv zeta. rewrite Ha, Hg, Hf.
    change (Gest.PINCH_MINOR =? Gest.FIST) with false.
    change (Gest.PINCH_MINOR =? Gest.V_GEST) with false.
    change (Gest.PINCH_MINOR =? Gest.PINCH_MINOR) with true.
    change (clicking Gest.PINCH_MINOR) with false.
    assert (Hsc : count is_scroll commit
                  = b2n (pinchminorflag c && (framecount c =? 5)%nat)
                  /\ (filter is_key commit = [] \/ filter is_key commit = chord)
                  /\ count is_mouse_down commit = 0%nat
                  /\ count is_mouse_up commit = 0%nat
                  /\ count is_click commit = 0%nat
                  /\ count is_move commit = 0%nat).
    { destruct Hc as [[Hs ->]|(Hm & H5 & n & [->| ->])].
      - split; [|repeat split; auto].
        destruct Hs as [->|Hs]; [reflexivity|].
        apply Nat.eqb_neq in Hs. rewrite Hs. now rewrite andb_false_r.
      - rewrite Hm, H5. repeat split; auto.
      - rewrite Hm, H5. repeat split; auto. }
    destruct Hsc as (S1 & S2 & S3 & S4 & S5 & S6).
    rewrite !count_app, filter_app, S1, S3, S4, S5, S6.
    destruct (grabflag c), (flag c); cbn; repeat split; auto.
  - destruct (handle_controls_plain c o g hr Hn)
      as (c' & He & Hg & Hf & _ & _ & Hs).
    cbv zeta. rewrite He. cbn [fst snd]. rewrite Hg, Hf.
    assert (Hfc : framecount c' = framecount c)
      by (unfold pinch_registers in Hs; congruence).
    rewrite Hfc. unfold plain_actions, clicking.
    gesture_cases g; try contradiction;
      destruct (grabflag c), (flag c); cbn; repeat split; auto.
Qed.

End Census.

(** X9.  [handle_controls] raises only on PINCH_MINOR: for every other
    gesture it returns, whatever the landmarks, even without a hand; and
    what it raises on PINCH_MINOR is what reading the index tip or the
    pinch origin raises. *)
Theorem handle_controls_raises_only_on_pinch :
  forall (c : Controller.t) (o : os) (g : Z) (hr : option hand) (e : exn),
    snd (Controller.handle_controls c o g hr) = Raise e ->
    g = Gest.PINCH_MINOR /\ hand_error e
    /\ (Controller.pinchminorflag c = false ->
        exists e', landmark hr 8 = Raise e').
Proof.
  intros c o g hr e He.
  destruct (Z.eq_dec g Gest.PINCH_MINOR) as [->|Hn].
  - split; [reflexivity|]. split; [exact (handle_controls_error _ _ _ _ _ He)|].
    intros Hm. destruct (landmark hr 8) as [p|e'] eqn:Hl; [|now exists e'].
    destruct (handle_controls_pinch c o hr)
      as (commit & _ & _ & _ & _ & _ & _ & _ & _ & Hopen & _).
    destruct (Hopen p Hm Hl) as [Hok _]. congruence.
  - destruct (handle_controls_plain c o g hr Hn) as (c' & Heq & _).
    rewrite Heq in He. discriminate.
Qed.

Lemma handle_controls_raises_only_on_pinch_witness :
  Gest.PINCH_MINOR = Gest.PINCH_MINOR
  /\ hand_error (AttributeError "landmark")
  /\ (Controller.pinchminorflag Controller.init = false ->
      exists e', landmark None 8 = Raise e').
Proof.
  apply (handle_controls_raises_only_on_pinch Controller.init screen
           Gest.PINCH_MINOR None (AttributeError "landmark")).
  reflexivity.
Defined.

(* ===================================================================== *)
(** ** Invariants of the frame loop *)
(* ===================================================================== *)

Section Lift.

(** A relation between the controller before, the actions emitted and
    the controller after, that every call of [handle_controls] and the
    loop's own write to [prev_hand] satisfy and that composes. *)
Variable R : Controller.t -> list action -> Controller.t -> Prop.

Hypothesis R_refl : forall c, R c [] c.
Hypothesis R_forget : forall c, R c [] (Controller.set_prev_hand c None).
Hypothesis R_call : forall c o g hr,
  R c (snd (fst (Controller.handle_controls c o g hr)))
      (fst (fst (Controller.handle_controls c o g hr))).
Hypothesis R_trans : forall c1 a c2 b c3,
  R c1 a c2 -> R c2 b c3 -> R c1 (a ++ b) c3.

Lemma frame_step_lift (s : session) (o : os) (r : results) :
  R (controller s) (snd (fst (frame_step s o r)))
    (controller (fst (fst (frame_step s o r)))).
Proof.
  unfold frame_step. destruct (truthy (multi_hand_landmarks r));
    [|apply R_forget].
  unfold frame_hands.
  destruct (GestureController.classify_hands true r) as [hr_major hr_minor].
  destruct (observe (handmajor s) hr_major) as [hM|e]; [|apply R_refl].
  destruct (observe (handminor s) hr_minor) as [hm|e]; [|apply R_refl].
  destruct (HandRecog.get_gesture hm) as [[gm hm']|e]; [|apply R_refl].
  destruct (gm =? Gest.PINCH_MINOR).
  - pose proof (R_call (controller s) o gm (HandRecog.hand_result hm')) as H.
    destruct (Controller.handle_controls _ _ _ _) as [[c' acts] res].
    exact H.
  - destruct (HandRecog.get_gesture hM) as [[gM hM']|e]; [|apply R_refl].
    pose proof (R_call (controller s) o gM (HandRecog.hand_result hM')) as H.
    destruct (Controller.handle_controls _ _ _ _) as [[c' acts] res].
    exact H.
Qed.

Lemma run_frames_lift (frames : list (os * results)) : forall (s : session),
  R (controller s) (snd (fst (run_frames s frames)))
    (controller (fst (fst (run_frames s frames)))).
Proof.
  induction frames as [|[o r] frames IH]; intros s; [apply R_refl|].
  cbn [run_frames]. pose proof (frame_step_lift s o r) as H1.
  destruct (frame_step s o r) as [[s1 acts] [u|e]]; cbn [fst snd] in *.
  - pose proof (IH s1) as H2.
    destruct (run_frames s1 frames) as [[s2 acts2] res]. cbn [fst snd] in *.
    exact (R_trans _ _ _ _ _ H1 H2).
  - exact H1.
Qed.

End Lift.

(** X10.  Over any run of the frame loop, the presses and releases of
    the left button balance against [grabflag]: presses plus 1 if the
    button was held at the start equal releases plus 1 if it is held at
    the end.  From the initial session the button is therefore never
    pressed twice without a release nor released without a press, and
    [grabflag] always tells whether it is held. *)
Theorem button_presses_and_releases_balance :
  forall (s : session) (frames : list (os * results)),
    let out := run_frames s frames in
    (count is_mouse_down (snd (fst out))
     + b2n (Controller.grabflag (controller s)))%nat
    = (count is_mouse_up (snd (fst out))
       + b2n (Controller.grabflag (controller (fst (fst out)))))%nat.
Proof.
  intros s frames.
  apply (run_frames_lift
           (fun c acts c' =>
              (count is_mouse_down acts + b2n (Controller.grabflag c))%nat
              = (count is_mouse_up acts + b2n (Controller.grabflag c'))%nat)).
  - reflexivity.
  - reflexivity.
  - intros c o g hr.
    destruct (handle_controls_census c o g hr) as (Hd & Hu & Hg & _).
    cbv zeta in *. rewrite Hd, Hu, Hg.
    destruct (g =? Gest.FIST), (Controller.grabflag c); reflexivity.
  - intros c1 a c2 b c3 H1 H2. rewrite !count_app. lia.
Qed.

(** X11.  Over any run of the frame loop the pinch stability counter
    stays at most 5 if it starts at most 5, so the test
    [framecount == 5] that commits a scroll cannot be stepped over. *)
Theorem pinch_counter_never_passes_five :
  forall (s : session) (frames : list (os * results)),
    (Controller.framecount (controller s) <= 5)%nat ->
    (Controller.framecount (controller (fst (fst (run_frames s frames))))
     <= 5)%nat.
Proof.
  intros s frames.
  apply (run_frames_lift
           (fun c _ c' => (Controller.framecount c <= 5)%nat ->
                          (Controller.framecount c' <= 5)%nat)).
  - auto.
  - auto.
  - intros c o g hr.
    destruct (handle_controls_census c o g hr) as (_&_&_&_&_&_&_&_&H).
    exact H.
  - intros c1 a c2 b c3 H1 H2 H. auto.
Qed.

Lemma pinch_counter_never_passes_five_witness :
  (Controller.framecount
     (controller (fst (fst (run_frames session_init
                              (repeat (screen, fist_results) 7))))) <= 5)%nat.
Proof.
  apply (pinch_counter_never_passes_five session_init
           (repeat (screen, fist_results) 7)).
  simpl. lia.
Defined.

(** X12.  Over any run of the frame loop the modifier keys are pressed
    and released only in whole chords -- shift down, ctrl down, ctrl up,
    shift up: no modifier key is ever left held. *)
Theorem modifier_keys_come_in_chords :
  forall (s : session) (frames : list (os * results)),
    exists n,
      filter is_key (snd (fst (run_frames s frames)))
        = List.concat (repeat chord n).
Proof.
  intros s frames.
  apply (run_frames_lift
           (fun _ acts _ => exists n, filter is_key acts = List.concat (repeat chord n))).
  - intros _. now exists 0%nat.
  - intros _. now exists 0%nat.
  - intros c o g hr.
    destruct (handle_controls_census c o g hr) as (_&_&_&_&_&_&_&[H|H]&_);
      cbv zeta in H; rewrite H; [now exists 0%nat | now exists 1%nat].
  - intros c1 a c2 b c3 [n Hn] [m Hm]. exists (n + m)%nat.
    now rewrite filter_app, Hn, Hm, repeat_app, concat_app.
Qed.

(* ===================================================================== *)
(** ** Sequences of calls *)
(* ===================================================================== *)

(** [handle_controls] called once per entry with the entry's screen
    answers, gesture and landmarks, up to the first exception. *)
Fixpoint control_run (c : Controller.t) (calls : list (os * Z * option hand))
  : Controller.t * list action :=
  match calls with
  | [] => (c, [])
  | (o, g, hr) :: rest =>
      match Controller.handle_controls c o g hr with
      | (c1, acts, Ok _) =>
          let '(c2, more) := control_run c1 rest in (c2, acts ++ more)
      | (c1, acts, Raise _) => (c1, acts)
      end
  end.

(** The calls made with gesture [g]. *)
Definition calls_with (g : Z) (calls : list (os * Z * option hand)) : nat :=
  List.length (filter (fun call => snd (fst call) =? g) calls).

Lemma arming_step (c : Controller.t) (o : os) (g : Z) (hr : option hand) :
  (count is_click (snd (fst (Controller.handle_controls c o g hr)))
   + b2n (Controller.flag (fst (fst (Controller.handle_controls c o g hr)))))%nat
  = if g =? Gest.V_GEST then 1%nat else b2n (Controller.flag c).
Proof.
  destruct (handle_controls_census c o g hr) as (_&_&_& Hc & Hf & _).
  cbv zeta in *. rewrite Hc, Hf. unfold clicking.
  destruct (Z.eqb_spec g Gest.V_GEST) as [->|Hn].
  - reflexivity.
  - cbn [orb].
    destruct ((g =? Gest.MID) || (g =? Gest.INDEX)
              || (g =? Gest.TWO_FINGER_CLOSED)), (Controller.flag c);
      reflexivity.
Qed.

(** X13.  Clicks need arming: over any sequence of calls of
    [handle_controls], the clicks and double clicks emitted, plus 1 if
    the controller ends armed, are at most the calls made with V_GEST,
    plus 1 if it started armed.  From the initial controller there are
    never more clicks than V gestures. *)
Theorem clicks_need_arming :
  forall (calls : list (os * Z * option hand)) (c : Controller.t),
    (count is_click (snd (control_run c calls))
     + b2n (Controller.flag (fst (control_run c calls)))
     <= b2n (Controller.flag c) + calls_with Gest.V_GEST calls)%nat.
Proof.
  induction calls as [|[[o g] hr] calls IH]; intros c.
  - cbn. lia.
  - cbn [control_run]. pose proof (arming_step c o g hr) as Hs.
    unfold calls_with in *. cbn [filter fst snd].
    destruct (Controller.handle_controls c o g hr) as [[c1 acts] [u|e]];
      cbn [fst snd] in Hs.
    + specialize (IH c1).
      destruct (control_run c1 calls) as [c2 more]. cbn [fst snd] in *.
      rewrite count_app.
      destruct (g =? Gest.V_GEST); cbn [List.length]; lia.
    + cbn [fst snd].
      destruct (g =? Gest.V_GEST); cbn [List.length]; lia.
Qed.

(** X14.  What one call of [handle_controls] does to the pointer: it
    moves the cursor exactly once on V_GEST and on FIST and never
    otherwise, and it scrolls exactly once when the gesture is
    PINCH_MINOR, a pinch session is open and the stability counter is at
    5, and never otherwise. *)
Theorem moves_and_scrolls_by_gesture :
  forall (c : Controller.t) (o : os) (g : Z) (hr : option hand),
    let acts := snd (fst (Controller.handle_controls c o g hr)) in
    count is_move acts
      = (if (g =? Gest.V_GEST) || (g =? Gest.FIST) then 1%nat else 0%nat)
    /\ count is_scroll acts
       = (if (g =? Gest.PINCH_MINOR) && Controller.pinchminorflag c
             && (Controller.framecount c =? 5)%nat then 1%nat else 0%nat).
Proof.
  intros c o g hr.
  destruct (handle_controls_census c o g hr) as (_&_&_&_&_& Hm & Hs & _).
  split; [exact Hm | exact Hs].
Qed.

(* ===================================================================== *)
(** ** The pinch origin *)
(* ===================================================================== *)

Section PinchOrigin.
Import Controller.

Lemma landmark_present (h : hand) (i : nat) :
  (i < List.length h)%nat -> exists p, landmark (Some h) i = Ok p.
Proof.
  intros Hi. unfold landmark.
  destruct (nth_error h i) as [p|] eqn:Hn; [now exists p|].
  apply nth_error_None in Hn. lia.
Qed.

(** While the gesture stays PINCH_MINOR on hands that have an index
    tip, no call raises and the origin stays. *)
Lemma pinch_frames_keep (o : os) (hands : list hand) :
  forall (c : t) (x0 y0 : float),
    pinchminorflag c = true ->
    pinchstartxcoord c = Some x0 -> pinchstartycoord c = Some y0 ->
    Forall (fun h => (8 < List.length h)%nat) hands ->
    let out := Pinch.pinch_frames c o hands in
    pinchstartxcoord (fst out) = Some x0
    /\ pinchstartycoord (fst out) = Some y0
    /\ List.length (snd out) = List.length hands.
Proof.
  induction hands as [|h hands IH]; intros c x0 y0 Hm Hx Hy Hall.
  - repeat split; assumption.
  - inversion Hall as [|? ? Hh Hrest]; subst.
    destruct (landmark_present h 8 Hh) as [p Hp].
    destruct (handle_controls_pinch c o (Some h))
      as (commit & _ & _ & _ & _ & _ & _ & Hflag & Hkeep & _ & Hret).
    cbv zeta in *. specialize (Hret p x0 y0 Hm Hp Hx Hy).
    destruct (Hkeep Hm) as [Kx Ky]. cbn [Pinch.pinch_frames].
    destruct (handle_controls c o Gest.PINCH_MINOR (Some h))
      as [[c1 acts] res]. cbn [fst snd] in *. subst res.
    destruct (IH c1 x0 y0 (Hflag eq_refl)) as (I1 & I2 & I3);
      [congruence | congruence | exact Hrest |].
    destruct (Pinch.pinch_frames c1 o hands) as [c2 later].
    cbn [fst snd List.length] in *. repeat split; congruence.
Qed.

End PinchOrigin.

(** X15.  A pinch session takes its origin from the index tip of the
    frame that opens it and keeps it for as long as the gesture stays
    PINCH_MINOR: after any number of further pinch frames on hands with
    an index tip, no call has raised and the origin is still the first
    frame's index tip. *)
Theorem pinch_origin_is_the_first_index_tip :
  forall (c : Controller.t) (o : os) (h : hand) (hands : list hand) (p : Lm.t),
    Controller.pinchminorflag c = false ->
    nth_error h 8 = Some p ->
    Forall (fun h' => (8 < List.length h')%nat) hands ->
    let out := Pinch.pinch_frames c o (h :: hands) in
    Controller.pinchstartxcoord (fst out) = Some (Lm.x p)
    /\ Controller.pinchstartycoord (fst out) = Some (Lm.y p)
    /\ List.length (snd out) = S (List.length hands).
Proof.
  intros c o h hands p Hm Hn Hall.
  assert (Hp : landmark (Some h) 8 = Ok p) by (unfold landmark; now rewrite Hn).
  destruct (handle_controls_pinch c o (Some h))
    as (commit & _ & _ & _ & _ & _ & _ & Hflag & _ & Hopen & _).
  cbv zeta in *. destruct (Hopen p Hm Hp) as (Hok & _ & Hx & Hy & _).
  cbn [Pinch.pinch_frames].
  destruct (Controller.handle_controls c o Gest.PINCH_MINOR (Some h))
    as [[c1 acts] res]. cbn [fst snd] in *. subst res.
  destruct (pinch_frames_keep o hands c1 _ _ (Hflag eq_refl) Hx Hy Hall)
    as (I1 & I2 & I3).
  destruct (Pinch.pinch_frames c1 o hands) as [c2 later].
  cbn [fst snd List.length] in *. repeat split; congruence.
Qed.

Lemma pinch_origin_witness :
  let out := Pinch.pinch_frames Controller.init screen Pinch.six_hands in
  Controller.pinchstartxcoord (fst out) = Some 0.5%float
  /\ Controller.pinchstartycoord (fst out) = Some 0.5%float
  /\ List.length (snd out) = 6%nat.
Proof.
  apply (pinch_origin_is_the_first_index_tip Controller.init screen
           (Pinch.pinching 0.5)
           (map Pinch.pinching [0.535; 0.536; 0.534; 0.535; 0.535]%float)
           (Hands.pt 0.5 0.5)).
  - reflexivity.
  - reflexivity.
  - repeat constructor; simpl; lia.
Defined.

(** X16.  Any other gesture ends the pinch session: after a call of
    [handle_controls] with a gesture other than PINCH_MINOR, the next
    PINCH_MINOR call on a hand with an index tip returns, opens a fresh
    session at that index tip with level 0, and does not scroll,
    whatever the stability counter was. *)
Theorem other_gesture_restarts_the_pinch :
  forall (c : Controller.t) (o o' : os) (g : Z) (hr : option hand)
         (h : hand) (p : Lm.t),
    g <> Gest.PINCH_MINOR ->
    nth_error h 8 = Some p ->
    let c1 := fst (fst (Controller.handle_controls c o g hr)) in
    let out := Controller.handle_controls c1 o' Gest.PINCH_MINOR (Some h) in
    Controller.pinchminorflag c1 = false
    /\ snd out = Ok tt
    /\ Controller.pinchstartxcoord (fst (fst out)) = Some (Lm.x p)
    /\ Controller.pinchstartycoord (fst (fst out)) = Some (Lm.y p)
    /\ Controller.pinchlv (fst (fst out)) = 0%float
    /\ count is_scroll (snd (fst out)) = 0%nat.
Proof.
  intros c o o' g hr h p Hg Hn c1 out.
  assert (Hp : landmark (Some h) 8 = Ok p) by (unfold landmark; now rewrite Hn).
  assert (Hm : Controller.pinchminorflag c1 = false).
  { subst c1. destruct (handle_controls_plain c o g hr Hg) as (c' & -> & H).
    cbn [fst]. tauto. }
  destruct (handle_controls_pinch c1 o' (Some h))
    as (commit & _ & _ & _ & _ & _ & _ & _ & _ & Hopen & _).
  destruct (Hopen p Hm Hp) as (Hok & _ & Hx & Hy & Hlv & _).
  destruct (handle_controls_census c1 o' Gest.PINCH_MINOR (Some h))
    as (_&_&_&_&_&_& Hs & _).
  cbv zeta in Hs. rewrite Hm in Hs.
  repeat split; assumption.
Qed.

Lemma other_gesture_restarts_the_pinch_witness :
  let c := fst (Pinch.pinch_levels Pinch.opened (firstn 7 Pinch.eight_levels)) in
  let c1 := fst (fst (Controller.handle_controls
                        (Controller.set_pinchminorflag c true) screen
                        Gest.PALM None)) in
  let out := Controller.handle_controls c1 screen Gest.PINCH_MINOR
               (Some (Pinch.pinching 0.7)) in
  Controller.framecount c = 5%nat
  /\ Controller.pinchminorflag c1 = false
  /\ snd out = Ok tt
  /\ Controller.pinchstartxcoord (fst (fst out)) = Some 0.7%float
  /\ Controller.pinchstartycoord (fst (fst out)) = Some 0.5%float
  /\ Controller.pinchlv (fst (fst out)) = 0%float
  /\ count is_scroll (snd (fst out)) = 0%nat.
Proof.
  intros c c1 out. split; [reflexivity|].
  apply (other_gesture_restarts_the_pinch
           (Controller.set_pinchminorflag c true) screen screen Gest.PALM None
           (Pinch.pinching 0.7) (Hands.pt 0.7 0.5)).
  - discriminate.
  - reflexivity.
Defined.

(* ===================================================================== *)
(** ** GestureController.start *)
(* ===================================================================== *)

(** [GestureController.start] of [gcpy.py], from the frame the camera
    delivered on: it builds two new recognisers, runs the body of the
    loop once on the frame's detection and returns.  The controller's
    class attributes are what lives on between calls. *)
Definition start (c : Controller.t) (o : os) (r : results)
  : Controller.t * list action * result unit :=
  let handmajor := HandRecog.init HLabel.MAJOR in
  let handminor := HandRecog.init HLabel.MINOR in
  if truthy (multi_hand_landmarks r) then
    let '(s', acts, res) :=
      frame_hands (mkSession handmajor handminor c) o r in
    (controller s', acts, res)
  else (c, [], Ok tt).

Section Start.
Import HandRecog.

(** A recogniser that has seen no frame before answers PALM, whatever
    it is shown. *)
Lemma fresh_recogniser_answers_palm (label : Z) (hr : option hand)
    (s1 s2 : t) (g : Z) :
  observe (init label) hr = Ok s1 ->
  get_gesture s1 = Ok (g, s2) ->
  g = Gest.PALM.
Proof.
  unfold observe, set_finger_state.
  cbn [update_hand_result hand_result init].
  destruct hr as [h|].
  - destruct (finger_loop _ points (Z.lor 0 0)) as [f|e]; cbn [bind];
      [|discriminate].
    intros H; injection H as <-. unfold get_gesture.
    cbn [hand_result set_finger].
    destruct (current_gesture _) as [cur|e]; cbn [bind]; [|discriminate].
    intros H; injection H as <- _. unfold settle.
    cbn [fst prev_gesture frame_count ori_gesture set_finger].
    now destruct (cur =? Gest.PALM).
  - intros H; injection H as <-. unfold get_gesture. cbn [hand_result].
    intros H; now injection H as <- _.
Qed.

End Start.

(** What the flag reset of [handle_controls] leaves of a controller when
    the gesture is PALM: no button held and no pinch session open. *)
Definition flags_reset (c : Controller.t) : Controller.t :=
  Controller.set_pinchminorflag
    (Controller.set_pinchmajorflag (Controller.set_grabflag c false) false)
    false.

(** [handle_controls] with PALM does not ask for a position: it runs the
    three flag resets and nothing else. *)
Lemma handle_controls_palm (c : Controller.t) (o : os) (hr : option hand) :
  Controller.handle_controls c o Gest.PALM hr
  = (flags_reset c,
     (if Controller.grabflag c then [MouseUp "left"] else []),
     Ok tt).
Proof.
  destruct c as [? ? ? fl gf pmj pmn ? ? ? ? ? ? ? ?].
  destruct gf, pmj, pmn; reflexivity.
Qed.

(** A controller in an open pinch session whose stability counter has
    reached 5: the next call with PINCH_MINOR commits a scroll. *)
Definition scroll_due : Controller.t :=
  Controller.set_pinchminorflag
    (fst (Pinch.pinch_levels Pinch.opened (firstn 7 Pinch.eight_levels)))
    true.

(** One detected hand, pinching, which the detector labels 'Left'. *)
Definition left_pinch_results : results :=
  mkResults (Some [Pinch.pinching 0.535])
    (Some [Parsed (VDict [("classification"%string,
             VList [VDict [("index"%string, VInt 0);
                           ("score"%string, VFloat 0.95);
                           ("label"%string, VStr "Left")]])])]).

(** X17.  [GestureController.start] builds its recognisers anew on every
    call, so their run counters never pass 1 and both answer PALM.  A
    call that sees no hand, or in which a recogniser raises, leaves the
    controller as it was and emits nothing.  Every other call reaches
    [handle_controls] with PALM, which runs the flag reset and nothing
    else: it releases a held button -- the only action a call can emit --
    and it clears [grabflag], [pinchmajorflag] and [pinchminorflag], so
    it ends an open pinch session.  It never moves the cursor, presses,
    clicks or scrolls, and it leaves the armed flag and the pinch
    registers (origin, direction, levels, counter) as they were. *)
Theorem start_only_releases_the_button :
  forall (c : Controller.t) (o : os) (r : results),
    let out := start c o r in
    (snd (fst out) = [] \/ snd (fst out) = [MouseUp "left"])
    /\ (Controller.grabflag c = false -> snd (fst out) = [])
    /\ Controller.flag (fst (fst out)) = Controller.flag c
    /\ pinch_registers (fst (fst out)) = pinch_registers c
    /\ (truthy (multi_hand_landmarks r) = false -> out = (c, [], Ok tt))
    /\ (forall e, snd out = Raise e -> fst out = (c, []))
    /\ (truthy (multi_hand_landmarks r) = true -> snd out = Ok tt ->
        out = (flags_reset c,
               (if Controller.grabflag c then [MouseUp "left"] else []),
               Ok tt)
        /\ Controller.grabflag (fst (fst out)) = false
        /\ Controller.pinchmajorflag (fst (fst out)) = false
        /\ Controller.pinchminorflag (fst (fst out)) = false).
Proof.
  intros c o r. unfold start.
  destruct (truthy (multi_hand_landmarks r));
    [|cbn; repeat split; auto; discriminate].
  unfold frame_hands. cbn [handmajor handminor controller].
  destruct (GestureController.classify_hands true r) as [hr_major hr_minor].
  destruct (observe (HandRecog.init HLabel.MAJOR) hr_major) as [hM|e] eqn:HM;
    [|cbn; repeat split; auto; discriminate].
  destruct (observe (HandRecog.init HLabel.MINOR) hr_minor) as [hm|e] eqn:Hm;
    [|cbn; repeat split; auto; discriminate].
  destruct (HandRecog.get_gesture hm) as [[gm hm']|e] eqn:Hgm;
    [|cbn; repeat split; auto; discriminate].
  rewrite (fresh_recogniser_answers_palm _ _ _ _ _ Hm Hgm).
  change (Gest.PALM =? Gest.PINCH_MINOR) with false. cbv iota.
  destruct (HandRecog.get_gesture hM) as [[gM hM']|e] eqn:HgM;
    [|cbn; repeat split; auto; discriminate].
  rewrite (fresh_recogniser_answers_palm _ _ _ _ _ HM HgM).
  rewrite handle_controls_palm. cbn [fst snd controller].
  destruct c as [? ? ? fl gf pmj pmn ? ? ? ? ? ? ? ?].
  destruct gf; cbn; repeat split; auto; discriminate.
Qed.

(** With a scroll due, a call of [handle_controls] with PINCH_MINOR --
    what the loop of [app.py] makes once its minor recogniser has
    settled on the pinch -- commits the scroll; a call of [start] on a
    frame that shows the pinching hand closes the session instead and
    emits nothing. *)
Lemma start_closes_the_pinch_witness :
  let out := start scroll_due screen left_pinch_results in
  Controller.pinchminorflag scroll_due = true
  /\ Controller.framecount scroll_due = 5%nat
  /\ snd (fst (Controller.handle_controls scroll_due screen Gest.PINCH_MINOR
                 (Some (Pinch.pinching 0.535))))
     = [KeyDown "shift"; KeyDown "ctrl"; Scroll (-120);
        KeyUp "ctrl"; KeyUp "shift"]
  /\ out = (flags_reset scroll_due, [], Ok tt)
  /\ Controller.pinchminorflag (fst (fst out)) = false.
Proof.
  intros out.
  split; [reflexivity|]. split; [reflexivity|].
  split; [vm_compute; reflexivity|].
  destruct (proj2 (proj2 (proj2 (proj2 (proj2 (proj2
              (start_only_releases_the_button scroll_due screen
                 left_pinch_results))))))) as (Hout & _ & _ & Hmn).
  - reflexivity.
  - vm_compute. reflexivity.
  - split; [exact Hout | exact Hmn].
Defined.

(* ===================================================================== *)
(** ** Two detections *)
(* ===================================================================== *)

(** The detection of two hands with the given landmarks and handedness
    dictionaries, in that order. *)
Definition two_hands (h0 h1 : hand) (d0 d1 : pyval) : results :=
  mkResults (Some [h0; h1]) (Some [Parsed d0; Parsed d1]).

Lemma classify_two_hands (dom_hand : bool) (h0 h1 : hand) (d0 d1 l0 l1 : pyval) :
  GestureController.label_of d0 = Ok l0 ->
  GestureController.label_of d1 = Ok l1 ->
  GestureController.classify_hands dom_hand (two_hands h0 h1 d0 d1)
    = (let sides :=
         match GestureController.is_Right l0, GestureController.is_Right l1 with
         | true, true => (None, Some h1)
         | true, false => (Some h1, Some h0)
         | false, true => (Some h0, Some h1)
         | false, false => (Some h1, None)
         end in
       if dom_hand then (snd sides, fst sides) else sides).
Proof.
  intros H0 H1.
  unfold GestureController.classify_hands, GestureController.assign,
    GestureController.hand_side, two_hands.
  cbn [multi_handedness multi_hand_landmarks GestureController.subscript
       nth_error bind GestureController.MessageToDict].
  rewrite H0, H1. cbn [bind].
  destruct (GestureController.is_Right l0), (GestureController.is_Right l1),
    dom_hand; reflexivity.
Qed.

(** X18.  When one of two detections is labelled 'Right' and the other
    is not, [classify_hands] gives the same roles whichever of the two
    the detector lists first: with the right hand dominant the major
    hand is the one labelled 'Right' and the minor hand the other. *)
Theorem roles_do_not_depend_on_detection_order :
  forall (dom_hand : bool) (right_hand left_hand : hand)
         (dr dl lr ll : pyval),
    GestureController.label_of dr = Ok lr ->
    GestureController.label_of dl = Ok ll ->
    GestureController.is_Right lr = true ->
    GestureController.is_Right ll = false ->
    GestureController.classify_hands dom_hand
      (two_hands right_hand left_hand dr dl)
    = GestureController.classify_hands dom_hand
        (two_hands left_hand right_hand dl dr)
    /\ GestureController.classify_hands true
         (two_hands right_hand left_hand dr dl)
       = (Some right_hand, Some left_hand)
    /\ GestureController.classify_hands false
         (two_hands right_hand left_hand dr dl)
       = (Some left_hand, Some right_hand).
Proof.
  intros dom_hand rh lh dr dl lr ll Hr Hl Er El.
  rewrite !(classify_two_hands _ rh lh dr dl lr ll Hr Hl),
          (classify_two_hands _ lh rh dl dr ll lr Hl Hr), Er, El.
  repeat split.
Qed.

Definition handedness (label : string) : pyval :=
  VDict [("classification"%string,
          VList [VDict [("index"%string, VInt 1);
                        ("score"%string, VFloat 0.9);
                        ("label"%string, VStr label)]])].

Lemma roles_do_not_depend_on_detection_order_witness :
  GestureController.classify_hands true
    (two_hands Hands.fist Hands.open4 (handedness "Right") (handedness "Left"))
  = GestureController.classify_hands true
      (two_hands Hands.open4 Hands.fist (handedness "Left") (handedness "Right"))
  /\ GestureController.classify_hands true
       (two_hands Hands.fist Hands.open4 (handedness "Right") (handedness "Left"))
     = (Some Hands.fist, Some Hands.open4)
  /\ GestureController.classify_hands false
       (two_hands Hands.fist Hands.open4 (handedness "Right") (handedness "Left"))
     = (Some Hands.open4, Some Hands.fist).
Proof.
  apply (roles_do_not_depend_on_detection_order true Hands.fist Hands.open4
           (handedness "Right") (handedness "Left")
           (VStr "Right") (VStr "Left")); reflexivity.
Defined.

(** X19.  When both detections carry a label of the same side, the
    second detection takes that side's role and the first is lost: both
    'Right' with the right hand dominant leaves the second hand as major
    and no minor hand; both not 'Right' leaves the second hand as minor
    and no major hand. *)
Theorem same_side_twice_keeps_the_second :
  forall (h0 h1 : hand) (d0 d1 l0 l1 : pyval),
    GestureController.label_of d0 = Ok l0 ->
    GestureController.label_of d1 = Ok l1 ->
    GestureController.is_Right l0 = GestureController.is_Right l1 ->
    GestureController.classify_hands true (two_hands h0 h1 d0 d1)
    = if GestureController.is_Right l1 then (Some h1, None)
      else (None, Some h1).
Proof.
  intros h0 h1 d0 d1 l0 l1 H0 H1 E.
  rewrite (classify_two_hands true h0 h1 d0 d1 l0 l1 H0 H1), E.
  now destruct (GestureController.is_Right l1).
Qed.

Lemma same_side_twice_keeps_the_second_witness :
  GestureController.classify_hands true
    (two_hands Hands.fist Hands.open4 (handedness "Right") (handedness "Right"))
  = (Some Hands.open4, None).
Proof.
  apply (same_side_twice_keeps_the_second Hands.fist Hands.open4
           (handedness "Right") (handedness "Right")
           (VStr "Right") (VStr "Right")); reflexivity.
Defined.

(* ===================================================================== *)
(** ** The two recognisers in the loop *)
(* ===================================================================== *)

Section TwoRecognisers.
Import HandRecog Raw.

Lemma observe_same_debounce (self s1 : t) (hr : option hand) :
  observe self hr = Ok s1 -> same_debounce s1 self.
Proof.
  unfold observe, set_finger_state. cbn [update_hand_result hand_result].
  destruct hr as [h|].
  - destruct (finger_loop _ points (Z.lor 0 0)) as [f|e]; cbn [bind];
      [|discriminate].
    intros H; injection H as <-. repeat split.
  - intros H; injection H as <-. repeat split.
Qed.

Lemma observe_hand (self s1 : t) (hr : option hand) :
  observe self hr = Ok s1 -> hand_result s1 = hr.
Proof.
  unfold observe, set_finger_state. cbn [update_hand_result hand_result].
  destruct hr as [h|].
  - destruct (finger_loop _ points (Z.lor 0 0)) as [f|e]; cbn [bind];
      [|discriminate].
    intros H; now injection H as <-.
  - intros H; now injection H as <-.
Qed.

(** With a hand in view, the answer of [get_gesture] is the settled
    gesture it leaves behind. *)
Lemma answer_is_settled (self s' : t) (h : hand) (g : Z) :
  hand_result self = Some h -> get_gesture self = Ok (g, s') ->
  g = ori_gesture s'.
Proof.
  intros Hh. unfold get_gesture. rewrite Hh.
  destruct (current_gesture self) as [cur|e]; cbn [bind]; [|discriminate].
  intros H; injection H as <- <-. reflexivity.
Qed.

End TwoRecognisers.

(** X20.  The loop asks the major recogniser for its gesture only when
    the minor one did not answer PINCH_MINOR.  So on a frame that shows
    the minor hand and leaves the minor recogniser settled on
    PINCH_MINOR, the major recogniser's settled gesture, previous raw
    gesture and run counter are what they were: the major hand's
    debounce stands still while the minor hand scrolls. *)
Theorem major_debounce_pauses_during_pinch :
  forall (s : session) (o : os) (r : results)
         (major : option hand) (minor : hand),
    GestureController.classify_hands true r = (major, Some minor) ->
    HandRecog.ori_gesture (handminor (fst (fst (frame_step s o r))))
      = Gest.PINCH_MINOR ->
    Raw.same_debounce (handmajor (fst (fst (frame_step s o r)))) (handmajor s).
Proof.
  intros s o r major minor Hcl Hafter.
  unfold frame_step in *.
  destruct (truthy (multi_hand_landmarks r)); [|repeat split].
  unfold frame_hands in *. rewrite Hcl in *.
  destruct (observe (handmajor s) major) as [hM|e] eqn:HM;
    [|repeat split].
  pose proof (observe_same_debounce _ _ _ HM) as HdM.
  destruct (observe (handminor s) (Some minor)) as [hm|e] eqn:Hm;
    [|exact HdM].
  pose proof (observe_hand _ _ _ Hm) as Hh.
  destruct (HandRecog.get_gesture hm) as [[gm hm']|e] eqn:Hg; [|exact HdM].
  pose proof (answer_is_settled hm hm' minor gm Hh Hg) as Ha.
  destruct (Z.eqb_spec gm Gest.PINCH_MINOR) as [E|E].
  - destruct (Controller.handle_controls _ _ _ _) as [[c' acts] res].
    exact HdM.
  - exfalso. apply E. rewrite Ha.
    destruct (HandRecog.get_gesture hM) as [[gM hM']|e'].
    + destruct (Controller.handle_controls _ _ _ _) as [[c' acts] res].
      exact Hafter.
    + exact Hafter.
Qed.

(** One left hand, pinching at the centre of the frame. *)
Definition pinch_results : results :=
  mkResults (Some [Pinch.pinching 0.5]) (Some [Parsed (handedness "Left")]).

Lemma major_debounce_pauses_witness :
  let s := fst (fst (run_frames session_init
                       (repeat (screen, pinch_results) 5))) in
  Raw.same_debounce (handmajor (fst (fst (frame_step s screen pinch_results))))
    (handmajor s).
Proof.
  intros s.
  apply (major_debounce_pauses_during_pinch s screen pinch_results None
           (Pinch.pinching 0.5)).
  - reflexivity.
  - vm_compute. reflexivity.
Defined.
